(** * Blockchain settlement layer: registry, Bitcoin client, Ethereum client

    A shallow embedding of [src/blockchain/blockchain.go] (the client
    registry and the Bitcoin client) and [src/blockchain/ethereum.go] (the
    Ethereum client), followed by the properties established about them.

    Conventions.
    - Go [float64] is the kernel's binary64 [float]; Go's [+], [-], [*],
      [<], [>=] on [float64] are [PrimFloat.add], [sub], [mul], [ltb], [leb].
    - Go [uint64] and [int64] are [Z] with the wrap-around written out.
    - A Go [(T, error)] result is a [result T]; a run-time panic is the
      third outcome [Panic].
    - Calls to the ledger node and signing operations are recorded in a
      trace, threaded by the monad [M]; the node's answers are read from an
      oracle record held by the client (the [client] field of the source).
    - Functions of the third-party libraries the source calls are either
      embedded from their documented behaviour (hex handling, Keccak-256,
      EIP-55, secp256k1 key derivation) or taken as fields of an oracle
      record (script construction, signing, base58/bech32 decoding). *)

From Stdlib Require Import ZArith String Ascii List Floats Lia Bool.
From stdpp Require Import gmap strings list.

Local Open Scope Z_scope.

(** ** Go values: errors, results, fixed-width integers *)

Module Go.

(** Error values. The first five are the package-level sentinels of
    [blockchain.go]; [NotFound] is [ethereum.NotFound]; [errors_New] is an
    error carrying only a message (also used for errors produced by the
    libraries and the node); [Errorf_w msg e] is
    [fmt.Errorf(msg + ": %w", e)]. *)
Inductive error : Type :=
| ErrInvalidAddress
| ErrInsufficientBalance
| ErrTransactionFailed
| ErrNetworkUnavailable
| ErrInvalidTransaction
| NotFound
| errors_New (msg : string)
| Errorf_w (msg : string) (inner : error).

Definition error_eq_dec (a b : error) : {a = b} + {a <> b}.
Proof. decide equality; apply string_dec. Defined.

(** [errors.Is]: the error or one it wraps is the target. *)
Fixpoint errors_Is (err target : error) : bool :=
  if error_eq_dec err target then true
  else match err with
       | Errorf_w _ inner => errors_Is inner target
       | _ => false
       end.

Inductive result (A : Type) : Type :=
| Ok (a : A)
| Err (e : error)
| Panic (msg : string).
Arguments Ok {A} a.
Arguments Err {A} e.
Arguments Panic {A} msg.

(** [x, err := f(); if err != nil { return fmt.Errorf(msg + ": %w", err) }] *)
Definition wrap {A : Type} (msg : string) (r : result A) : result A :=
  match r with
  | Ok a => Ok a
  | Err e => Err (Errorf_w msg e)
  | Panic m => Panic m
  end.

Definition two64 : Z := 2 ^ 64.
Definition two63 : Z := 2 ^ 63.

(** Arithmetic on [uint64] is modulo 2^64. *)
Definition uint64 (z : Z) : Z := z mod two64.
Definition sub64 (a b : Z) : Z := uint64 (a - b).

(** The [Uint64] method of [big.Int]: the low 64 bits of the magnitude. *)
Definition big_Uint64 (x : Z) : Z := uint64 (Z.abs x).

(** Truncation of a finite float toward zero; [None] for NaN and the
    infinities. *)
Definition float_trunc (f : float) : option Z :=
  match Prim2SF f with
  | S754_zero _ => Some 0
  | S754_finite s m e =>
      let mag := match e with
                 | Z0 => Zpos m
                 | Zpos p => Z.shiftl (Zpos m) (Zpos p)
                 | Zneg p => Z.shiftr (Zpos m) (Zpos p)
                 end in
      Some (if s then - mag else mag)
  | S754_infinity _ => None
  | S754_nan => None
  end.

(** The conversion [int64(f)] of a [float64]: the fraction is discarded.
    When the value does not fit, Go leaves the result to the
    implementation; the amd64 compiler emits CVTTSD2SQ, whose answer is
    then the "integer indefinite" value -2^63. *)
Definition int64_of_float (f : float) : Z :=
  match float_trunc f with
  | Some z => if (- two63 <=? z) && (z <? two63) then z else - two63
  | None => - two63
  end.

(** [strings.HasPrefix] *)
Definition HasPrefix (s prefix : string) : bool := String.prefix prefix s.

End Go.
Export Go.

(** ** The monad of adapter operations

    An operation reads and extends a trace of events of type [E] and
    finishes with a [result]. *)

Definition M (E A : Type) : Type := list E -> result A * list E.

Definition ret {E A : Type} (a : A) : M E A := fun t => (Ok a, t).

Definition bind {E A B : Type} (m : M E A) (k : A -> M E B) : M E B :=
  fun t => match m t with
           | (Ok a, t') => k a t'
           | (Err e, t') => (Err e, t')
           | (Panic msg, t') => (Panic msg, t')
           end.

(** [return zero, err] *)
Definition throw {E A : Type} (e : error) : M E A := fun t => (Err e, t).

(** A computation that touches no node: a library call or a local check. *)
Definition lift {E A : Type} (r : result A) : M E A := fun t => (r, t).

(** One recorded event whose answer is [r]. *)
Definition emit {E A : Type} (ev : E) (r : result A) : M E A :=
  fun t => (r, t ++ [ev]).

(** Wrapping the error of a sub-computation. *)
Definition wrapM {E A : Type} (msg : string) (m : M E A) : M E A :=
  fun t => let (r, t') := m t in (wrap msg r, t').

Declare Scope go_scope.
Delimit Scope go_scope with go.
Notation "x <- c ;; k" := (bind c (fun x => k))
  (at level 100, c at next level, right associativity) : go_scope.
Notation "c ;;; k" := (bind c (fun _ => k))
  (at level 100, right associativity) : go_scope.

(** ** The client registry ([BlockchainClientFactory]) *)

Module Registry.
Section Factory.

(** Any implementation of the [BlockchainClient] interface. *)
Context {BlockchainClient : Type}.

Record BlockchainClientFactory : Type := {
  clients : gmap string BlockchainClient
}.

Definition NewBlockchainClientFactory : BlockchainClientFactory :=
  {| clients := ∅ |}.

Definition RegisterClient (f : BlockchainClientFactory) (currency : string)
    (client : BlockchainClient) : BlockchainClientFactory :=
  {| clients := <[currency := client]> (clients f) |}.

Definition GetClient (f : BlockchainClientFactory) (currency : string)
    : result BlockchainClient :=
  match clients f !! currency with
  | Some client => Ok client
  | None => Err (errors_New ("blockchain client not found for currency: " +:+ currency))
  end.

(** The order of a Go map iteration is not specified; the list below is one
    such order. *)
Definition GetSupportedCurrencies (f : BlockchainClientFactory) : list string :=
  (map_to_list (clients f)).*1.

(** The factory obtained from a fresh one by a sequence of registrations,
    earliest first. *)
Definition registerAll (regs : list (string * BlockchainClient))
    : BlockchainClientFactory :=
  foldl (fun f r => RegisterClient f r.1 r.2) NewBlockchainClientFactory regs.

End Factory.
Arguments BlockchainClientFactory : clear implicits.
End Registry.

(** ** Library functions of go-ethereum used by the Ethereum client

    Bytes are [Z] values in [0, 256); a Go [[]byte] is a [list Z]. *)

Definition byte_of_ascii (c : ascii) : Z := Z.of_N (N_of_ascii c).
Definition ascii_of_byte (b : Z) : ascii := ascii_of_N (Z.to_N b).

(** Big-endian bytes of a non-negative integer, on [n] bytes, and back. *)
Fixpoint be_bytes (n : nat) (z : Z) : list Z :=
  match n with
  | O => []
  | S n' => be_bytes n' (z / 256) ++ [z mod 256]
  end.

Definition be_value (bs : list Z) : Z :=
  fold_left (fun acc b => 256 * acc + b) bs 0.

(** *** Legacy Keccak-256 ([sha3.NewLegacyKeccak256], [crypto.Keccak256]) *)

Module sha3.
Definition mask64 : Z := 2 ^ 64 - 1.

Definition rotl64 (x : Z) (n : Z) : Z :=
  Z.land (Z.lor (Z.shiftl x n) (Z.shiftr x (64 - n))) mask64.

Definition round_constants : list Z :=
  [ 0x0000000000000001; 0x0000000000008082; 0x800000000000808A;
    0x8000000080008000; 0x000000000000808B; 0x0000000080000001;
    0x8000000080008081; 0x8000000000008009; 0x000000000000008A;
    0x0000000000000088; 0x0000000080008009; 0x000000008000000A;
    0x000000008000808B; 0x800000000000008B; 0x8000000000008089;
    0x8000000000008003; 0x8000000000008002; 0x8000000000000080;
    0x000000000000800A; 0x800000008000000A; 0x8000000080008081;
    0x8000000000008080; 0x0000000080000001; 0x8000000080008008 ].

(** Rotation offsets, indexed by [x + 5 * y]. *)
Definition rotation_offsets : list Z :=
  [ 0;  1; 62; 28; 27;
   36; 44;  6; 55; 20;
    3; 10; 43; 25; 39;
   41; 45; 15; 21;  8;
   18;  2; 61; 56; 14 ].

Definition lane (a : list Z) (x y : nat) : Z :=
  nth (x mod 5 + 5 * (y mod 5))%nat a 0.

Definition coords : list (nat * nat) :=
  y ← seq 0 5; x ← seq 0 5; [(x, y)].

Definition theta (a : list Z) : list Z :=
  let c x := fold_right Z.lxor 0 (map (lane a x) (seq 0 5)) in
  let d x := Z.lxor (c (x + 4)%nat) (rotl64 (c (x + 1)%nat) 1) in
  map (fun xy => Z.lxor (lane a xy.1 xy.2) (d xy.1)) coords.

(** rho and pi together: lane [(x, y)] of the result is lane
    [(x + 3 y, x)] of the argument, rotated by that lane's offset. *)
Definition rho_pi (a : list Z) : list Z :=
  map (fun xy =>
         let sx := (xy.1 + 3 * xy.2)%nat in
         let sy := xy.1 in
         rotl64 (lane a sx sy) (lane rotation_offsets sx sy)) coords.

Definition chi (b : list Z) : list Z :=
  map (fun xy =>
         Z.lxor (lane b xy.1 xy.2)
                (Z.land (Z.lxor (lane b (xy.1 + 1) xy.2) mask64)
                        (lane b (xy.1 + 2) xy.2))) coords.

Definition iota (rc : Z) (a : list Z) : list Z :=
  match a with
  | a0 :: rest => Z.lxor a0 rc :: rest
  | [] => []
  end.

Definition keccak_round (a : list Z) (rc : Z) : list Z :=
  iota rc (chi (rho_pi (theta a))).

Definition keccak_f (a : list Z) : list Z :=
  fold_left keccak_round round_constants a.

(** Little-endian lanes of a block of bytes. *)
Fixpoint le_lane (bs : list Z) : Z :=
  match bs with
  | [] => 0
  | b :: rest => b + 256 * le_lane rest
  end.

Fixpoint lanes_of (n : nat) (bs : list Z) : list Z :=
  match n with
  | O => []
  | S n' => le_lane (firstn 8 bs) :: lanes_of n' (skipn 8 bs)
  end.

Fixpoint bytes_of_lane (n : nat) (w : Z) : list Z :=
  match n with
  | O => []
  | S n' => (w mod 256) :: bytes_of_lane n' (w / 256)
  end.

Definition rate : nat := 136.

(** Multi-rate padding with the given domain byte (0x01 for the legacy
    Keccak of Ethereum). *)
Definition pad (dsbyte : Z) (msg : list Z) : list Z :=
  let q := (rate - length msg mod rate)%nat in
  if (q =? 1)%nat then msg ++ [Z.lor dsbyte 0x80]
  else msg ++ [dsbyte] ++ repeat 0 (q - 2) ++ [0x80].

Fixpoint absorb (fuel : nat) (st : list Z) (bs : list Z) : list Z :=
  match fuel with
  | O => st
  | S fuel' =>
      match bs with
      | [] => st
      | _ =>
          let blk := lanes_of 25 (firstn rate bs) in
          absorb fuel' (keccak_f (zip_with Z.lxor st blk)) (skipn rate bs)
      end
  end.

Definition sponge256 (dsbyte : Z) (msg : list Z) : list Z :=
  let p := pad dsbyte msg in
  let st := absorb (length p) (repeat 0 25) p in
  firstn 32 (flat_map (bytes_of_lane 8) st).

Definition Keccak256 (msg : list Z) : list Z := sponge256 0x01 msg.
End sha3.

(** *** The curve secp256k1 ([crypto.S256]) *)

Module secp256k1.
Definition P : Z := 2 ^ 256 - 2 ^ 32 - 977.
Definition N : Z :=
  0xFFFFFFFFFFFFFFFFFFFFFFFFFFFFFFFEBAAEDCE6AF48A03BBFD25E8CD0364141.
Definition Gx : Z :=
  0x79BE667EF9DCBBAC55A06295CE870B07029BFCDB2DCE28D959F2815B16F81798.
Definition Gy : Z :=
  0x483ADA7726A3C4655DA4FBFC0E1108A8FD17B448A68554199C47D08FFB10D4B8.

Fixpoint powmod (b : Z) (e : positive) (m : Z) : Z :=
  match e with
  | xH => b mod m
  | xO e' => let r := powmod b e' m in (r * r) mod m
  | xI e' => let r := powmod b e' m in (((r * r) mod m) * b) mod m
  end.

(** Inverse modulo the field prime, by Fermat. *)
Definition inv (a : Z) : Z :=
  match P - 2 with
  | Zpos e => powmod a e P
  | _ => 0
  end.

(** A point is [None] (the point at infinity) or affine coordinates. *)
Definition point : Type := option (Z * Z).

Definition double (p : point) : point :=
  match p with
  | None => None
  | Some (x, y) =>
      if y =? 0 then None
      else
        let l := (3 * x * x * inv (2 * y)) mod P in
        let x3 := (l * l - 2 * x) mod P in
        Some (x3, (l * (x - x3) - y) mod P)
  end.

Definition add (p q : point) : point :=
  match p, q with
  | None, _ => q
  | _, None => p
  | Some (x1, y1), Some (x2, y2) =>
      if x1 =? x2 then
        if y1 =? y2 then double p else None
      else
        let l := ((y2 - y1) * inv (x2 - x1)) mod P in
        let x3 := (l * l - x1 - x2) mod P in
        Some (x3, (l * (x1 - x3) - y1) mod P)
  end.

Fixpoint mul (k : positive) (p : point) : point :=
  match k with
  | xH => p
  | xO k' => double (mul k' p)
  | xI k' => add p (double (mul k' p))
  end.

Definition ScalarBaseMult (d : Z) : point :=
  match d with
  | Zpos k => mul k (Some (Gx, Gy))
  | _ => None
  end.
End secp256k1.

(** *** [encoding/hex] *)

Module hex.

(** The value of a hexadecimal digit ([reverseHexTable]). *)
Definition fromHexChar (c : ascii) : option Z :=
  let b := byte_of_ascii c in
  if (48 <=? b) && (b <=? 57) then Some (b - 48)
  else if (97 <=? b) && (b <=? 102) then Some (b - 97 + 10)
  else if (65 <=? b) && (b <=? 70) then Some (b - 65 + 10)
  else None.

(** The two errors of the package. *)
Inductive DecodeError : Type :=
| InvalidByteError (c : ascii)
| ErrLength.

(** [hex.DecodeString]: the bytes decoded before the first problem, and the
    problem if there was one. An odd length is reported after the digits
    have been checked. *)
Fixpoint Decode (src : list ascii) : list Z * option DecodeError :=
  match src with
  | [] => ([], None)
  | [p] =>
      match fromHexChar p with
      | Some _ => ([], Some ErrLength)
      | None => ([], Some (InvalidByteError p))
      end
  | p :: q :: rest =>
      match fromHexChar p with
      | None => ([], Some (InvalidByteError p))
      | Some a =>
          match fromHexChar q with
          | None => ([], Some (InvalidByteError q))
          | Some b =>
              let (bs, err) := Decode rest in
              (Z.lor (Z.shiftl a 4) b :: bs, err)
          end
      end
  end.

Definition DecodeString (s : string) : list Z * option DecodeError :=
  Decode (list_ascii_of_string s).

Definition hexdigit (n : Z) : ascii :=
  nth (Z.to_nat n) (list_ascii_of_string "0123456789abcdef") "0"%char.

(** [hex.EncodeToString]: lower-case digits. *)
Definition Encode (bs : list Z) : list ascii :=
  flat_map (fun b => [hexdigit (Z.shiftr b 4); hexdigit (Z.land b 15)]) bs.

End hex.

(** *** [common]: addresses *)

Module common.

Definition AddressLength : nat := 20.

(** [common.Address], a 20-byte array. *)
Definition Address : Type := list Z.

Definition has0xPrefix (str : string) : bool :=
  match str with
  | String c0 (String c1 _) =>
      Ascii.eqb c0 "0" && (Ascii.eqb c1 "x" || Ascii.eqb c1 "X")
  | _ => false
  end.

(** [s[2:]] *)
Definition drop2 (s : string) : string :=
  match s with
  | String _ (String _ rest) => rest
  | _ => EmptyString
  end.

Definition drop0x (s : string) : string :=
  if has0xPrefix s then drop2 s else s.

Definition isHexCharacter (c : ascii) : bool :=
  let b := byte_of_ascii c in
  ((48 <=? b) && (b <=? 57)) || ((97 <=? b) && (b <=? 102))
  || ((65 <=? b) && (b <=? 70)).

Definition isHex (str : string) : bool :=
  if negb (Nat.eqb (String.length str mod 2) 0) then false
  else forallb isHexCharacter (list_ascii_of_string str).

(** [common.IsHexAddress] *)
Definition IsHexAddress (s : string) : bool :=
  let s := drop0x s in
  Nat.eqb (String.length s) (2 * AddressLength) && isHex s.

(** [common.FromHex]: the prefix is optional, an odd number of digits is
    completed by a leading zero, and decoding errors are dropped. *)
Definition FromHex (s : string) : list Z :=
  let s := drop0x s in
  let s := if Nat.eqb (String.length s mod 2) 1 then String "0" s else s in
  fst (hex.DecodeString s).

(** [common.BytesToAddress]: the last 20 bytes, padded on the left. *)
Definition BytesToAddress (b : list Z) : Address :=
  let b := skipn (length b - AddressLength) b in
  repeat 0 (AddressLength - length b) ++ b.

Definition HexToAddress (s : string) : Address := BytesToAddress (FromHex s).

(** The EIP-55 casing of one digit: a letter becomes upper case when the
    corresponding nibble of the hash exceeds 7. *)
Definition checksumChar (c : ascii) (nibble : Z) : ascii :=
  if (57 <? byte_of_ascii c) && (7 <? nibble)
  then ascii_of_byte (byte_of_ascii c - 32) else c.

Definition nibbles (hash : list Z) : list Z :=
  flat_map (fun b => [Z.shiftr b 4; Z.land b 15]) hash.

(** The [Hex] method of [Address]: ["0x"] and the EIP-55 checksummed digits. *)
Definition Hex (a : Address) : string :=
  let buf := hex.Encode a in
  let hash := sha3.Keccak256 (map byte_of_ascii buf) in
  String "0" (String "x"
    (string_of_list_ascii (zip_with checksumChar buf (nibbles hash)))).

End common.

(** *** [hexutil] and [crypto] *)

Module hexutil.

(** [hexutil.Decode]: the input must be non-empty, carry the prefix and
    consist of an even number of hexadecimal digits. *)
Definition Decode (input : string) : result (list Z) :=
  if Nat.eqb (String.length input) 0 then Err (errors_New "empty hex string")
  else if negb (common.has0xPrefix input)
  then Err (errors_New "hex string without 0x prefix")
  else
    match hex.DecodeString (common.drop2 input) with
    | (b, None) => Ok b
    | (_, Some (hex.InvalidByteError _)) => Err (errors_New "invalid hex string")
    | (_, Some hex.ErrLength) => Err (errors_New "hex string of odd length")
    end.

End hexutil.

Module crypto.

(** An [ecdsa.PrivateKey] on secp256k1 with its public point. *)
Record PrivateKey : Type := {
  D : Z;
  X : Z;
  Y : Z
}.

(** [crypto.ToECDSA]: exactly 32 bytes, and 0 < D < N. *)
Definition ToECDSA (d : list Z) : result PrivateKey :=
  if negb (Nat.eqb (8 * length d) 256)
  then Err (errors_New "invalid length, need 256 bits")
  else
    let k := be_value d in
    if secp256k1.N <=? k then Err (errors_New "invalid private key, >=N")
    else if k <=? 0 then Err (errors_New "invalid private key, zero or negative")
    else match secp256k1.ScalarBaseMult k with
         | Some (x, y) => Ok {| D := k; X := x; Y := y |}
         | None => Err (errors_New "invalid private key")
         end.

(** [crypto.PubkeyToAddress]: the last 20 bytes of the hash of the
    uncompressed point without its leading 0x04. *)
Definition PubkeyToAddress (k : PrivateKey) : common.Address :=
  common.BytesToAddress
    (skipn 12 (sha3.Keccak256 (be_bytes 32 (X k) ++ be_bytes 32 (Y k)))).

End crypto.


(** ** Library functions of btcd used by the Bitcoin client *)

Module chainhash.

Definition HashSize : nat := 32.
Definition MaxHashStringSize : nat := 64.

(** [chainhash.Hash], a 32-byte array. *)
Definition Hash : Type := list Z.

(** [chainhash.NewHashFromStr]: at most 64 hexadecimal digits, an odd
    number of them completed by a leading zero; the bytes are stored in
    reverse order. *)
Definition NewHashFromStr (hash : string) : result Hash :=
  if (MaxHashStringSize <? String.length hash)%nat
  then Err (errors_New "max hash string length is 64 bytes")
  else
    let src := if Nat.eqb (String.length hash mod 2) 0 then hash
               else String "0" hash in
    match hex.DecodeString src with
    | (b, None) => Ok (rev (repeat 0 (HashSize - length b) ++ b))
    | (_, Some _) => Err (errors_New "encoding/hex: invalid byte")
    end.

End chainhash.

Module btcutil.

Definition SatoshiPerBitcoin : float := 100000000%float.

(** [btcutil.NewAmount]: the number of satoshi of an amount in BTC as the
    node reports it, rounded to the nearest unit. *)
Definition NewAmount (f : float) : Z :=
  let v := (f * SatoshiPerBitcoin)%float in
  if (v <? 0)%float then int64_of_float (v - 0.5)%float
  else int64_of_float (v + 0.5)%float.

(** The [ToBTC] method of [btcutil.Amount]: satoshi as an amount in BTC,
    for amounts below 2^63. *)
Definition ToBTC (a : Z) : float :=
  (PrimFloat.of_uint63 (Uint63.of_Z a) / SatoshiPerBitcoin)%float.

End btcutil.

(** ** The Bitcoin client ([BitcoinClient]) *)

Module Bitcoin.

#[local] Set Warnings "-inexact-float".

Inductive ChainParams : Type := MainNetParams | TestNet3Params.

(** A decoded [btcutil.Address]: its kind and payload. *)
Inductive Address : Type :=
| AddressPubKeyHash (hash160 : list Z)
| AddressScriptHash (hash160 : list Z)
| AddressWitness (version : Z) (program : list Z)
| AddressPubKey (serialized : list Z).

Definition Script : Type := list Z.

(** A decoded [btcutil.WIF]. *)
Record WIF : Type := {
  PrivKey : Z;
  CompressPubKey : bool
}.

Record OutPoint : Type := {
  Hash : chainhash.Hash;
  Index : Z
}.

Record TxIn : Type := {
  PreviousOutPoint : OutPoint;
  SignatureScript : Script
}.

Record TxOut : Type := {
  Value : Z;
  PkScript : Script
}.

Record MsgTx : Type := {
  Version : Z;
  TxIn_ : list TxIn;
  TxOut_ : list TxOut;
  LockTime : Z
}.

(** [btcjson.ListUnspentResult] *)
Record ListUnspentResult : Type := {
  TxID : string;
  Vout : Z;
  Address_ : string;
  Amount : float
}.

(** [btcjson.TxRawResult], the fields read by the client. *)
Record TxRawResult : Type := {
  BlockHash : string;
  Confirmations : Z;
  Time : Z
}.

(** The functions of [btcutil] and [txscript] that are not embedded. *)
Record Lib : Type := {
  DecodeAddress : string -> ChainParams -> result Address;
  DecodeWIF : string -> result WIF;
  PayToAddrScript : Address -> result Script;
  txscript_SignatureScript : MsgTx -> nat -> Script -> Z -> bool -> result Script
}.

(** The answers of the node behind [rpcclient.Client]. The list of
    addresses passed to [ListUnspentMinMaxAddresses] is the one-element
    placeholder of the source, a nil address ([None]); the answer is
    whatever the node lists, and the client filters it by address. *)
Record Node : Type := {
  ListUnspentMinMaxAddresses :
    Z -> Z -> list (option Address) -> result (list ListUnspentResult);
  GetRawTransactionVerbose : chainhash.Hash -> result TxRawResult;
  SendRawTransaction : MsgTx -> bool -> result chainhash.Hash
}.

Record BitcoinClient : Type := {
  client : Node;
  chainParams : ChainParams;
  explorerURL : string;
  testMode : bool
}.

(** What an operation does that can be observed from outside. *)
Inductive Event : Type :=
| CallListUnspentMinMaxAddresses (minConf maxConf : Z) (addrs : list (option Address))
| CallGetRawTransactionVerbose (hash : chainhash.Hash)
| CallSendRawTransaction (tx : MsgTx) (allowHighFees : bool)
| Signed (tx : MsgTx) (idx : nat).

(** [wire.TxVersion] *)
Definition TxVersion : Z := 1.

Definition NewMsgTx (version : Z) : MsgTx :=
  {| Version := version; TxIn_ := []; TxOut_ := []; LockTime := 0 |}.

Definition NewTxOut (value : Z) (pkScript : Script) : TxOut :=
  {| Value := value; PkScript := pkScript |}.

Definition NewOutPoint (hash : chainhash.Hash) (index : Z) : OutPoint :=
  {| Hash := hash; Index := index |}.

Definition NewTxIn (prevOut : OutPoint) (signatureScript : Script) : TxIn :=
  {| PreviousOutPoint := prevOut; SignatureScript := signatureScript |}.

Definition AddTxOut (tx : MsgTx) (to : TxOut) : MsgTx :=
  {| Version := Version tx; TxIn_ := TxIn_ tx; TxOut_ := TxOut_ tx ++ [to];
     LockTime := LockTime tx |}.

Definition AddTxIn (tx : MsgTx) (ti : TxIn) : MsgTx :=
  {| Version := Version tx; TxIn_ := TxIn_ tx ++ [ti]; TxOut_ := TxOut_ tx;
     LockTime := LockTime tx |}.

(** [tx.TxIn[i].SignatureScript = sigScript] *)
Definition setSignatureScript (tx : MsgTx) (i : nat) (sigScript : Script) : MsgTx :=
  {| Version := Version tx;
     TxIn_ := alter (fun ti => NewTxIn (PreviousOutPoint ti) sigScript) i (TxIn_ tx);
     TxOut_ := TxOut_ tx; LockTime := LockTime tx |}.

(** The fee the client assumes, in BTC. *)
Definition fee : float := 0.0001%float.

(** [int64(amount * 100000000)]: the conversion from BTC to satoshi. *)
Definition toSatoshi (amount : float) : Z :=
  int64_of_float (amount * 100000000)%float.

Section Client.

Context (btcd : Lib).

(** [ValidateAddress] *)
Definition ValidateAddress (c : BitcoinClient) (address : string) : bool :=
  match DecodeAddress btcd address (chainParams c) with
  | Ok _ => true
  | _ => false
  end.

(** The input loop of [SendTransaction]: the outputs of the sender are
    taken in the order of the node's answer until the running total covers
    the amount and the fee. An output identifier that is not a hash makes
    [wire.NewOutPoint] dereference a nil pointer. *)
Fixpoint addInputs (fromAddress : string) (amount : float)
    (unspentOutputs : list ListUnspentResult) (tx : MsgTx) (totalInput : float)
    : result (MsgTx * float) :=
  match unspentOutputs with
  | [] => Ok (tx, totalInput)
  | output :: rest =>
      if String.eqb (Address_ output) fromAddress then
        let totalInput := (totalInput + Amount output)%float in
        match chainhash.NewHashFromStr (TxID output) with
        | Ok hash =>
            let outpoint := NewOutPoint hash (Vout output) in
            let tx := AddTxIn tx (NewTxIn outpoint []) in
            if (amount + fee <=? totalInput)%float then Ok (tx, totalInput)
            else addInputs fromAddress amount rest tx totalInput
        | _ => Panic "invalid memory address or nil pointer dereference"
        end
      else addInputs fromAddress amount rest tx totalInput
  end.

(** The signing loop of [SendTransaction]. *)
Fixpoint signInputs (destScript : Script) (wif : WIF) (idxs : list nat)
    (tx : MsgTx) : M Event MsgTx :=
  match idxs with
  | [] => ret tx
  | i :: rest =>
      (sigScript <- wrapM "failed to sign transaction"
         (emit (Signed tx i)
            (txscript_SignatureScript btcd tx i destScript (PrivKey wif) true)) ;;
       signInputs destScript wif rest (setSignatureScript tx i sigScript))%go
  end.

(** [SendTransaction] *)
Definition SendTransaction (c : BitcoinClient) (fromAddress toAddress : string)
    (amount : float) (privateKeyWIF : string) : M Event string :=
  (if negb (ValidateAddress c fromAddress) || negb (ValidateAddress c toAddress)
   then throw ErrInvalidAddress
   else
     wif <- lift (wrap "invalid private key" (DecodeWIF btcd privateKeyWIF)) ;;
     destAddr <- lift (wrap "invalid destination address"
                         (DecodeAddress btcd toAddress (chainParams c))) ;;
     destScript <- lift (wrap "failed to create output script"
                           (PayToAddrScript btcd destAddr)) ;;
     unspentOutputs <- wrapM "failed to get unspent outputs"
         (emit (CallListUnspentMinMaxAddresses 1 9999999 [None])
               (ListUnspentMinMaxAddresses (client c) 1 9999999 [None])) ;;
     let tx := NewMsgTx TxVersion in
     let amountSatoshi := toSatoshi amount in
     let tx := AddTxOut tx (NewTxOut amountSatoshi destScript) in
     sel <- lift (addInputs fromAddress amount unspentOutputs tx 0%float) ;;
     let tx := fst sel in
     let totalInput := snd sel in
     if (totalInput <? amount + fee)%float then throw ErrInsufficientBalance
     else
       let change := (totalInput - amount - fee)%float in
       let tx :=
         if (0 <? change)%float then
           let changeScript :=
             match DecodeAddress btcd fromAddress (chainParams c) with
             | Ok changeAddr =>
                 match PayToAddrScript btcd changeAddr with
                 | Ok script => script
                 | _ => []
                 end
             | _ => []
             end in
           let changeSatoshi := toSatoshi change in
           AddTxOut tx (NewTxOut changeSatoshi changeScript)
         else tx in
       tx <- signInputs destScript wif (seq 0 (length (TxIn_ tx))) tx ;;
       txHash <- wrapM "failed to broadcast transaction"
           (emit (CallSendRawTransaction tx true)
                 (SendRawTransaction (client c) tx true)) ;;
       ret (string_of_list_ascii (hex.Encode (rev txHash))))%go.

(** [EstimateFee] *)
Definition EstimateFee (c : BitcoinClient) (fromAddress toAddress : string)
    (amount : float) : result float :=
  Ok fee.

(** [GetConfirmations] *)
Definition GetConfirmations (c : BitcoinClient) (txID : string) : M Event Z :=
  (hash <- lift (wrap "invalid transaction ID" (chainhash.NewHashFromStr txID)) ;;
   tx <- wrapM "failed to get transaction"
       (emit (CallGetRawTransactionVerbose hash)
             (GetRawTransactionVerbose (client c) hash)) ;;
   ret (uint64 (Confirmations tx)))%go.

End Client.

End Bitcoin.

(** ** [math/big]: the floating-point conversion used for wei *)

Module big.

(** Exponents of a [big.Float] are 32-bit: no product below overflows. *)
Definition MaxExp : Z := 2147483647.

(** A [big.Float] of precision 53, as [big.NewFloat] creates it. *)
Definition Float : Type := spec_float.

(** [big.NewFloat]: panics on NaN. *)
Definition NewFloat (x : float) : result Float :=
  match Prim2SF x with
  | S754_nan => Panic "NewFloat(NaN)"
  | v => Ok v
  end.

(** [new(big.Float).Mul(x, y)] for operands of precision 53: the exact
    product rounded to 53 bits, to nearest even. *)
Definition Mul (x y : Float) : Float := SFmul 53 MaxExp x y.

(** The [Int] method: truncation toward zero; [nil] for an infinity. *)
Definition Int (x : Float) : option Z :=
  match x with
  | S754_zero _ => Some 0
  | S754_finite s m e =>
      let mag := match e with
                 | Z0 => Zpos m
                 | Zpos p => Z.shiftl (Zpos m) (Zpos p)
                 | Zneg p => Z.shiftr (Zpos m) (Zpos p)
                 end in
      Some (if s then - mag else mag)
  | S754_infinity _ => None
  | S754_nan => None
  end.

End big.

(** ** The Ethereum client ([EthereumClient]) *)

Module Ethereum.

(** [params.Ether] *)
Definition Ether : float := 1000000000000000000%float.

(** [common.Hash], a 32-byte array. *)
Definition Hash : Type := list Z.

Definition HashLength : nat := 32.

(** [common.BytesToHash] and [common.HexToHash] *)
Definition BytesToHash (b : list Z) : Hash :=
  let b := skipn (length b - HashLength) b in
  repeat 0 (HashLength - length b) ++ b.

Definition HexToHash (s : string) : Hash := BytesToHash (common.FromHex s).

(** The [Hex] method of [common.Hash]. *)
Definition HashHex (h : Hash) : string :=
  String "0" (String "x" (string_of_list_ascii (hex.Encode h))).

(** A legacy transaction ([types.Transaction]). *)
Record Transaction : Type := {
  Nonce : Z;
  To : common.Address;
  Value : Z;
  Gas : Z;
  GasPrice : Z;
  Data : list Z
}.

(** [types.NewTransaction]: a nil amount is stored as zero. *)
Definition NewTransaction (nonce : Z) (to : common.Address) (amount : option Z)
    (gasLimit : Z) (gasPrice : Z) (data : list Z) : Transaction :=
  {| Nonce := nonce; To := to; Value := default 0 amount; Gas := gasLimit;
     GasPrice := gasPrice; Data := data |}.

(** A transaction with its signature values V, R and S. *)
Record SignedTx : Type := {
  inner : Transaction;
  sigV : Z;
  sigR : Z;
  sigS : Z
}.

(** [types.Receipt], the fields read by the client. *)
Record Receipt : Type := {
  Status : Z;
  BlockNumber_ : Z;
  GasUsed : Z
}.

(** The functions of [types] that are not embedded: signing under the
    EIP-155 signer of a chain and the hash of a signed transaction. *)
Record Lib : Type := {
  SignTx : Transaction -> Z -> crypto.PrivateKey -> result SignedTx;
  TxHash : SignedTx -> Hash
}.

(** The answers of the node behind [ethclient.Client]. *)
Record Node : Type := {
  BalanceAt : common.Address -> result Z;
  PendingNonceAt : common.Address -> result Z;
  SuggestGasPrice : result Z;
  SendTransaction_ : SignedTx -> result unit;
  TransactionReceipt : Hash -> result Receipt;
  BlockNumber : result Z
}.

Record EthereumClient : Type := {
  client : Node;
  explorerURL : string;
  testMode : bool;
  chainID : Z
}.

(** What an operation does that can be observed from outside. *)
Inductive Event : Type :=
| CallBalanceAt (account : common.Address)
| CallPendingNonceAt (account : common.Address)
| CallSuggestGasPrice
| CallSendTransaction (tx : SignedTx)
| CallTransactionReceipt (hash : Hash)
| CallBlockNumber
| Signed (tx : Transaction) (key : crypto.PrivateKey).

(** The conversion from ether to wei of [SendTransaction]:
    [new(big.Float).Mul(big.NewFloat(amount), big.NewFloat(params.Ether))]
    followed by [Int(nil)]. *)
Definition toWei (amount : float) : result (option Z) :=
  match big.NewFloat amount, big.NewFloat Ether with
  | Ok a, Ok e => Ok (big.Int (big.Mul a e))
  | Panic msg, _ => Panic msg
  | _, Panic msg => Panic msg
  | Err e, _ => Err e
  | _, Err e => Err e
  end.

Section Client.

Context (geth : Lib).

(** [ValidateAddress] *)
Definition ValidateAddress (c : EthereumClient) (address : string) : bool :=
  common.IsHexAddress address.

(** [SendTransaction] *)
Definition SendTransaction (c : EthereumClient) (fromAddress toAddress : string)
    (amount : float) (privateKeyHex : string) : M Event string :=
  (if negb (ValidateAddress c fromAddress) || negb (ValidateAddress c toAddress)
   then throw ErrInvalidAddress
   else
     let privateKeyHex :=
       if HasPrefix privateKeyHex "0x" then privateKeyHex
       else String "0" (String "x" privateKeyHex) in
     privateKeyBytes <- lift (wrap "invalid private key"
                                (hexutil.Decode privateKeyHex)) ;;
     privateKey <- lift (wrap "invalid private key"
                           (crypto.ToECDSA privateKeyBytes)) ;;
     let address := crypto.PubkeyToAddress privateKey in
     if negb (String.eqb (common.Hex address) fromAddress)
     then throw (errors_New "private key does not match from address")
     else
       nonce <- wrapM "failed to get nonce"
           (emit (CallPendingNonceAt address)
                 (PendingNonceAt (client c) address)) ;;
       gasPrice <- wrapM "failed to get gas price"
           (emit CallSuggestGasPrice (SuggestGasPrice (client c))) ;;
       valueInt <- lift (toWei amount) ;;
       let toAddress := common.HexToAddress toAddress in
       let gasLimit := 21000 in
       let tx := NewTransaction nonce (common.HexToAddress (common.Hex toAddress))
                   valueInt gasLimit gasPrice [] in
       signedTx <- wrapM "failed to sign transaction"
           (emit (Signed tx privateKey) (SignTx geth tx (chainID c) privateKey)) ;;
       wrapM "failed to send transaction"
           (emit (CallSendTransaction signedTx)
                 (SendTransaction_ (client c) signedTx)) ;;;
       ret (HashHex (TxHash geth signedTx)))%go.

(** [GetConfirmations] *)
Definition GetConfirmations (c : EthereumClient) (txID : string) : M Event Z :=
  let txID := if HasPrefix txID "0x" then txID
              else String "0" (String "x" txID) in
  let hash := HexToHash txID in
  fun t =>
    match emit (CallTransactionReceipt hash)
               (TransactionReceipt (client c) hash) t with
    | (Err err, t') =>
        if errors_Is err NotFound then (Ok 0, t')
        else (Err (Errorf_w "failed to get transaction receipt" err), t')
    | (Panic msg, t') => (Panic msg, t')
    | (Ok receipt, t') =>
        (currentBlock <- wrapM "failed to get current block number"
            (emit CallBlockNumber (BlockNumber (client c))) ;;
         ret (sub64 currentBlock (big_Uint64 (BlockNumber_ receipt))))%go t'
    end.

End Client.

End Ethereum.


(** ** Test doubles

    Concrete libraries and nodes on which the operations are run: the
    Bitcoin library knows the two main-network addresses and the key
    below, the signers return placeholder signatures, and the nodes answer
    from the data they are built with. *)

Module Fixtures.

#[local] Set Warnings "-inexact-float".

(** The pay-to-pubkey-hash address of the private key 1 (compressed), its
    WIF encoding, and a second address. *)
Definition addr1 : string := "1BgGZ9tcN4rm9KBzDn7KprQz87SZ26SAMH".
Definition wif1 : string := "KwDiBf89QgGbjEhKnhXJuH7LrciVrZi3qYjgd9M7rFU73sVHnoWn".
Definition addr2 : string := "1BvBMSEYstWetqTFn5Au4m4GFg7xJaNVN2".

Definition btcd : Bitcoin.Lib := {|
  Bitcoin.DecodeAddress s params :=
    match params with
    | Bitcoin.MainNetParams =>
        if String.eqb s addr1 then
          Ok (Bitcoin.AddressPubKeyHash
                (common.FromHex "751e76e8199196d454941c45d1b3a323f1433bd6"))
        else if String.eqb s addr2 then
          Ok (Bitcoin.AddressPubKeyHash
                (common.FromHex "77bff20c60e522dfaa3350c39b030a5d004e839a"))
        else Err (errors_New "decoded address is of unknown format")
    | Bitcoin.TestNet3Params => Err (errors_New "unknown address type")
    end;
  Bitcoin.DecodeWIF s :=
    if String.eqb s wif1
    then Ok {| Bitcoin.PrivKey := 1; Bitcoin.CompressPubKey := true |}
    else Err (errors_New "malformed private key");
  Bitcoin.PayToAddrScript a :=
    match a with
    | Bitcoin.AddressPubKeyHash h => Ok ([0x76; 0xa9; 0x14] ++ h ++ [0x88; 0xac])
    | _ => Err (errors_New "unsupported address type")
    end;
  Bitcoin.txscript_SignatureScript tx idx subscript key compress :=
    Ok [0x00]
|}.

Definition txid (digit : ascii) : string :=
  string_of_list_ascii (repeat "0"%char 63 ++ [digit]).


(** A node that lists the given unspent outputs and accepts every
    transaction. *)
Definition btcNode (unspent : list Bitcoin.ListUnspentResult) : Bitcoin.Node := {|
  Bitcoin.ListUnspentMinMaxAddresses minConf maxConf addrs := Ok unspent;
  Bitcoin.GetRawTransactionVerbose hash :=
    Ok {| Bitcoin.BlockHash := ""; Bitcoin.Confirmations := 0; Bitcoin.Time := 0 |};
  Bitcoin.SendRawTransaction tx allowHighFees := Ok (repeat 0xab 32)
|}.

Definition btcClient (unspent : list Bitcoin.ListUnspentResult)
    : Bitcoin.BitcoinClient := {|
  Bitcoin.client := btcNode unspent;
  Bitcoin.chainParams := Bitcoin.MainNetParams;
  Bitcoin.explorerURL := "https://blockstream.info/tx/";
  Bitcoin.testMode := false
|}.

(** The Ethereum private key 1 and its address, with the EIP-55 checksum
    and in lower case. *)
Definition key1 : string :=
  "0x0000000000000000000000000000000000000000000000000000000000000001".
Definition ethAddr1 : string := "0x7E5F4552091A69125d5DfCb7b8C2659029395Bdf".
Definition ethAddr1_lower : string := "0x7e5f4552091a69125d5dfcb7b8c2659029395bdf".
Definition ethAddr2 : string := "0x5aAeb6053F3E94C9b9A09f33669435E7Ef1BeAed".

Definition geth : Ethereum.Lib := {|
  Ethereum.SignTx tx chainID key :=
    Ok {| Ethereum.inner := tx; Ethereum.sigV := 2 * chainID + 35;
          Ethereum.sigR := 1; Ethereum.sigS := 1 |};
  Ethereum.TxHash stx :=
    sha3.Keccak256 (be_bytes 8 (Ethereum.Nonce (Ethereum.inner stx))
                    ++ Ethereum.To (Ethereum.inner stx)
                    ++ be_bytes 32 (Ethereum.Value (Ethereum.inner stx)))
|}.

(** A node whose every account holds [balance] wei, that knows the given
    receipt (if any) and chain height, and that answers a submitted
    transaction with [send]. *)
Definition ethNode (balance : Z) (receipt : result Ethereum.Receipt)
    (height : Z) (send : result unit) : Ethereum.Node := {|
  Ethereum.BalanceAt account := Ok balance;
  Ethereum.PendingNonceAt account := Ok 0;
  Ethereum.SuggestGasPrice := Ok 1000000000;
  Ethereum.SendTransaction_ stx := send;
  Ethereum.TransactionReceipt hash := receipt;
  Ethereum.BlockNumber := Ok height
|}.

Definition ethClient (node : Ethereum.Node) : Ethereum.EthereumClient := {|
  Ethereum.client := node;
  Ethereum.explorerURL := "https://etherscan.io/tx/";
  Ethereum.testMode := false;
  Ethereum.chainID := 1
|}.



(** A client whose node reports a zero balance for every account and
    refuses a submitted transaction for lack of funds, and the transfer of
    one ether attempted on it. *)
Definition ethUnfunded : Ethereum.EthereumClient :=
  ethClient (ethNode 0 (Err NotFound) 5
               (Err (errors_New "insufficient funds for gas * price + value"))).

Definition ethSendUnfunded : result string * list Ethereum.Event :=
  Ethereum.SendTransaction geth ethUnfunded ethAddr1 ethAddr2 1%float key1 [].

(** A client whose node reports ten ether for every account and accepts
    what is submitted. *)
Definition ethFunded : Ethereum.EthereumClient :=
  ethClient (ethNode 10000000000000000000 (Err NotFound) 5 (Ok tt)).

(** The private key 1, parsed. *)
Definition ethKey1 : option crypto.PrivateKey :=
  match hexutil.Decode key1 with
  | Ok d => match crypto.ToECDSA d with
            | Ok k => Some k
            | _ => None
            end
  | _ => None
  end.

End Fixtures.

(** ** Reading transactions off a trace *)

Module Observe.

#[global] Instance OutPoint_eq_dec : EqDecision Bitcoin.OutPoint.
Proof. solve_decision. Defined.

(** The transactions handed to the Bitcoin node for broadcast. *)
Definition btcBroadcasts (t : list Bitcoin.Event) : list Bitcoin.MsgTx :=
  flat_map (fun ev => match ev with
                      | Bitcoin.CallSendRawTransaction tx _ => [tx]
                      | _ => []
                      end) t.











(** The signed transactions handed to the Ethereum node, and the
    accounts whose balance was requested. *)
Definition ethBroadcasts (t : list Ethereum.Event) : list Ethereum.SignedTx :=
  flat_map (fun ev => match ev with
                      | Ethereum.CallSendTransaction stx => [stx]
                      | _ => []
                      end) t.

Definition balanceQueries (t : list Ethereum.Event) : list common.Address :=
  flat_map (fun ev => match ev with
                      | Ethereum.CallBalanceAt a => [a]
                      | _ => []
                      end) t.

(** A client that differs only in the balances its node reports. *)
Definition withBalanceAt (c : Ethereum.EthereumClient)
    (bal : common.Address -> result Z) : Ethereum.EthereumClient :=
  {| Ethereum.client :=
       {| Ethereum.BalanceAt := bal;
          Ethereum.PendingNonceAt := Ethereum.PendingNonceAt (Ethereum.client c);
          Ethereum.SuggestGasPrice := Ethereum.SuggestGasPrice (Ethereum.client c);
          Ethereum.SendTransaction_ := Ethereum.SendTransaction_ (Ethereum.client c);
          Ethereum.TransactionReceipt := Ethereum.TransactionReceipt (Ethereum.client c);
          Ethereum.BlockNumber := Ethereum.BlockNumber (Ethereum.client c) |};
     Ethereum.explorerURL := Ethereum.explorerURL c;
     Ethereum.testMode := Ethereum.testMode c;
     Ethereum.chainID := Ethereum.chainID c |}.

(** Lower-casing of the letters A-Z. *)
Definition lower (c : ascii) : ascii :=
  let b := byte_of_ascii c in
  if (65 <=? b) && (b <=? 90) then ascii_of_byte (b + 32) else c.

Fixpoint lowerString (s : string) : string :=
  match s with
  | EmptyString => EmptyString
  | String c rest => String (lower c) (lowerString rest)
  end.

(** The hash under which [GetConfirmations] of the Ethereum client looks a
    transaction identifier up. *)
Definition receiptKey (txID : string) : Ethereum.Hash :=
  Ethereum.HexToHash (if HasPrefix txID "0x" then txID
                      else String "0" (String "x" txID)).

(** Byte values. *)
Definition is_byte (b : Z) : Prop := 0 <= b < 256.

(** A digit in the given case. *)
Definition casing (c : ascii) (up : bool) : ascii :=
  if (57 <? byte_of_ascii c) && up then ascii_of_byte (byte_of_ascii c - 32) else c.

(** Every byte is read back from its two digits, whatever their case. *)
Definition reads_back (up1 up2 : bool) (n : nat) : bool :=
  let b := Z.of_nat n in
  match hex.fromHexChar (casing (hex.hexdigit (Z.shiftr b 4)) up1),
        hex.fromHexChar (casing (hex.hexdigit (Z.land b 15)) up2) with
  | Some hi, Some lo => Z.lor (Z.shiftl hi 4) lo =? b
  | _, _ => false
  end.

End Observe.

(** ** The other operations of the two clients *)

(** The record and the status values of [blockchain.go]. *)
Module blockchain.

Inductive TransactionStatus : Type :=
| StatusPending
| StatusConfirmed
| StatusFailed.

(** [Transaction]; a time is a number of seconds since the epoch. *)
Record Transaction : Type := {
  TxID : string;
  BlockHash : string;
  BlockNumber : Z;
  From : string;
  To : string;
  Amount : float;
  Fee : float;
  Confirmations : Z;
  Status : TransactionStatus;
  Timestamp : Z;
  Currency : string;
  ExplorerURL : string;
  RawTransaction : string
}.

End blockchain.

(** The conversion from wei to ether of the Ethereum client:
    [new(big.Float).SetInt(x)], [Quo] by [big.NewFloat(params.Ether)] and
    [Float64()]. *)
Module bigfloat.

(** [x.BitLen()] *)
Definition BitLen (x : Z) : Z := Z.log2 (Z.abs x) + (if Z.abs x =? 0 then 0 else 1).

(** The precision [SetInt] gives a fresh [big.Float]. *)
Definition SetInt_prec (x : Z) : Z := Z.max (BitLen x) 64.

(** [new(big.Float).SetInt(x)]: the integer, exactly. *)
Definition SetInt (x : Z) : big.Float :=
  match x with
  | Z0 => S754_zero false
  | Zpos m => S754_finite false m 0
  | Zneg m => S754_finite true m 0
  end.

(** [z.Quo(z, y)] for [z] of precision [prec]: the quotient rounded to
    [prec] bits, to nearest even. *)
Definition Quo (prec : Z) (x y : big.Float) : big.Float := SFdiv prec big.MaxExp x y.

(** The [Float64] method: the nearest [float64], to nearest even. *)
Definition Float64 (x : big.Float) : float :=
  match x with
  | S754_finite s m e =>
      SF2Prim (binary_normalize 53 1024 (if s then Zneg m else Zpos m) e false)
  | v => SF2Prim v
  end.

End bigfloat.


(** The query operations of [BitcoinClient]. *)
Module BitcoinQueries.

#[local] Set Warnings "-inexact-float".

(** The fields of [btcjson.TxRawResult] that [GetTransaction] reads
    besides those of [Bitcoin.TxRawResult]: the height of the block and
    the values of the outputs, in BTC. *)
Record TxRawMore : Type := {
  BlockHeight : Z;
  Vout : list float
}.

(** [GetName] and [GetCurrency] *)
Definition GetName (c : Bitcoin.BitcoinClient) : string := "Bitcoin".
Definition GetCurrency (c : Bitcoin.BitcoinClient) : string := "BTC".

(** [GetExplorerURL] *)
Definition GetExplorerURL (c : Bitcoin.BitcoinClient) (txID : string) : string :=
  Bitcoin.explorerURL c +:+ txID.

(** The loop of [GetBalance]. *)
Definition balanceOf (address : string)
    (unspentOutputs : list Bitcoin.ListUnspentResult) : float :=
  fold_left
    (fun balance output =>
       if String.eqb (Bitcoin.Address_ output) address
       then (balance + Bitcoin.Amount output)%float else balance)
    unspentOutputs 0%float.

(** The loop of [GetTransaction] over the outputs. *)
Definition amountOf (vout : list float) : float :=
  fold_left (fun amount value => (amount + value)%float) vout 0%float.

Section Client.

Context (btcd : Bitcoin.Lib).

(** [GetBalance] *)
Definition GetBalance (c : Bitcoin.BitcoinClient) (address : string)
    : M Bitcoin.Event float :=
  (if negb (Bitcoin.ValidateAddress btcd c address) then throw ErrInvalidAddress
   else
     unspentOutputs <- wrapM "failed to get unspent outputs"
         (emit (Bitcoin.CallListUnspentMinMaxAddresses 0 9999999 [None])
               (Bitcoin.ListUnspentMinMaxAddresses (Bitcoin.client c) 0 9999999 [None])) ;;
     ret (balanceOf address unspentOutputs))%go.

(** [GetTransactionsByAddress] *)
Definition GetTransactionsByAddress (c : Bitcoin.BitcoinClient) (address : string)
    (limit : Z) : M Bitcoin.Event (list blockchain.Transaction) :=
  if negb (Bitcoin.ValidateAddress btcd c address) then throw ErrInvalidAddress
  else ret [].

End Client.

(** [GetTransaction]; [more] gives the further fields of the node's answer. *)
Definition GetTransaction (c : Bitcoin.BitcoinClient)
    (more : chainhash.Hash -> TxRawMore) (txID : string)
    : M Bitcoin.Event blockchain.Transaction :=
  (hash <- lift (wrap "invalid transaction ID" (chainhash.NewHashFromStr txID)) ;;
   tx <- wrapM "failed to get transaction"
       (emit (Bitcoin.CallGetRawTransactionVerbose hash)
             (Bitcoin.GetRawTransactionVerbose (Bitcoin.client c) hash)) ;;
   let confirmed := 0 <? Bitcoin.Confirmations tx in
   let blockHash := if confirmed then Bitcoin.BlockHash tx else EmptyString in
   let blockNumber := if confirmed then uint64 (BlockHeight (more hash)) else 0 in
   let confirmations := if confirmed then uint64 (Bitcoin.Confirmations tx) else 0 in
   let status := if confirmed then blockchain.StatusConfirmed
                 else blockchain.StatusPending in
   let amount := amountOf (Vout (more hash)) in
   let fee := 0.0001%float in
   ret {| blockchain.TxID := txID;
          blockchain.BlockHash := blockHash;
          blockchain.BlockNumber := blockNumber;
          blockchain.From := "multiple inputs";
          blockchain.To := "multiple outputs";
          blockchain.Amount := amount;
          blockchain.Fee := fee;
          blockchain.Confirmations := confirmations;
          blockchain.Status := status;
          blockchain.Timestamp := Bitcoin.Time tx;
          blockchain.Currency := "BTC";
          blockchain.ExplorerURL := GetExplorerURL c txID;
          blockchain.RawTransaction := EmptyString |})%go.

End BitcoinQueries.

(** The query operations of [EthereumClient] and its [GenerateAddress]. *)
Module EthereumQueries.

(** [GetName] and [GetCurrency] *)
Definition GetName (c : Ethereum.EthereumClient) : string := "Ethereum".
Definition GetCurrency (c : Ethereum.EthereumClient) : string := "ETH".

(** The identifier of a transaction with its prefix, as [GetTransaction],
    [GetConfirmations] and [GetExplorerURL] complete it. *)
Definition withPrefix (txID : string) : string :=
  if HasPrefix txID "0x" then txID else String "0" (String "x" txID).

(** [GetExplorerURL] *)
Definition GetExplorerURL (c : Ethereum.EthereumClient) (txID : string) : string :=
  Ethereum.explorerURL c +:+ withPrefix txID.

(** The conversion from wei to ether of [GetBalance] and [EstimateFee]. *)
Definition weiToEther (wei : Z) : float :=
  bigfloat.Float64
    (bigfloat.Quo (bigfloat.SetInt_prec wei) (bigfloat.SetInt wei)
       (Prim2SF Ethereum.Ether)).

(** [GetBalance] *)
Definition GetBalance (c : Ethereum.EthereumClient) (address : string)
    : M Ethereum.Event float :=
  (if negb (Ethereum.ValidateAddress c address) then throw ErrInvalidAddress
   else
     let account := common.HexToAddress address in
     balance <- wrapM "failed to get balance"
         (emit (Ethereum.CallBalanceAt account)
               (Ethereum.BalanceAt (Ethereum.client c) account)) ;;
     ret (weiToEther balance))%go.

(** [int64(gasLimit)] of a [uint64] *)
Definition int64_of_uint64 (u : Z) : Z :=
  if u <? two63 then u else u - two64.

(** [EstimateFee] *)
Definition EstimateFee (c : Ethereum.EthereumClient) (fromAddress toAddress : string)
    (amount : float) : M Ethereum.Event float :=
  (if negb (Ethereum.ValidateAddress c fromAddress)
      || negb (Ethereum.ValidateAddress c toAddress)
   then throw ErrInvalidAddress
   else
     gasPrice <- wrapM "failed to get gas price"
         (emit Ethereum.CallSuggestGasPrice
               (Ethereum.SuggestGasPrice (Ethereum.client c))) ;;
     let gasLimit := 21000 in
     ret (weiToEther (gasPrice * int64_of_uint64 gasLimit)))%go.

(** [GetTransactionsByAddress] *)
Definition GetTransactionsByAddress (c : Ethereum.EthereumClient) (address : string)
    (limit : Z) : M Ethereum.Event (list blockchain.Transaction) :=
  if negb (Ethereum.ValidateAddress c address) then throw ErrInvalidAddress
  else ret [].

(** [crypto.FromECDSA]: the scalar of the key on 32 bytes, most
    significant first (a scalar is below 2^256); [hexutil.Encode]. *)
Definition FromECDSA (k : crypto.PrivateKey) : list Z := be_bytes 32 (crypto.D k).

Definition hexutil_Encode (b : list Z) : string :=
  String "0" (String "x" (string_of_list_ascii (hex.Encode b))).

(** What [GenerateAddress] writes to the log. *)
Inductive LogEvent : Type :=
| Printf (line : string).

(** [GenerateAddress]; [generated] is the answer of [crypto.GenerateKey]. *)
Definition GenerateAddress (c : Ethereum.EthereumClient)
    (generated : result crypto.PrivateKey) : M LogEvent string :=
  (privateKey <- lift (wrap "failed to generate private key" generated) ;;
   let address := crypto.PubkeyToAddress privateKey in
   let privateKeyBytes := FromECDSA privateKey in
   let privateKeyHex := hexutil_Encode privateKeyBytes in
   emit (Printf ("Generated new Ethereum address: " +:+ common.Hex address
                 +:+ " with private key: " +:+ privateKeyHex)) (Ok tt) ;;;
   ret (common.Hex address))%go.

End EthereumQueries.


(** ** Further readings of a trace *)

Module Inspect.

(** The signing events of a Bitcoin trace and the outpoints of a
    transaction. *)
Definition isSigning (ev : Bitcoin.Event) : bool :=
  match ev with
  | Bitcoin.Signed _ _ => true
  | _ => false
  end.

Definition btcSignings (t : list Bitcoin.Event) : list (Bitcoin.MsgTx * nat) :=
  flat_map (fun ev => match ev with
                      | Bitcoin.Signed tx idx => [(tx, idx)]
                      | _ => []
                      end) t.

Definition outpoints (tx : Bitcoin.MsgTx) : list Bitcoin.OutPoint :=
  map Bitcoin.PreviousOutPoint (Bitcoin.TxIn_ tx).

(** The transaction of [SendTransaction] before the input loop. *)
Definition withRecipient (amount : float) (destScript : Bitcoin.Script)
    : Bitcoin.MsgTx :=
  Bitcoin.AddTxOut (Bitcoin.NewMsgTx Bitcoin.TxVersion)
    (Bitcoin.NewTxOut (Bitcoin.toSatoshi amount) destScript).

(** The script of the change output and the transaction after the change
    has been added, as [SendTransaction] computes them from the running
    total of the input loop. *)
Definition changeScriptOf (btcd : Bitcoin.Lib) (c : Bitcoin.BitcoinClient)
    (fromAddress : string) : Bitcoin.Script :=
  match Bitcoin.DecodeAddress btcd fromAddress (Bitcoin.chainParams c) with
  | Ok changeAddr =>
      match Bitcoin.PayToAddrScript btcd changeAddr with
      | Ok script => script
      | _ => []
      end
  | _ => []
  end.

Definition changeOf (amount totalInput : float) : float :=
  (totalInput - amount - Bitcoin.fee)%float.

Definition withChange (btcd : Bitcoin.Lib) (c : Bitcoin.BitcoinClient)
    (fromAddress : string) (amount totalInput : float) (tx : Bitcoin.MsgTx)
    : Bitcoin.MsgTx :=
  if (0 <? changeOf amount totalInput)%float then
    Bitcoin.AddTxOut tx
      (Bitcoin.NewTxOut (Bitcoin.toSatoshi (changeOf amount totalInput))
         (changeScriptOf btcd c fromAddress))
  else tx.

(** The text of a transaction hash ([String] of [chainhash.Hash]). *)
Definition hashString (h : chainhash.Hash) : string :=
  string_of_list_ascii (hex.Encode (rev h)).

(** A text made of hexadecimal digits only. *)
Definition hexText (s : string) : bool :=
  forallb common.isHexCharacter (list_ascii_of_string s).

(** The call with which [SendTransaction] lists unspent outputs. *)
Definition listCall : Bitcoin.Event :=
  Bitcoin.CallListUnspentMinMaxAddresses 1 9999999 [None].

(** The signing events of an Ethereum trace. *)
Definition ethSignings (t : list Ethereum.Event)
    : list (Ethereum.Transaction * crypto.PrivateKey) :=
  flat_map (fun ev => match ev with
                      | Ethereum.Signed tx key => [(tx, key)]
                      | _ => []
                      end) t.

End Inspect.

(** [GetTransaction] of [EthereumClient]. *)
Module EthereumTransactions.

(** The fields of [types.Transaction] that [GetTransaction] reads; the
    recipient is absent in a contract creation. *)
Record ChainTx : Type := {
  txTo : option common.Address;
  txValue : Z;
  txGasPrice : Z;
  txGas : Z
}.

(** The fields of [types.Block] that it reads. *)
Record Block : Type := {
  NumberU64 : Z;
  Hash_ : Ethereum.Hash;
  Time : Z
}.

(** What [GetTransaction] uses besides [Ethereum.Node]: two further
    calls of the node, the block hash recorded in the receipt of a
    transaction, the sender that [AsMessage] recovers under the signer of
    a chain, and the clock. *)
Record Env : Type := {
  TransactionByHash : Ethereum.Hash -> result (ChainTx * bool);
  ReceiptBlockHash : Ethereum.Hash -> Ethereum.Hash;
  BlockByHash : Ethereum.Hash -> result Block;
  AsMessage_From : ChainTx -> Z -> result common.Address;
  Now : Z
}.

Inductive Event : Type :=
| CallTransactionByHash (hash : Ethereum.Hash)
| CallBlockByHash (hash : Ethereum.Hash)
| Node (ev : Ethereum.Event).

(** What the branch for a transaction that is not pending computes. *)
Record Mined : Type := {
  receipt : option Ethereum.Receipt;
  blockNumber : Z;
  blockHash : string;
  confirmations : Z;
  status : blockchain.TransactionStatus;
  timestamp : Z
}.

(** [GetTransaction] *)
Definition GetTransaction (c : Ethereum.EthereumClient) (env : Env) (txID : string)
    : M Event blockchain.Transaction :=
  (let txID := if HasPrefix txID "0x" then txID
               else String "0" (String "x" txID) in
   let hash := Ethereum.HexToHash txID in
   found <- wrapM "failed to get transaction"
       (emit (CallTransactionByHash hash) (TransactionByHash env hash)) ;;
   let tx := fst found in
   let isPending := snd found in
   mined <-
     (if negb isPending then
        receipt <- wrapM "failed to get transaction receipt"
            (emit (Node (Ethereum.CallTransactionReceipt hash))
                  (Ethereum.TransactionReceipt (Ethereum.client c) hash)) ;;
        block <- wrapM "failed to get block"
            (emit (CallBlockByHash (ReceiptBlockHash env hash))
                  (BlockByHash env (ReceiptBlockHash env hash))) ;;
        currentBlock <- wrapM "failed to get current block number"
            (emit (Node Ethereum.CallBlockNumber)
                  (Ethereum.BlockNumber (Ethereum.client c))) ;;
        ret {| receipt := Some receipt;
               blockNumber := NumberU64 block;
               blockHash := Ethereum.HashHex (Hash_ block);
               confirmations := sub64 currentBlock (NumberU64 block);
               status := if Ethereum.Status receipt =? 1
                         then blockchain.StatusConfirmed
                         else blockchain.StatusFailed;
               timestamp := EthereumQueries.int64_of_uint64 (Time block) |}
      else
        ret {| receipt := None; blockNumber := 0; blockHash := EmptyString;
               confirmations := 0; status := blockchain.StatusPending;
               timestamp := Now env |}) ;;
   from <- lift (wrap "failed to get sender"
                   (AsMessage_From env tx (Ethereum.chainID c))) ;;
   let to := match txTo tx with
             | Some a => common.Hex a
             | None => "contract creation"
             end in
   let amount := EthereumQueries.weiToEther (txValue tx) in
   let gasUsed := match receipt mined with
                  | Some r => Ethereum.GasUsed r
                  | None => txGas tx
                  end in
   let feeFloat :=
     EthereumQueries.weiToEther
       (txGasPrice tx * EthereumQueries.int64_of_uint64 gasUsed) in
   ret {| blockchain.TxID := txID;
          blockchain.BlockHash := blockHash mined;
          blockchain.BlockNumber := blockNumber mined;
          blockchain.From := common.Hex from;
          blockchain.To := to;
          blockchain.Amount := amount;
          blockchain.Fee := feeFloat;
          blockchain.Confirmations := confirmations mined;
          blockchain.Status := status mined;
          blockchain.Timestamp := timestamp mined;
          blockchain.Currency := "ETH";
          blockchain.ExplorerURL := EthereumQueries.GetExplorerURL c txID;
          blockchain.RawTransaction := EmptyString |})%go.

End EthereumTransactions.

(** The constructors of the two clients. *)
Module Constructors.

(** [BitcoinConfig] and the [rpcclient.ConnConfig] built from it. *)
Record BitcoinConfig : Type := {
  RPCHost : string;
  RPCPort : Z;
  RPCUser : string;
  RPCPassword : string;
  ExplorerURL : string;
  TestMode : bool
}.

Record ConnConfig : Type := {
  Host : string;
  User : string;
  Pass : string;
  HTTPPostMode : bool;
  DisableTLS : bool
}.

(** The verb [%d] of [fmt.Sprintf]: an integer in decimal. *)
Fixpoint decimal (fuel : nat) (n : Z) (acc : string) : string :=
  match fuel with
  | O => acc
  | S fuel' =>
      let acc' := String (ascii_of_byte (48 + n mod 10)) acc in
      if n / 10 =? 0 then acc' else decimal fuel' (n / 10) acc'
  end.

Definition Sprintf_d (n : Z) : string :=
  if n <? 0
  then String "-" (decimal (S (Z.to_nat (Z.log2 (- n)))) (- n) EmptyString)
  else decimal (S (Z.to_nat (Z.log2 n))) n EmptyString.

(** [NewBitcoinClient]; [rpcclient_New] and [GetBlockCount] are the
    answers of the library and of the node. *)
Definition NewBitcoinClient (rpcclient_New : ConnConfig -> result Bitcoin.Node)
    (GetBlockCount : Bitcoin.Node -> result Z) (config : BitcoinConfig)
    : result Bitcoin.BitcoinClient :=
  let chainParams := if TestMode config then Bitcoin.TestNet3Params
                     else Bitcoin.MainNetParams in
  let connCfg := {| Host := RPCHost config +:+ ":" +:+ Sprintf_d (RPCPort config);
                    User := RPCUser config;
                    Pass := RPCPassword config;
                    HTTPPostMode := true;
                    DisableTLS := true |} in
  match rpcclient_New connCfg with
  | Err err => Err (Errorf_w "failed to create Bitcoin client" err)
  | Panic msg => Panic msg
  | Ok client =>
      match GetBlockCount client with
      | Err err => Err (Errorf_w "failed to connect to Bitcoin node" err)
      | Panic msg => Panic msg
      | Ok _ =>
          let explorerURL :=
            if String.eqb (ExplorerURL config) EmptyString then
              if TestMode config then "https://blockstream.info/testnet/tx/"
              else "https://blockstream.info/tx/"
            else ExplorerURL config in
          Ok {| Bitcoin.client := client;
                Bitcoin.chainParams := chainParams;
                Bitcoin.explorerURL := explorerURL;
                Bitcoin.testMode := TestMode config |}
      end
  end.

(** [EthereumConfig] *)
Record EthereumConfig : Type := {
  NodeURL : string;
  EthExplorerURL : string;
  EthTestMode : bool
}.

(** [NewEthereumClient]; [Dial] and [ChainID] are the answers of the
    library and of the node. *)
Definition NewEthereumClient (Dial : string -> result Ethereum.Node)
    (ChainID : Ethereum.Node -> result Z) (config : EthereumConfig)
    : result Ethereum.EthereumClient :=
  match Dial (NodeURL config) with
  | Err err => Err (Errorf_w "failed to connect to Ethereum node" err)
  | Panic msg => Panic msg
  | Ok client =>
      match ChainID client with
      | Err err => Err (Errorf_w "failed to get chain ID" err)
      | Panic msg => Panic msg
      | Ok chainID =>
          let explorerURL :=
            if String.eqb (EthExplorerURL config) EmptyString then
              if EthTestMode config then "https://sepolia.etherscan.io/tx/"
              else "https://etherscan.io/tx/"
            else EthExplorerURL config in
          Ok {| Ethereum.client := client;
                Ethereum.explorerURL := explorerURL;
                Ethereum.testMode := EthTestMode config;
                Ethereum.chainID := chainID |}
      end
  end.

End Constructors.

(** ** The security package

    The file [ethereum.go] also carries the package [security]. Its
    signatures and keys rest on SHA-256 ([crypto/sha256]) and HMAC
    ([crypto/hmac]), which are embedded here. *)

Module sha256.

Definition two32 : Z := 2 ^ 32.
Definition add32 (a b : Z) : Z := (a + b) mod two32.

Definition rotr (x n : Z) : Z :=
  Z.lor (Z.shiftr x n) (Z.shiftl x (32 - n) mod two32).

Definition Ch (x y z : Z) : Z :=
  Z.lxor (Z.land x y) (Z.land (Z.lxor x (two32 - 1)) z).
Definition Maj (x y z : Z) : Z :=
  Z.lxor (Z.lxor (Z.land x y) (Z.land x z)) (Z.land y z).
Definition Sigma0 (x : Z) : Z := Z.lxor (Z.lxor (rotr x 2) (rotr x 13)) (rotr x 22).
Definition Sigma1 (x : Z) : Z := Z.lxor (Z.lxor (rotr x 6) (rotr x 11)) (rotr x 25).
Definition sigma0 (x : Z) : Z := Z.lxor (Z.lxor (rotr x 7) (rotr x 18)) (Z.shiftr x 3).
Definition sigma1 (x : Z) : Z := Z.lxor (Z.lxor (rotr x 17) (rotr x 19)) (Z.shiftr x 10).

(** The round constants: the first 32 bits of the fractional parts of
    the cube roots of the first 64 primes (FIPS 180-4, section 4.2.2). *)
Definition is_prime (n : nat) : bool :=
  forallb (fun d => negb (Nat.eqb (n mod d) 0)) (seq 2 (n - 2)).

Definition primes : list Z :=
  map Z.of_nat (firstn 64 (List.filter is_prime (seq 2 310))).

(** The integer part of a cube root, one bit at a time. *)
Fixpoint cube_root (bits : nat) (n acc : Z) : Z :=
  match bits with
  | O => acc
  | S bits' =>
      let candidate := acc + 2 ^ Z.of_nat bits' in
      cube_root bits' n (if candidate ^ 3 <=? n then candidate else acc)
  end.

Definition K : list Z :=
  map (fun p => cube_root 36 (p * 2 ^ 96) 0 mod two32) primes.

(** The eight words of the chaining value. *)
Record digest : Type := {
  h0 : Z; h1 : Z; h2 : Z; h3 : Z; h4 : Z; h5 : Z; h6 : Z; h7 : Z
}.

Definition init : digest :=
  {| h0 := 0x6a09e667; h1 := 0xbb67ae85; h2 := 0x3c6ef372; h3 := 0xa54ff53a;
     h4 := 0x510e527f; h5 := 0x9b05688c; h6 := 0x1f83d9ab; h7 := 0x5be0cd19 |}.

(** The message schedule, latest word first: from the 16 words of a
    block to all 64. *)
Definition extend (w : list Z) : list Z :=
  add32 (add32 (add32 (sigma1 (nth 1 w 0)) (nth 6 w 0)) (sigma0 (nth 14 w 0)))
        (nth 15 w 0) :: w.

Definition schedule (block : list Z) : list Z :=
  rev (Nat.iter 48 extend (rev block)).

Definition round (s : digest) (kw : Z * Z) : digest :=
  let t1 := add32 (add32 (add32 (add32 (h7 s) (Sigma1 (h4 s)))
                            (Ch (h4 s) (h5 s) (h6 s))) (fst kw)) (snd kw) in
  let t2 := add32 (Sigma0 (h0 s)) (Maj (h0 s) (h1 s) (h2 s)) in
  {| h0 := add32 t1 t2; h1 := h0 s; h2 := h1 s; h3 := h2 s;
     h4 := add32 (h3 s) t1; h5 := h4 s; h6 := h5 s; h7 := h6 s |}.

(** One block of 16 words. *)
Definition block (s : digest) (words : list Z) : digest :=
  let r := fold_left round (combine K (schedule words)) s in
  {| h0 := add32 (h0 s) (h0 r); h1 := add32 (h1 s) (h1 r);
     h2 := add32 (h2 s) (h2 r); h3 := add32 (h3 s) (h3 r);
     h4 := add32 (h4 s) (h4 r); h5 := add32 (h5 s) (h5 r);
     h6 := add32 (h6 s) (h6 r); h7 := add32 (h7 s) (h7 r) |}.

(** The padding: a bit 1, zeros, and the length in bits on 8 bytes. *)
Definition pad (msg : list Z) : list Z :=
  let n := length msg in
  msg ++ [0x80] ++ repeat 0 ((119 - n mod 64) mod 64)
      ++ be_bytes 8 (8 * Z.of_nat n).

Fixpoint chunks (fuel : nat) (size : nat) (l : list Z) : list (list Z) :=
  match fuel with
  | O => []
  | S fuel' =>
      match l with
      | [] => []
      | _ => firstn size l :: chunks fuel' size (skipn size l)
      end
  end.

Definition words (bytes : list Z) : list Z :=
  map be_value (chunks (length bytes) 4 bytes).

(** [sha256.Sum256] *)
Definition Sum256 (msg : list Z) : list Z :=
  let padded := pad msg in
  let s := fold_left (fun s b => block s (words b))
                     (chunks (length padded) 64 padded) init in
  be_bytes 4 (h0 s) ++ be_bytes 4 (h1 s) ++ be_bytes 4 (h2 s) ++ be_bytes 4 (h3 s)
  ++ be_bytes 4 (h4 s) ++ be_bytes 4 (h5 s) ++ be_bytes 4 (h6 s) ++ be_bytes 4 (h7 s).

Definition BlockSize : nat := 64.

End sha256.

Module hmac.

(** [hmac.New(sha256.New, key)], [Write] and [Sum]: a key longer than a
    block is hashed first, then padded with zeros to a block. *)
Definition blockKey (key : list Z) : list Z :=
  let key := if (sha256.BlockSize <? length key)%nat then sha256.Sum256 key else key in
  key ++ repeat 0 (sha256.BlockSize - length key).

Definition Sum (key data : list Z) : list Z :=
  let k := blockKey key in
  let ipad := map (fun b => Z.lxor b 0x36) k in
  let opad := map (fun b => Z.lxor b 0x5c) k in
  sha256.Sum256 (opad ++ sha256.Sum256 (ipad ++ data)).

End hmac.

Module pbkdf2.

(** One block of the derived key: the exclusive or of [iter] chained
    HMACs (of one when [iter] is below 2). *)
Definition F (password salt : list Z) (iter : Z) (block : Z) : list Z :=
  let U1 := hmac.Sum password (salt ++ be_bytes 4 block) in
  snd (Nat.iter (Z.to_nat (iter - 1))
         (fun UT : list Z * list Z =>
            let U := hmac.Sum password (fst UT) in
            (U, zip_with Z.lxor (snd UT) U))
         (U1, U1)).

(** [pbkdf2.Key] with [sha256.New]; [keyLen] is below 2^63 - 32. A
    negative length makes the function panic. *)
Definition Key (password salt : list Z) (iter keyLen : Z) : result (list Z) :=
  let hashLen := 32 in
  let numBlocks := Z.quot (keyLen + hashLen - 1) hashLen in
  if numBlocks <? 0 then Panic "makeslice: cap out of range"
  else
    let dk := flat_map (fun block => F password salt iter (Z.of_nat block))
                       (seq 1 (Z.to_nat numBlocks)) in
    if keyLen <? 0 then Panic "slice bounds out of range"
    else Ok (firstn (Z.to_nat keyLen) dk).

End pbkdf2.

Module security.

Definition ErrInvalidKey : error := errors_New "invalid encryption key".
Definition ErrInvalidData : error :=
  errors_New "invalid data for encryption/decryption".

(** The bytes of a Go string. *)
Definition bytes (s : string) : list Z := map byte_of_ascii (list_ascii_of_string s).

Record SecurityService : Type := {
  encryptionKey : list Z;
  jwtSecret : list Z;
  tokenExpiry : Z
}.

(** [NewSecurityService] *)
Definition NewSecurityService (encryptionKey jwtSecret : string) (tokenExpiry : Z)
    : result SecurityService :=
  if (String.length encryptionKey <? 16)%nat then Err ErrInvalidKey
  else if (String.length jwtSecret <? 16)%nat then Err ErrInvalidKey
  else
    let encKey := sha256.Sum256 (bytes encryptionKey) in
    let jwtKey := sha256.Sum256 (bytes jwtSecret) in
    Ok {| encryptionKey := encKey; jwtSecret := jwtKey; tokenExpiry := tokenExpiry |}.

(** [hex.EncodeToString] *)
Definition EncodeToString (b : list Z) : string := string_of_list_ascii (hex.Encode b).

(** [GenerateSignature] *)
Definition GenerateSignature (s : SecurityService) (data : string) : result string :=
  if String.eqb data EmptyString then Err ErrInvalidData
  else
    let signature := hmac.Sum (jwtSecret s) (bytes data) in
    Ok (EncodeToString signature).

(** [VerifySignature]; [hmac.Equal] compares the two byte slices. *)
Definition VerifySignature (s : SecurityService) (data signature : string) : bool :=
  if String.eqb data EmptyString || String.eqb signature EmptyString then false
  else
    match GenerateSignature s data with
    | Ok expectedSignature => String.eqb signature expectedSignature
    | _ => false
    end.

(** [GenerateAPIKey] and [GenerateAPISecret]; [ReadFull n] is the answer
    of [io.ReadFull(rand.Reader, bytes)] for a buffer of [n] bytes. *)
Definition GenerateAPIKey (ReadFull : nat -> result (list Z)) (s : SecurityService)
    : result string :=
  match ReadFull 32%nat with
  | Ok b => Ok (EncodeToString b)
  | Err err => Err (Errorf_w "failed to generate random bytes" err)
  | Panic msg => Panic msg
  end.

Definition GenerateAPISecret (ReadFull : nat -> result (list Z)) (s : SecurityService)
    : result string :=
  match ReadFull 64%nat with
  | Ok b => Ok (EncodeToString b)
  | Err err => Err (Errorf_w "failed to generate random bytes" err)
  | Panic msg => Panic msg
  end.

(** [DeriveKey] *)
Definition DeriveKey (s : SecurityService) (password salt : string)
    (iterations keyLen : Z) : result string :=
  if String.eqb password EmptyString || String.eqb salt EmptyString
  then Err ErrInvalidData
  else
    match pbkdf2.Key (bytes password) (bytes salt) iterations keyLen with
    | Ok key => Ok (EncodeToString key)
    | Err err => Err err
    | Panic msg => Panic msg
    end.

End security.

(** * Properties *)

Import Observe.

(** ** The registry *)

Section RegistryFacts.

Import Registry.
Context {C : Type}.
Implicit Types (f : BlockchainClientFactory C) (c : string) (k : C).

Lemma GetClient_RegisterClient f c k :
  GetClient (RegisterClient f c k) c = Ok k.
Proof. unfold GetClient, RegisterClient; simpl. by rewrite lookup_insert_eq. Qed.

Lemma GetClient_Err_iff f c :
  (∃ e, GetClient f c = Err e) ↔ clients f !! c = None.
Proof.
  unfold GetClient. destruct (clients f !! c) as [k|]; split.
  - intros [e He]; discriminate.
  - discriminate.
  - reflexivity.
  - eauto.
Qed.

Lemma GetClient_Ok_iff f c k :
  GetClient f c = Ok k ↔ clients f !! c = Some k.
Proof.
  unfold GetClient. destruct (clients f !! c); split; congruence.
Qed.

Lemma foldl_RegisterClient_None (regs : list (string * C)) f c :
  clients (foldl (fun f r => RegisterClient f r.1 r.2) f regs) !! c = None
  ↔ clients f !! c = None ∧ c ∉ regs.*1.
Proof.
  revert f. induction regs as [|[c' k'] regs IH]; intros f; simpl.
  - split; [intros H; split; [done|apply not_elem_of_nil] | by intros [H _]].
  - rewrite IH. simpl. rewrite not_elem_of_cons.
    destruct (decide (c' = c)) as [->|Hne].
    + rewrite lookup_insert_eq. split; [intros [? _]; discriminate | intros [_ [? _]]; done].
    + rewrite lookup_insert_ne by done. split.
      * intros [? ?]; repeat split; auto.
      * intros [? [? ?]]; split; auto.
Qed.

Lemma elem_of_GetSupportedCurrencies f c :
  c ∈ GetSupportedCurrencies f ↔ is_Some (clients f !! c).
Proof.
  unfold GetSupportedCurrencies. rewrite list_elem_of_fmap. split.
  - intros [[c' k] [-> Hin]]. apply elem_of_map_to_list in Hin. simpl. eauto.
  - intros [k Hk]. exists (c, k). split; [done|]. by apply elem_of_map_to_list.
Qed.

(** C9. Registry round trip: a lookup right after a registration returns
    the registered client, a later registration for the same code replaces
    the earlier one, a lookup fails exactly for the codes never registered,
    and the supported currencies are exactly the registered codes, each
    listed once. *)
Theorem registry_round_trip :
  ∀ f (regs : list (string * C)) c k k',
    GetClient (RegisterClient f c k) c = Ok k
    ∧ GetClient (RegisterClient (RegisterClient f c k') c k) c = Ok k
    ∧ ((∃ e, GetClient (registerAll regs) c = Err e) ↔ c ∉ regs.*1)
    ∧ ((∃ e, GetClient f c = Err e) ↔ clients f !! c = None)
    ∧ (∀ c', c' ∈ GetSupportedCurrencies f ↔ ∃ k0, GetClient f c' = Ok k0)
    ∧ (∀ c', c' ∈ GetSupportedCurrencies (registerAll regs) ↔ c' ∈ regs.*1)
    ∧ NoDup (GetSupportedCurrencies f).
Proof.
  intros f regs c k k'.
  assert (Hreg : ∀ c0, clients (registerAll regs) !! c0 = None ↔ c0 ∉ regs.*1).
  { intros c0. unfold registerAll. rewrite foldl_RegisterClient_None.
    simpl. rewrite lookup_empty. tauto. }
  repeat split.
  - apply GetClient_RegisterClient.
  - apply GetClient_RegisterClient.
  - intros H. apply Hreg. by apply GetClient_Err_iff.
  - intros H. apply GetClient_Err_iff. by apply Hreg.
  - apply GetClient_Err_iff.
  - apply GetClient_Err_iff.
  - intros H. apply elem_of_GetSupportedCurrencies in H as [k0 Hk0].
    exists k0. by apply GetClient_Ok_iff.
  - intros [k0 Hk0]. apply elem_of_GetSupportedCurrencies.
    exists k0. by apply GetClient_Ok_iff.
  - intros H. apply elem_of_GetSupportedCurrencies in H.
    destruct (decide (c' ∈ regs.*1)) as [|Hn]; [done|].
    apply Hreg in Hn. rewrite Hn in H. by destruct H.
  - intros H. apply elem_of_GetSupportedCurrencies.
    destruct (clients (registerAll regs) !! c') eqn:E; [eauto|].
    apply Hreg in E. done.
  - unfold GetSupportedCurrencies. apply NoDup_fst_map_to_list.
Qed.

End RegistryFacts.

(** ** Confirmation counts *)

Section ConfirmationFacts.



(** The three ways [GetConfirmations] of the Ethereum client can end, by
    the answers of the node. *)
Lemma eth_GetConfirmations_cases (c : Ethereum.EthereumClient) (txID : string)
    (t : list Ethereum.Event) :
  let t1 := t ++ [Ethereum.CallTransactionReceipt (receiptKey txID)] in
  match Ethereum.TransactionReceipt (Ethereum.client c) (receiptKey txID) with
  | Err err =>
      Ethereum.GetConfirmations c txID t =
        (if errors_Is err NotFound then Ok 0
         else Err (Errorf_w "failed to get transaction receipt" err), t1)
  | Panic msg => Ethereum.GetConfirmations c txID t = (Panic msg, t1)
  | Ok receipt =>
      Ethereum.GetConfirmations c txID t =
        (match Ethereum.BlockNumber (Ethereum.client c) with
         | Ok currentBlock =>
             Ok (sub64 currentBlock (big_Uint64 (Ethereum.BlockNumber_ receipt)))
         | Err e => Err (Errorf_w "failed to get current block number" e)
         | Panic msg => Panic msg
         end, t1 ++ [Ethereum.CallBlockNumber])
  end.
Proof.
  unfold Ethereum.GetConfirmations, receiptKey, emit, bind, wrapM, ret. simpl.
  destruct (Ethereum.TransactionReceipt _ _) as [receipt|err|msg]; try reflexivity.
  - destruct (Ethereum.BlockNumber _); reflexivity.
  - destruct (errors_Is err NotFound); reflexivity.
Qed.

(** C10. When the node has no receipt for the transaction (the lookup
    ends in [ethereum.NotFound]), [GetConfirmations] of the Ethereum client
    returns 0 and no error, after that single node call. *)
Theorem eth_GetConfirmations_no_receipt (c : Ethereum.EthereumClient)
    (txID : string) (t : list Ethereum.Event) (err : error) :
  Ethereum.TransactionReceipt (Ethereum.client c) (receiptKey txID) = Err err ->
  errors_Is err NotFound = true ->
  Ethereum.GetConfirmations c txID t =
    (Ok 0, t ++ [Ethereum.CallTransactionReceipt (receiptKey txID)]).
Proof.
  intros Hr Hnf. pose proof (eth_GetConfirmations_cases c txID t) as H.
  simpl in H. rewrite Hr in H. by rewrite Hnf in H.
Qed.

Lemma eth_GetConfirmations_no_receipt_witness :
  errors_Is NotFound NotFound = true
  ∧ Ethereum.GetConfirmations
      (Fixtures.ethClient (Fixtures.ethNode 0 (Err NotFound) 5 (Ok tt))) "0x01" []
    = (Ok 0, [Ethereum.CallTransactionReceipt (receiptKey "0x01")]).
Proof.
  split; [reflexivity|].
  apply (eth_GetConfirmations_no_receipt
           (Fixtures.ethClient (Fixtures.ethNode 0 (Err NotFound) 5 (Ok tt)))
           "0x01" [] NotFound); reflexivity.
Defined.




End ConfirmationFacts.

(** ** Address validation before sending *)

Section SendFacts.

(** C6. On either client, when the source or the destination address
    fails the client's validation, [SendTransaction] returns
    [ErrInvalidAddress] and leaves the trace as it was: no node call is
    made and nothing is signed or broadcast. *)
Theorem SendTransaction_invalid_address :
  (∀ btcd c fromAddress toAddress amount privateKeyWIF t,
      Bitcoin.ValidateAddress btcd c fromAddress = false
      ∨ Bitcoin.ValidateAddress btcd c toAddress = false ->
      Bitcoin.SendTransaction btcd c fromAddress toAddress amount privateKeyWIF t
      = (Err ErrInvalidAddress, t))
  ∧ (∀ geth c fromAddress toAddress amount privateKeyHex t,
      Ethereum.ValidateAddress c fromAddress = false
      ∨ Ethereum.ValidateAddress c toAddress = false ->
      Ethereum.SendTransaction geth c fromAddress toAddress amount privateKeyHex t
      = (Err ErrInvalidAddress, t)).
Proof.
  split.
  - intros btcd c fromAddress toAddress amount privateKeyWIF t H.
    unfold Bitcoin.SendTransaction.
    destruct H as [-> | ->]; [reflexivity|].
    destruct (Bitcoin.ValidateAddress btcd c fromAddress); reflexivity.
  - intros geth c fromAddress toAddress amount privateKeyHex t H.
    unfold Ethereum.SendTransaction.
    destruct H as [-> | ->]; [reflexivity|].
    destruct (Ethereum.ValidateAddress c fromAddress); reflexivity.
Qed.

Lemma SendTransaction_invalid_address_witness :
  Bitcoin.ValidateAddress Fixtures.btcd (Fixtures.btcClient []) "1BgGZ9tcN4rm9KBzDn7KprQz87SZ26SAMh" = false
  ∧ Bitcoin.SendTransaction Fixtures.btcd (Fixtures.btcClient [])
      "1BgGZ9tcN4rm9KBzDn7KprQz87SZ26SAMh" Fixtures.addr2 1%float Fixtures.wif1 []
    = (Err ErrInvalidAddress, [])
  ∧ Ethereum.ValidateAddress
      (Fixtures.ethClient (Fixtures.ethNode 0 (Err NotFound) 5 (Ok tt)))
      "0x5aAeb6053F3E94C9b9A09f33669435E7Ef1BeAe" = false
  ∧ Ethereum.SendTransaction Fixtures.geth
      (Fixtures.ethClient (Fixtures.ethNode 0 (Err NotFound) 5 (Ok tt)))
      Fixtures.ethAddr1 "0x5aAeb6053F3E94C9b9A09f33669435E7Ef1BeAe" 1%float
      Fixtures.key1 []
    = (Err ErrInvalidAddress, []).
Proof.
  destruct SendTransaction_invalid_address as [Hbtc Heth].
  split; [reflexivity|]. split.
  - apply Hbtc. left. reflexivity.
  - split; [reflexivity|]. apply Heth. right. reflexivity.
Defined.

End SendFacts.

(** ** Known answers of the embedded library functions *)

Section KnownAnswers.

Example Keccak256_empty :
  string_of_list_ascii (hex.Encode (sha3.Keccak256 []))
  = "c5d2460186f7233c927e7db2dcc703c0e500b653ca82273b7bfad8045d85a470"%string.
Proof. vm_compute. reflexivity. Qed.

Example Keccak256_abc :
  string_of_list_ascii (hex.Encode (sha3.Keccak256 [97; 98; 99]))
  = "4e03657aea45a94fc7d47ba826c8d667c0d1e6e33a64a036ec44f58fa12d6c45"%string.
Proof. vm_compute. reflexivity. Qed.

(** Two of the test addresses of EIP-55. *)
Example Hex_eip55 :
  common.Hex (common.HexToAddress "0x5aaeb6053f3e94c9b9a09f33669435e7ef1beaed")
  = "0x5aAeb6053F3E94C9b9A09f33669435E7Ef1BeAed"%string
  ∧ common.Hex (common.HexToAddress "fb6916095ca1df60bb79ce92ce3ea74c37c5d359")
    = "0xfB6916095ca1df60bB79Ce92cE3Ea74c37c5d359"%string.
Proof. vm_compute. split; reflexivity. Qed.

(** The addresses of the private keys 1 and 3. *)
Example address_of_key_1 :
  (fun k => common.Hex (crypto.PubkeyToAddress k)) <$> Fixtures.ethKey1
  = Some Fixtures.ethAddr1.
Proof. vm_compute. reflexivity. Qed.

Example address_of_key_3 :
  match crypto.ToECDSA (be_bytes 32 3) with
  | Ok k => common.Hex (crypto.PubkeyToAddress k)
  | _ => ""%string
  end = "0x6813Eb9362372EEF6200f3b1dbC3f819671cBA69"%string.
Proof. vm_compute. reflexivity. Qed.

(** The identifier of a transaction is written with its bytes reversed. *)
Example NewHashFromStr_reverses :
  chainhash.NewHashFromStr "0102" = Ok (rev (repeat 0 30 ++ [1; 2])).
Proof. vm_compute. reflexivity. Qed.

End KnownAnswers.

(** ** Hexadecimal text of an address *)

Section HexFacts.

Lemma length_keccak_round a rc : length (sha3.keccak_round a rc) = 25%nat.
Proof.
  unfold sha3.keccak_round, sha3.chi.
  destruct (map _ sha3.coords) as [|a0 rest] eqn:E.
  - apply (f_equal length) in E. rewrite length_map in E. discriminate.
  - simpl. apply (f_equal length) in E. rewrite length_map in E. exact (eq_sym E).
Qed.

Lemma length_rounds l a :
  length a = 25%nat ∨ l <> [] -> length (fold_left sha3.keccak_round l a) = 25%nat.
Proof.
  revert a. induction l as [|rc l IH]; intros a H; simpl.
  - destruct H; [done | congruence].
  - apply IH. left. apply length_keccak_round.
Qed.

Lemma length_absorb fuel st bs :
  length st = 25%nat -> length (sha3.absorb fuel st bs) = 25%nat.
Proof.
  revert st bs. induction fuel as [|fuel IH]; intros st bs H; simpl; [done|].
  destruct bs; [done|]. apply IH. unfold sha3.keccak_f.
  apply length_rounds. right. discriminate.
Qed.

Lemma length_bytes_of_lane n w : length (sha3.bytes_of_lane n w) = n.
Proof. revert w. induction n as [|n IH]; intros w; simpl; [done|]. by rewrite IH. Qed.

Lemma bytes_of_lane_range n w : Forall is_byte (sha3.bytes_of_lane n w).
Proof.
  revert w. induction n as [|n IH]; intros w; simpl; constructor; [|apply IH].
  unfold is_byte. apply Z.mod_pos_bound. lia.
Qed.

Lemma length_flat_map_lanes st :
  length (flat_map (sha3.bytes_of_lane 8) st) = (8 * length st)%nat.
Proof.
  induction st as [|w st IH]; [done|].
  cbn [flat_map]. rewrite length_app, IH, length_bytes_of_lane. simpl. lia.
Qed.

Lemma Keccak256_length msg : length (sha3.Keccak256 msg) = 32%nat.
Proof.
  unfold sha3.Keccak256, sha3.sponge256.
  rewrite length_firstn, length_flat_map_lanes, length_absorb; [reflexivity|].
  reflexivity.
Qed.

Lemma Keccak256_range msg : Forall is_byte (sha3.Keccak256 msg).
Proof.
  unfold sha3.Keccak256, sha3.sponge256.
  apply Forall_take. apply Forall_flat_map, Forall_forall.
  intros w _. apply bytes_of_lane_range.
Qed.

Lemma checksumChar_casing c nib : common.checksumChar c nib = casing c (7 <? nib).
Proof. reflexivity. Qed.

Lemma reads_back_table :
  forallb (fun up1 => forallb (fun up2 => forallb (reads_back up1 up2) (seq 0 256))
                              [true; false]) [true; false] = true.
Proof. vm_compute. reflexivity. Qed.

Lemma digits_read_back b up1 up2 :
  is_byte b ->
  ∃ hi lo,
    hex.fromHexChar (casing (hex.hexdigit (Z.shiftr b 4)) up1) = Some hi
    ∧ hex.fromHexChar (casing (hex.hexdigit (Z.land b 15)) up2) = Some lo
    ∧ Z.lor (Z.shiftl hi 4) lo = b.
Proof.
  intros Hb. pose proof reads_back_table as T.
  assert (Hrb : reads_back up1 up2 (Z.to_nat b) = true).
  { rewrite forallb_forall in T.
    assert (H1 : In up1 [true; false]) by (destruct up1; simpl; auto).
    assert (H2 : In up2 [true; false]) by (destruct up2; simpl; auto).
    specialize (T up1 H1). rewrite forallb_forall in T.
    specialize (T up2 H2). rewrite forallb_forall in T.
    apply T. apply in_seq. unfold is_byte in Hb. lia. }
  unfold reads_back in Hrb. rewrite Z2Nat.id in Hrb by (unfold is_byte in Hb; lia).
  destruct (hex.fromHexChar (casing (hex.hexdigit (Z.shiftr b 4)) up1)) as [hi|];
    [|discriminate].
  destruct (hex.fromHexChar (casing (hex.hexdigit (Z.land b 15)) up2)) as [lo|];
    [|discriminate].
  exists hi, lo. repeat split. by apply Z.eqb_eq.
Qed.

Lemma Decode_checksummed a :
  Forall is_byte a ->
  ∀ nibs, (2 * length a <= length nibs)%nat ->
    hex.Decode (zip_with common.checksumChar (hex.Encode a) nibs) = (a, None).
Proof.
  induction 1 as [|b a Hb Ha IH]; intros nibs Hlen; [reflexivity|].
  destruct nibs as [|n1 [|n2 nibs]]; simpl in Hlen; try lia.
  unfold hex.Encode. cbn [flat_map app zip_with]. fold (hex.Encode a).
  rewrite !checksumChar_casing.
  destruct (digits_read_back b (7 <? n1) (7 <? n2) Hb) as (hi & lo & H1 & H2 & H3).
  cbn [hex.Decode]. rewrite H1, H2, IH by lia. by rewrite H3.
Qed.

Lemma length_string_of_list_ascii l :
  String.length (string_of_list_ascii l) = length l.
Proof. induction l as [|c l IH]; simpl; congruence. Qed.

Lemma length_Encode a : length (hex.Encode a) = (2 * length a)%nat.
Proof.
  unfold hex.Encode. induction a as [|b a IH]; [done|].
  cbn [flat_map]. rewrite length_app, IH. simpl. lia.
Qed.

Lemma length_nibbles h : length (common.nibbles h) = (2 * length h)%nat.
Proof.
  unfold common.nibbles. induction h as [|b h IH]; [done|].
  cbn [flat_map]. rewrite length_app, IH. simpl. lia.
Qed.

Lemma BytesToAddress_id a :
  length a = 20%nat -> common.BytesToAddress a = a.
Proof.
  intros H. unfold common.BytesToAddress, common.AddressLength.
  rewrite H. simpl. rewrite length_drop, H. reflexivity.
Qed.

(** Reading the checksummed text of an address gives the address back. *)
Lemma HexToAddress_Hex a :
  length a = 20%nat -> Forall is_byte a ->
  common.HexToAddress (common.Hex a) = a.
Proof.
  intros Hlen Hbytes. unfold common.HexToAddress, common.Hex, common.FromHex.
  set (nibs := common.nibbles _).
  set (body := zip_with common.checksumChar (hex.Encode a) nibs).
  assert (Hn : length nibs = 64%nat).
  { unfold nibs. by rewrite length_nibbles, Keccak256_length. }
  assert (Hbody : length body = 40%nat).
  { unfold body. by rewrite length_zip_with, length_Encode, Hlen, Hn. }
  change (common.drop0x (String "0" (String "x" (string_of_list_ascii body))))
    with (string_of_list_ascii body).
  rewrite length_string_of_list_ascii, Hbody.
  change (Nat.eqb (40 mod 2) 1) with false. cbv iota.
  unfold hex.DecodeString. rewrite list_ascii_of_string_of_list_ascii.
  unfold body. rewrite Decode_checksummed by (rewrite ?Hlen, ?Hn; simpl; lia || done).
  by apply BytesToAddress_id.
Qed.

Lemma PubkeyToAddress_wf k :
  length (crypto.PubkeyToAddress k) = 20%nat
  ∧ Forall is_byte (crypto.PubkeyToAddress k).
Proof.
  unfold crypto.PubkeyToAddress.
  set (h := sha3.Keccak256 _).
  assert (Hl : length (drop 12 h) = 20%nat).
  { rewrite length_drop. unfold h. by rewrite Keccak256_length. }
  rewrite BytesToAddress_id by exact Hl. split; [exact Hl|].
  apply Forall_drop. apply Keccak256_range.
Qed.

End HexFacts.

(** ** The Ethereum client: balance and key checks *)

Section EthereumSendFacts.

#[local] Set Warnings "-inexact-float".

Lemma toWei_not_Err amount e : Ethereum.toWei amount <> Err e.
Proof.
  unfold Ethereum.toWei, big.NewFloat.
  destruct (Prim2SF amount), (Prim2SF Ethereum.Ether); discriminate.
Qed.

(** One case split on the next answer that decides how the operation goes on. *)
Ltac next_answer :=
  match goal with
  | |- context [match ?x with _ => _ end] =>
      lazymatch x with
      | context [match _ with _ => _ end] => fail
      | _ => destruct x eqn:?
      end
  end.

(** [SendTransaction] of the Ethereum client never ends in
    [ErrInsufficientBalance]. *)
Lemma eth_SendTransaction_never_insufficient geth c fromAddress toAddress
    amount privateKeyHex t :
  fst (Ethereum.SendTransaction geth c fromAddress toAddress amount privateKeyHex t)
  <> Err ErrInsufficientBalance.
Proof.
  pose proof (toWei_not_Err amount) as Hwei.
  unfold Ethereum.SendTransaction, bind, lift, wrapM, emit, throw, ret, wrap.
  repeat next_answer; simpl; try discriminate.
  all: intros [= ->]; by eapply Hwei.
Qed.

(** The balances the node would report play no part in [SendTransaction]. *)
Lemma eth_SendTransaction_ignores_balance geth c bal fromAddress toAddress
    amount privateKeyHex t :
  Ethereum.SendTransaction geth (withBalanceAt c bal) fromAddress toAddress
    amount privateKeyHex t
  = Ethereum.SendTransaction geth c fromAddress toAddress amount privateKeyHex t.
Proof. reflexivity. Qed.

(** C4, on the code: [SendTransaction] of the Ethereum client does not
    compare the sender's balance with the cost. It never returns
    [ErrInsufficientBalance], its outcome does not depend on the balances
    the node reports, and for a sender whose balance is 0 the transfer of
    one ether is signed and handed to the node without any balance query;
    the refusal of the node comes back wrapped as a send failure. *)
Theorem eth_SendTransaction_no_balance_check :
  (∀ geth c fromAddress toAddress amount privateKeyHex t,
      fst (Ethereum.SendTransaction geth c fromAddress toAddress amount
             privateKeyHex t) <> Err ErrInsufficientBalance)
  ∧ (∀ geth c bal fromAddress toAddress amount privateKeyHex t,
      Ethereum.SendTransaction geth (withBalanceAt c bal) fromAddress toAddress
        amount privateKeyHex t
      = Ethereum.SendTransaction geth c fromAddress toAddress amount
          privateKeyHex t)
  ∧ fst Fixtures.ethSendUnfunded
    = Err (Errorf_w "failed to send transaction"
             (errors_New "insufficient funds for gas * price + value"))
  ∧ map (fun stx => Ethereum.Value (Ethereum.inner stx))
        (ethBroadcasts (snd Fixtures.ethSendUnfunded))
    = [1000000000000000000]
  ∧ balanceQueries (snd Fixtures.ethSendUnfunded) = [].
Proof.
  split; [exact eth_SendTransaction_never_insufficient|].
  split; [exact eth_SendTransaction_ignores_balance|].
  vm_compute. repeat split.
Qed.

(** The key check is sound: when the address derived from the key is not
    the address that [fromAddress] denotes, [SendTransaction] ends in the
    mismatch error and the trace is untouched. *)
Lemma eth_SendTransaction_mismatch geth c fromAddress toAddress amount
    privateKeyHex t d k :
  Ethereum.ValidateAddress c fromAddress = true ->
  Ethereum.ValidateAddress c toAddress = true ->
  hexutil.Decode (if HasPrefix privateKeyHex "0x" then privateKeyHex
                  else String "0" (String "x" privateKeyHex)) = Ok d ->
  crypto.ToECDSA d = Ok k ->
  crypto.PubkeyToAddress k <> common.HexToAddress fromAddress ->
  Ethereum.SendTransaction geth c fromAddress toAddress amount privateKeyHex t
  = (Err (errors_New "private key does not match from address"), t).
Proof.
  intros Hf Ht Hd Hk Hne.
  unfold Ethereum.SendTransaction. rewrite Hf, Ht. cbn [negb orb].
  unfold bind at 1. unfold lift at 1. rewrite Hd. cbn [wrap].
  unfold bind at 1. unfold lift at 1. rewrite Hk. cbn [wrap].
  destruct (String.eqb (common.Hex (crypto.PubkeyToAddress k)) fromAddress) eqn:E;
    [|reflexivity].
  exfalso. apply Hne. apply String.eqb_eq in E. rewrite <- E.
  destruct (PubkeyToAddress_wf k) as [Hl Hb]. by rewrite HexToAddress_Hex.
Qed.

(** C7, on the code: the key check compares the checksummed text of the
    derived address with the text of [fromAddress]. It is sound (a key
    whose address is not the one [fromAddress] denotes is refused before
    any node call) but refuses matching keys as well. Given the private key
    1 and its own address written in lower case, which the client
    validates and which denotes the address derived from the key,
    [SendTransaction] ends in the mismatch error before any node call;
    given the same address in checksummed form the check passes and the
    transaction is signed and handed to the node. *)
Theorem eth_SendTransaction_key_check_is_textual :
  (∀ geth c fromAddress toAddress amount privateKeyHex t d k,
      Ethereum.ValidateAddress c fromAddress = true ->
      Ethereum.ValidateAddress c toAddress = true ->
      hexutil.Decode (if HasPrefix privateKeyHex "0x" then privateKeyHex
                      else String "0" (String "x" privateKeyHex)) = Ok d ->
      crypto.ToECDSA d = Ok k ->
      crypto.PubkeyToAddress k <> common.HexToAddress fromAddress ->
      Ethereum.SendTransaction geth c fromAddress toAddress amount privateKeyHex t
      = (Err (errors_New "private key does not match from address"), t))
  ∧ Ethereum.ValidateAddress Fixtures.ethFunded Fixtures.ethAddr1_lower = true
  ∧ (crypto.PubkeyToAddress <$> Fixtures.ethKey1)
    = Some (common.HexToAddress Fixtures.ethAddr1_lower)
  ∧ common.HexToAddress Fixtures.ethAddr1_lower
    = common.HexToAddress Fixtures.ethAddr1
  ∧ Ethereum.SendTransaction Fixtures.geth Fixtures.ethFunded
      Fixtures.ethAddr1_lower Fixtures.ethAddr2 1%float Fixtures.key1 []
    = (Err (errors_New "private key does not match from address"), [])
  ∧ length (ethBroadcasts (snd (Ethereum.SendTransaction Fixtures.geth
      Fixtures.ethFunded Fixtures.ethAddr1 Fixtures.ethAddr2 1%float
      Fixtures.key1 []))) = 1%nat.
Proof.
  split; [exact eth_SendTransaction_mismatch|].
  vm_compute. repeat split.
Qed.

Lemma eth_SendTransaction_key_check_is_textual_witness :
  Ethereum.ValidateAddress Fixtures.ethFunded Fixtures.ethAddr2 = true
  ∧ Ethereum.SendTransaction Fixtures.geth Fixtures.ethFunded
      Fixtures.ethAddr2 Fixtures.ethAddr1 1%float Fixtures.key1 []
    = (Err (errors_New "private key does not match from address"), []).
Proof.
  destruct eth_SendTransaction_key_check_is_textual as [Hsound _].
  split; [reflexivity|].
  apply (Hsound Fixtures.geth Fixtures.ethFunded Fixtures.ethAddr2
           Fixtures.ethAddr1 1%float Fixtures.key1 [] (be_bytes 32 1)
           {| crypto.D := 1; crypto.X := secp256k1.Gx; crypto.Y := secp256k1.Gy |}).
  - reflexivity.
  - reflexivity.
  - vm_compute. reflexivity.
  - vm_compute. reflexivity.
  - vm_compute. discriminate.
Defined.

End EthereumSendFacts.

(** ** Address validation *)

Section ValidationFacts.

Lemma lower_isHexCharacter ch :
  common.isHexCharacter (lower ch) = common.isHexCharacter ch.
Proof. destruct ch as [[] [] [] [] [] [] [] []]; reflexivity. Qed.

Lemma lower_is_zero ch : Ascii.eqb (lower ch) "0" = Ascii.eqb ch "0".
Proof. destruct ch as [[] [] [] [] [] [] [] []]; reflexivity. Qed.

Lemma lower_is_x ch :
  Ascii.eqb (lower ch) "x" || Ascii.eqb (lower ch) "X"
  = Ascii.eqb ch "x" || Ascii.eqb ch "X".
Proof. destruct ch as [[] [] [] [] [] [] [] []]; reflexivity. Qed.

Lemma length_lowerString s : String.length (lowerString s) = String.length s.
Proof. induction s as [|ch s IH]; simpl; congruence. Qed.

Lemma has0xPrefix_lower s :
  common.has0xPrefix (lowerString s) = common.has0xPrefix s.
Proof.
  destruct s as [|c0 [|c1 s]]; try reflexivity.
  simpl. by rewrite lower_is_zero, lower_is_x.
Qed.

Lemma drop0x_lower s : common.drop0x (lowerString s) = lowerString (common.drop0x s).
Proof.
  unfold common.drop0x. rewrite has0xPrefix_lower.
  destruct (common.has0xPrefix s); [|reflexivity].
  by destruct s as [|c0 [|c1 s]].
Qed.

Lemma isHex_lower s : common.isHex (lowerString s) = common.isHex s.
Proof.
  unfold common.isHex. rewrite length_lowerString.
  destruct (negb _); [reflexivity|].
  induction s as [|ch s IH]; simpl; [reflexivity|].
  by rewrite lower_isHexCharacter, IH.
Qed.

Lemma IsHexAddress_lower s :
  common.IsHexAddress (lowerString s) = common.IsHexAddress s.
Proof.
  unfold common.IsHexAddress.
  by rewrite drop0x_lower, length_lowerString, isHex_lower.
Qed.





End ValidationFacts.

(** ** The Bitcoin client: input selection and amounts *)

Section BitcoinSendFacts.

#[local] Set Warnings "-inexact-float".









(** C2, on the code: the conversion of [SendTransaction] from BTC to
    satoshi discards the fraction of a binary product. 0.00000001 BTC
    becomes 1 satoshi, but 0.00000003 BTC becomes 2 satoshi, where
    rounding gives 3, and converting back gives 0.00000002 BTC; and the
    conversion from ether to wei turns 1.1 ether into
    1100000000000000128 wei. *)
Theorem conversions_lose_subunits :
  Bitcoin.toSatoshi 0.00000001%float = 1
  ∧ Bitcoin.toSatoshi 0.00000003%float = 2
  ∧ btcutil.NewAmount 0.00000003%float = 3
  ∧ btcutil.ToBTC (Bitcoin.toSatoshi 0.00000003%float) = 0.00000002%float
  ∧ (0.00000002 =? 0.00000003)%float = false
  ∧ Ethereum.toWei 1.1%float = Ok (Some 1100000000000000128).
Proof. vm_compute. repeat split. Qed.

End BitcoinSendFacts.

(** * Further properties *)

Import Inspect.

(** ** More on the registry *)

Section RegistryMore.

Import Registry.
Context {C : Type}.
Implicit Types (f : BlockchainClientFactory C) (c : string) (k : C).

Lemma clients_registerAll_app (regs regs' : list (string * C)) :
  clients (registerAll (regs ++ regs'))
  = clients (foldl (fun f r => RegisterClient f r.1 r.2) (registerAll regs) regs').
Proof. unfold registerAll. by rewrite foldl_app. Qed.

Lemma foldl_RegisterClient_keeps (regs : list (string * C)) f c k :
  clients f !! c = Some k -> c ∉ regs.*1 ->
  clients (foldl (fun f r => RegisterClient f r.1 r.2) f regs) !! c = Some k.
Proof.
  revert f. induction regs as [|[c' k'] regs IH]; intros f Hf Hn; [exact Hf|].
  simpl in *. apply not_elem_of_cons in Hn as [Hne Hn].
  apply IH; [|exact Hn]. simpl. by rewrite lookup_insert_ne.
Qed.

(** X1. A registration changes the answer of [GetClient] for its own
    currency code only; it adds that code to the supported currencies and
    removes none, and the list grows by one entry exactly when the code
    was not registered before (registering a code again never lists it
    twice); registrations for two different codes commute. *)
Theorem RegisterClient_frame :
  ∀ f c k c' k',
    GetClient (RegisterClient f c k) c'
    = (if decide (c' = c) then Ok k else GetClient f c')
    ∧ (c' ∈ GetSupportedCurrencies (RegisterClient f c k)
       ↔ c' = c ∨ c' ∈ GetSupportedCurrencies f)
    ∧ length (GetSupportedCurrencies (RegisterClient f c k))
      = (match GetClient f c with
         | Ok _ => length (GetSupportedCurrencies f)
         | _ => S (length (GetSupportedCurrencies f))
         end)
    ∧ (c <> c' ->
       RegisterClient (RegisterClient f c k) c' k'
       = RegisterClient (RegisterClient f c' k') c k).
Proof.
  intros f c k c' k'. split; [|split; [|split]].
  - unfold GetClient, RegisterClient. simpl. destruct (decide (c' = c)) as [->|Hne].
    + by rewrite lookup_insert_eq.
    + by rewrite lookup_insert_ne.
  - rewrite !elem_of_GetSupportedCurrencies. unfold RegisterClient. simpl.
    destruct (decide (c' = c)) as [->|Hne].
    + rewrite lookup_insert_eq. split; [by left | eauto].
    + rewrite lookup_insert_ne by done. split; [by right | by intros [?|?]].
  - unfold GetSupportedCurrencies, GetClient, RegisterClient. simpl.
    rewrite !length_fmap, !length_map_to_list.
    destruct (clients f !! c) as [k0|] eqn:E.
    + by rewrite map_size_insert_Some.
    + by rewrite map_size_insert_None.
  - intros Hne. unfold RegisterClient. simpl. f_equal.
    by apply insert_insert_ne.
Qed.

(** X2. After any sequence of registrations on a fresh factory,
    [GetClient] returns for a currency code the client of the last
    registration made for that code. *)
Theorem registerAll_last_wins (regs regs' : list (string * C)) c k :
  c ∉ regs'.*1 ->
  GetClient (registerAll (regs ++ (c, k) :: regs')) c = Ok k.
Proof.
  intros Hn. apply GetClient_Ok_iff.
  rewrite clients_registerAll_app. cbn [foldl].
  apply foldl_RegisterClient_keeps; [|exact Hn].
  simpl. by rewrite lookup_insert_eq.
Qed.

End RegistryMore.

Lemma registerAll_last_wins_witness :
  Registry.GetClient
    (Registry.registerAll
       ([("BTC"%string, 1%nat); ("ETH"%string, 2%nat)]
        ++ ("BTC"%string, 3%nat) :: [("ETH"%string, 4%nat)])) "BTC"
  = Ok 3%nat.
Proof.
  apply (registerAll_last_wins [("BTC"%string, 1%nat); ("ETH"%string, 2%nat)]
           [("ETH"%string, 4%nat)] "BTC"%string 3%nat).
  apply (bool_decide_unpack _). vm_compute. exact I.
Defined.

Section BitcoinMore.
#[local] Set Warnings "-inexact-float".


Lemma outpoints_setSignatureScript tx i s :
  outpoints (Bitcoin.setSignatureScript tx i s) = outpoints tx.
Proof.
  unfold outpoints, Bitcoin.setSignatureScript. simpl.
  generalize (Bitcoin.TxIn_ tx) as l. intros l. revert i.
  induction l as [|ti l IH]; intros [|i]; simpl; try reflexivity.
  f_equal. apply IH.
Qed.

Lemma length_setSignatureScript tx i s :
  length (Bitcoin.TxIn_ (Bitcoin.setSignatureScript tx i s)) = length (Bitcoin.TxIn_ tx).
Proof. unfold Bitcoin.setSignatureScript. simpl. apply length_alter. Qed.

(** The signing loop records only signing events, one for each index when
    it succeeds, and changes nothing but signature scripts. *)
Lemma signInputs_spec btcd destScript wif idxs :
  ∀ tx t, ∃ new,
    snd (Bitcoin.signInputs btcd destScript wif idxs tx t) = t ++ new
    ∧ forallb isSigning new = true
    ∧ match fst (Bitcoin.signInputs btcd destScript wif idxs tx t) with
      | Ok tx' =>
          length new = length idxs
          ∧ Bitcoin.TxOut_ tx' = Bitcoin.TxOut_ tx
          ∧ outpoints tx' = outpoints tx
          ∧ length (Bitcoin.TxIn_ tx') = length (Bitcoin.TxIn_ tx)
          ∧ Bitcoin.Version tx' = Bitcoin.Version tx
          ∧ Bitcoin.LockTime tx' = Bitcoin.LockTime tx
      | Err e => ∃ e', e = Errorf_w "failed to sign transaction" e'
      | Panic _ => True
      end.
Proof.
  induction idxs as [|i idxs IH]; intros tx t.
  - exists []. simpl. rewrite app_nil_r. repeat split.
  - cbn [Bitcoin.signInputs]. unfold bind at 1, wrapM at 1, emit at 1.
    destruct (Bitcoin.txscript_SignatureScript btcd tx i destScript
                (Bitcoin.PrivKey wif) true) as [sigScript|e|msg]; cbn [wrap].
    + destruct (IH (Bitcoin.setSignatureScript tx i sigScript)
                  (t ++ [Bitcoin.Signed tx i])) as (new & Ht & Hs & Hr).
      exists (Bitcoin.Signed tx i :: new). rewrite Ht.
      split; [by rewrite <- app_assoc|]. split; [exact Hs|].
      destruct (fst _) as [tx'|e|msg]; [|exact Hr|exact I].
      destruct Hr as (Hl & Ho & Hp & Hn & Hv & Hk).
      split; [simpl; congruence|]. split; [by rewrite Ho|].
      split; [by rewrite Hp, outpoints_setSignatureScript|].
      split; [by rewrite Hn, length_setSignatureScript|].
      split; [by rewrite Hv | by rewrite Hk].
    + exists [Bitcoin.Signed tx i]. simpl. repeat split. eauto.
    + exists [Bitcoin.Signed tx i]. simpl. repeat split.
Qed.


Lemma btcBroadcasts_signing new :
  forallb isSigning new = true -> btcBroadcasts new = [].
Proof.
  induction new as [|ev new IH]; [reflexivity|].
  simpl. destruct ev; try discriminate. intros H. simpl. by apply IH.
Qed.

Lemma btcSignings_signing new :
  forallb isSigning new = true -> length (btcSignings new) = length new.
Proof.
  induction new as [|ev new IH]; [reflexivity|].
  simpl. destruct ev; try discriminate. intros H. simpl. f_equal. by apply IH.
Qed.

Lemma btcBroadcasts_app t1 t2 :
  btcBroadcasts (t1 ++ t2) = btcBroadcasts t1 ++ btcBroadcasts t2.
Proof. unfold btcBroadcasts. apply flat_map_app. Qed.

Lemma btcSignings_app t1 t2 :
  btcSignings (t1 ++ t2) = btcSignings t1 ++ btcSignings t2.
Proof. unfold btcSignings. apply flat_map_app. Qed.

(** The input loop returns no error value: it ends normally or panics. *)
Lemma addInputs_not_Err fromAddress amount outs tx total e :
  Bitcoin.addInputs fromAddress amount outs tx total <> Err e.
Proof.
  revert tx total. induction outs as [|u outs IH]; intros tx total; simpl;
    [discriminate|].
  destruct (String.eqb _ _); [|apply IH].
  destruct (chainhash.NewHashFromStr _); try discriminate.
  destruct (_ <=? _)%float; [discriminate | apply IH].
Qed.

(** How a run of [SendTransaction] unfolds. Either it stops before
    anything is signed, or the node has listed outputs, the input loop
    has covered amount and fee, and the run is the signing loop on the
    transaction with its change, followed, if every input was signed, by
    the broadcast. *)
Lemma btc_SendTransaction_anatomy btcd c fromAddress toAddress amount wifText t :
  let run := Bitcoin.SendTransaction btcd c fromAddress toAddress amount wifText t in
  ∃ new, snd run = t ++ new
  ∧ ((btcBroadcasts new = [] ∧ btcSignings new = []
      ∧ (∀ h, fst run <> Ok h)
      ∧ (fst run = Err ErrInsufficientBalance -> new = [listCall])
      ∧ (new = [] ∨ new = [listCall]))
     ∨ (∃ wif destAddr destScript outs tx1 total news,
          Bitcoin.DecodeWIF btcd wifText = Ok wif
          ∧ Bitcoin.DecodeAddress btcd toAddress (Bitcoin.chainParams c) = Ok destAddr
          ∧ Bitcoin.PayToAddrScript btcd destAddr = Ok destScript
          ∧ Bitcoin.ListUnspentMinMaxAddresses (Bitcoin.client c) 1 9999999 [None] = Ok outs
          ∧ Bitcoin.addInputs fromAddress amount outs (withRecipient amount destScript) 0%float
            = Ok (tx1, total)
          ∧ (total <? amount + Bitcoin.fee)%float = false
          ∧ forallb isSigning news = true
          ∧ match fst (Bitcoin.signInputs btcd destScript wif
                         (seq 0 (length (Bitcoin.TxIn_ tx1)))
                         (withChange btcd c fromAddress amount total tx1)
                         (t ++ [listCall])) with
            | Ok tx3 =>
                new = listCall :: news ++ [Bitcoin.CallSendRawTransaction tx3 true]
                ∧ length news = length (Bitcoin.TxIn_ tx3)
                ∧ Bitcoin.TxOut_ tx3
                  = Bitcoin.TxOut_ (withChange btcd c fromAddress amount total tx1)
                ∧ outpoints tx3 = outpoints tx1
                ∧ fst run = match Bitcoin.SendRawTransaction (Bitcoin.client c) tx3 true with
                            | Ok h => Ok (hashString h)
                            | Err e => Err (Errorf_w "failed to broadcast transaction" e)
                            | Panic msg => Panic msg
                            end
            | Err e =>
                new = listCall :: news ∧ fst run = Err e
                ∧ ∃ e', e = Errorf_w "failed to sign transaction" e'
            | Panic msg => new = listCall :: news ∧ fst run = Panic msg
            end)).
Proof.
  intros run.
  assert (Hearly : ∀ (Q : list Bitcoin.Event -> Prop) (r : result string),
            run = (r, t) -> (∀ h, r <> Ok h) -> r <> Err ErrInsufficientBalance ->
            ∃ new, snd run = t ++ new
            ∧ ((btcBroadcasts new = [] ∧ btcSignings new = []
                ∧ (∀ h, fst run <> Ok h)
                ∧ (fst run = Err ErrInsufficientBalance -> new = [listCall])
                ∧ (new = [] ∨ new = [listCall])) ∨ Q new)).
  { intros Q r -> H1 H2. exists []. rewrite app_nil_r. split; [reflexivity|]. left.
    repeat split; auto. intros H; by destruct (H2 H). }
  assert (Hlisted : ∀ (Q : list Bitcoin.Event -> Prop) (r : result string),
            run = (r, t ++ [listCall]) -> (∀ h, r <> Ok h) ->
            ∃ new, snd run = t ++ new
            ∧ ((btcBroadcasts new = [] ∧ btcSignings new = []
                ∧ (∀ h, fst run <> Ok h)
                ∧ (fst run = Err ErrInsufficientBalance -> new = [listCall])
                ∧ (new = [] ∨ new = [listCall])) ∨ Q new)).
  { intros Q r -> H1. exists [listCall]. split; [reflexivity|]. left.
    repeat split; auto. }
  destruct (Bitcoin.ValidateAddress btcd c fromAddress) eqn:Hvf.
  2:{ apply (Hearly _ (Err ErrInvalidAddress)); try discriminate.
      subst run. unfold Bitcoin.SendTransaction. by rewrite Hvf. }
  destruct (Bitcoin.ValidateAddress btcd c toAddress) eqn:Hvt.
  2:{ apply (Hearly _ (Err ErrInvalidAddress)); try discriminate.
      subst run. unfold Bitcoin.SendTransaction. by rewrite Hvf, Hvt. }
  destruct (Bitcoin.DecodeWIF btcd wifText) as [wif|e|msg] eqn:Hwif.
  2:{ apply (Hearly _ (Err (Errorf_w "invalid private key" e))); try discriminate.
      subst run. unfold Bitcoin.SendTransaction, bind, lift.
      by rewrite Hvf, Hvt, Hwif. }
  2:{ apply (Hearly _ (Panic msg)); try discriminate.
      subst run. unfold Bitcoin.SendTransaction, bind, lift.
      by rewrite Hvf, Hvt, Hwif. }
  destruct (Bitcoin.DecodeAddress btcd toAddress (Bitcoin.chainParams c))
    as [destAddr|e|msg] eqn:Hdest.
  2:{ apply (Hearly _ (Err (Errorf_w "invalid destination address" e))); try discriminate.
      subst run. unfold Bitcoin.SendTransaction, bind, lift.
      by rewrite Hvf, Hvt, Hwif, Hdest. }
  2:{ apply (Hearly _ (Panic msg)); try discriminate.
      subst run. unfold Bitcoin.SendTransaction, bind, lift.
      by rewrite Hvf, Hvt, Hwif, Hdest. }
  destruct (Bitcoin.PayToAddrScript btcd destAddr) as [destScript|e|msg] eqn:Hpay.
  2:{ apply (Hearly _ (Err (Errorf_w "failed to create output script" e)));
        try discriminate.
      subst run. unfold Bitcoin.SendTransaction, bind, lift.
      rewrite Hvf, Hvt, Hwif, Hdest. cbn [negb orb wrap]. by rewrite Hpay. }
  2:{ apply (Hearly _ (Panic msg)); try discriminate.
      subst run. unfold Bitcoin.SendTransaction, bind, lift.
      rewrite Hvf, Hvt, Hwif, Hdest. cbn [negb orb wrap]. by rewrite Hpay. }
  destruct (Bitcoin.ListUnspentMinMaxAddresses (Bitcoin.client c) 1 9999999 [None])
    as [outs|e|msg] eqn:Hlist.
  2:{ apply (Hlisted _ (Err (Errorf_w "failed to get unspent outputs" e)));
        try discriminate.
      subst run. unfold Bitcoin.SendTransaction, bind, lift, wrapM, emit.
      rewrite Hvf, Hvt, Hwif, Hdest. cbn [negb orb wrap]. rewrite Hpay.
      cbn [wrap]. by rewrite Hlist. }
  2:{ apply (Hlisted _ (Panic msg)); try discriminate.
      subst run. unfold Bitcoin.SendTransaction, bind, lift, wrapM, emit.
      rewrite Hvf, Hvt, Hwif, Hdest. cbn [negb orb wrap]. rewrite Hpay.
      cbn [wrap]. by rewrite Hlist. }
  destruct (Bitcoin.addInputs fromAddress amount outs (withRecipient amount destScript) 0%float)
    as [[tx1 total]|e|msg] eqn:Hadd.
  2:{ exfalso. by eapply addInputs_not_Err. }
  2:{ apply (Hlisted _ (Panic msg)); try discriminate.
      subst run. unfold Bitcoin.SendTransaction, bind, lift, wrapM, emit.
      rewrite Hvf, Hvt, Hwif, Hdest. cbn [negb orb wrap]. rewrite Hpay.
      cbn [wrap]. rewrite Hlist. cbn [wrap].
      unfold withRecipient in Hadd. by rewrite Hadd. }
  destruct (total <? amount + Bitcoin.fee)%float eqn:Hlt.
  { apply (Hlisted _ (Err ErrInsufficientBalance)); try discriminate.
    subst run. unfold Bitcoin.SendTransaction, bind, lift, wrapM, emit, throw.
    rewrite Hvf, Hvt, Hwif, Hdest. cbn [negb orb wrap]. rewrite Hpay.
    cbn [wrap]. rewrite Hlist. cbn [wrap].
    unfold withRecipient in Hadd. rewrite Hadd. cbn [fst snd]. by rewrite Hlt. }
  clear Hearly Hlisted.
  set (tx2 := withChange btcd c fromAddress amount total tx1).
  assert (Hlen : length (Bitcoin.TxIn_ tx2) = length (Bitcoin.TxIn_ tx1)).
  { unfold tx2, withChange. by destruct (0 <? _)%float. }
  assert (Hops : outpoints tx2 = outpoints tx1).
  { unfold tx2, withChange. by destruct (0 <? _)%float. }
  assert (Hrun : run =
    match Bitcoin.signInputs btcd destScript wif (seq 0 (length (Bitcoin.TxIn_ tx1)))
            tx2 (t ++ [listCall]) with
    | (Ok tx3, t3) =>
        (match Bitcoin.SendRawTransaction (Bitcoin.client c) tx3 true with
         | Ok h => Ok (hashString h)
         | Err e => Err (Errorf_w "failed to broadcast transaction" e)
         | Panic msg => Panic msg
         end, t3 ++ [Bitcoin.CallSendRawTransaction tx3 true])
    | (Err e, t3) => (Err e, t3)
    | (Panic msg, t3) => (Panic msg, t3)
    end).
  { subst run. unfold Bitcoin.SendTransaction, bind, lift, wrapM, emit, throw, ret.
    rewrite Hvf, Hvt, Hwif, Hdest. cbn [negb orb wrap]. rewrite Hpay.
    cbn [wrap]. rewrite Hlist. cbn [wrap].
    unfold withRecipient in Hadd. rewrite Hadd. cbn [fst snd]. rewrite Hlt.
    rewrite <- Hlen. unfold tx2, withChange, changeOf, changeScriptOf, listCall.
    destruct (Bitcoin.signInputs _ _ _ _ _ _) as [[tx3|e|msg] t3]; try reflexivity.
    destruct (Bitcoin.SendRawTransaction _ _ _); reflexivity. }
  subst tx2.
  destruct (signInputs_spec btcd destScript wif (seq 0 (length (Bitcoin.TxIn_ tx1)))
              (withChange btcd c fromAddress amount total tx1) (t ++ [listCall]))
    as (news & Ht & Hs & Hr).
  destruct (Bitcoin.signInputs btcd destScript wif _
              (withChange btcd c fromAddress amount total tx1) _)
    as [[tx3|e|msg] t3] eqn:Hsign;
    cbn [fst snd] in Ht, Hr; subst t3; rewrite Hrun; rewrite ?Hsign; cbn [fst snd].
  - exists (listCall :: news ++ [Bitcoin.CallSendRawTransaction tx3 true]).
    split; [cbn [snd]; by rewrite <- !app_assoc|].
    right. exists wif, destAddr, destScript, outs, tx1, total, news.
    rewrite Hsign. cbn [fst].
    destruct Hr as (Hl & Ho & Hp & Hn & _).
    repeat split; auto.
    + by rewrite Hl, length_seq, Hn, Hlen.
    + by rewrite Hp, Hops.
  - exists (listCall :: news). split; [cbn [snd]; by rewrite <- app_assoc|].
    right. exists wif, destAddr, destScript, outs, tx1, total, news.
    rewrite Hsign. cbn [fst].
    repeat split; auto.
  - exists (listCall :: news). split; [cbn [snd]; by rewrite <- app_assoc|].
    right. exists wif, destAddr, destScript, outs, tx1, total, news.
    rewrite Hsign. cbn [fst].
    repeat split; auto.
Qed.

End BitcoinMore.

Section HashText.

Lemma casing_false ch : casing ch false = ch.
Proof. unfold casing. by rewrite andb_false_r. Qed.

(** Decoding the lower-case digits of a list of bytes gives the bytes back. *)
Lemma Decode_Encode a :
  Forall is_byte a -> hex.Decode (hex.Encode a) = (a, None).
Proof.
  induction 1 as [|b a Hb Ha IH]; [reflexivity|].
  unfold hex.Encode. cbn [flat_map app]. fold (hex.Encode a).
  destruct (digits_read_back b false false Hb) as (hi & lo & H1 & H2 & H3).
  rewrite !casing_false in *.
  cbn [hex.Decode]. rewrite H1, H2, IH. by rewrite H3.
Qed.

Lemma fromHexChar_isHexCharacter ch :
  hex.fromHexChar ch = None <-> common.isHexCharacter ch = false.
Proof.
  destruct ch as [[] [] [] [] [] [] [] []]; vm_compute; split; congruence.
Qed.

Lemma fromHexChar_range ch v : hex.fromHexChar ch = Some v -> 0 <= v < 16.
Proof.
  destruct ch as [[] [] [] [] [] [] [] []]; vm_compute; intros [= <-];
    split; discriminate || reflexivity.
Qed.

Lemma nibbles_byte a b : 0 <= a < 16 -> 0 <= b < 16 -> is_byte (Z.lor (Z.shiftl a 4) b).
Proof.
  intros Ha Hb. unfold is_byte.
  assert (Hlo : 0 <= Z.lor (Z.shiftl a 4) b).
  { apply Z.lor_nonneg. split; [apply Z.shiftl_nonneg|]; lia. }
  split; [exact Hlo|].
  destruct (Z.eq_dec (Z.lor (Z.shiftl a 4) b) 0) as [->|Hnz]; [lia|].
  apply Z.log2_lt_pow2 with (b := 8); [lia|].
  rewrite Z.log2_lor by (try apply Z.shiftl_nonneg; lia).
  apply Z.max_lub_lt.
  - destruct (Z.eq_dec a 0) as [->|Ha0]; [simpl; lia|].
    rewrite Z.log2_shiftl by lia.
    assert (Z.log2 a < 4) by (apply Z.log2_lt_pow2; lia). lia.
  - destruct (Z.eq_dec b 0) as [->|Hb0]; [simpl; lia|].
    assert (Z.log2 b < 4) by (apply Z.log2_lt_pow2; lia). lia.
Qed.

(** What [hex.Decode] answers on an even number of characters. *)
Lemma Decode_even n : ∀ l, length l = (2 * n)%nat ->
  if forallb common.isHexCharacter l
  then ∃ bs, hex.Decode l = (bs, None) ∧ length bs = n ∧ Forall is_byte bs
  else ∃ bs e, hex.Decode l = (bs, Some e).
Proof.
  induction n as [|n IH]; intros l Hl.
  - destruct l; [|discriminate]. simpl. exists []. by repeat split.
  - destruct l as [|p [|q rest]]; simpl in Hl; try lia.
    cbn [forallb hex.Decode].
    destruct (hex.fromHexChar p) as [a|] eqn:Ep.
    2:{ apply fromHexChar_isHexCharacter in Ep. rewrite Ep. simpl. eauto. }
    destruct (common.isHexCharacter p) eqn:Hp.
    2:{ apply fromHexChar_isHexCharacter in Hp. congruence. }
    destruct (hex.fromHexChar q) as [b|] eqn:Eq.
    2:{ apply fromHexChar_isHexCharacter in Eq. rewrite Eq. simpl. eauto. }
    destruct (common.isHexCharacter q) eqn:Hq.
    2:{ apply fromHexChar_isHexCharacter in Hq. congruence. }
    cbn [andb]. specialize (IH rest ltac:(lia)).
    destruct (forallb common.isHexCharacter rest).
    + destruct IH as (bs & -> & Hlen & Hbs). eexists. split; [reflexivity|].
      split; [simpl; lia|]. constructor; [|exact Hbs].
      apply nibbles_byte; eapply fromHexChar_range; eassumption.
    + destruct IH as (bs & e & ->). eauto.
Qed.

Lemma length_list_ascii_of_string s :
  length (list_ascii_of_string s) = String.length s.
Proof. induction s as [|ch s IH]; simpl; congruence. Qed.

(** The answer of [chainhash.NewHashFromStr]. *)
Lemma NewHashFromStr_cases s :
  if (String.length s <=? 64)%nat && hexText s
  then ∃ h, chainhash.NewHashFromStr s = Ok h ∧ length h = 32%nat ∧ Forall is_byte h
  else ∃ e, chainhash.NewHashFromStr s = Err e.
Proof.
  unfold chainhash.NewHashFromStr, chainhash.MaxHashStringSize, hexText.
  destruct (64 <? String.length s)%nat eqn:Hlen.
  { apply Nat.ltb_lt in Hlen.
    rewrite (proj2 (Nat.leb_gt _ _)) by lia. simpl. eauto. }
  apply Nat.ltb_ge in Hlen. rewrite (proj2 (Nat.leb_le _ _)) by lia. cbn [andb].
  set (src := if Nat.eqb (String.length s mod 2) 0 then s else String "0" s).
  assert (Hsrc : ∃ n, length (list_ascii_of_string src) = (2 * n)%nat
                      ∧ (n <= 32)%nat
                      ∧ forallb common.isHexCharacter (list_ascii_of_string src)
                        = forallb common.isHexCharacter (list_ascii_of_string s)).
  { subst src. destruct (Nat.eqb _ _) eqn:Hpar.
    - apply Nat.eqb_eq in Hpar. exists (String.length s / 2)%nat.
      rewrite length_list_ascii_of_string.
      pose proof (Nat.div_mod_eq (String.length s) 2). repeat split; lia.
    - apply Nat.eqb_neq in Hpar. exists (S (String.length s / 2))%nat.
      cbn [list_ascii_of_string length forallb].
      rewrite length_list_ascii_of_string.
      pose proof (Nat.div_mod_eq (String.length s) 2).
      pose proof (Nat.mod_upper_bound (String.length s) 2).
      split; [lia|]. split; [lia|]. reflexivity. }
  destruct Hsrc as (n & Hn & Hn32 & Hhex).
  unfold hex.DecodeString. pose proof (Decode_even n _ Hn) as HD. rewrite Hhex in HD.
  destruct (forallb common.isHexCharacter (list_ascii_of_string s)).
  - destruct HD as (bs & -> & Hbl & Hbs). eexists. split; [reflexivity|]. split.
    + rewrite length_rev, length_app, repeat_length. unfold chainhash.HashSize. lia.
    + apply Forall_rev. apply Forall_app. split; [|exact Hbs].
      apply Forall_forall. intros x Hx. apply list_elem_of_In, repeat_spec in Hx.
      subst x. unfold is_byte. lia.
  - destruct HD as (bs & e & ->). eauto.
Qed.


End HashText.

Section BitcoinMore2.
#[local] Set Warnings "-inexact-float".

(** X3. On every run of [SendTransaction] of the Bitcoin client at most
    one transaction is handed to the node; when one is, it is the last
    event of the run and each of its inputs has been signed before; the
    call returns a transaction identifier only when the node has accepted
    that transaction, and the identifier is the text of the node's hash;
    and when the call ends in [ErrInsufficientBalance] the listing of the
    unspent outputs is the only thing that has happened. *)
Theorem btc_SendTransaction_discipline btcd c fromAddress toAddress amount wifText t :
  let run := Bitcoin.SendTransaction btcd c fromAddress toAddress amount wifText t in
  ∃ new, snd run = t ++ new
  ∧ (length (btcBroadcasts new) <= 1)%nat
  ∧ (∀ tx, btcBroadcasts new = [tx] ->
       last new = Some (Bitcoin.CallSendRawTransaction tx true)
       ∧ length (btcSignings new) = length (Bitcoin.TxIn_ tx))
  ∧ (∀ h, fst run = Ok h ->
       ∃ tx hash, btcBroadcasts new = [tx]
       ∧ Bitcoin.SendRawTransaction (Bitcoin.client c) tx true = Ok hash
       ∧ h = hashString hash)
  ∧ (fst run = Err ErrInsufficientBalance -> new = [listCall]).
Proof.
  intros run.
  destruct (btc_SendTransaction_anatomy btcd c fromAddress toAddress amount wifText t)
    as (new & Hnew & [(Hb & Hs & Hok & Hins & _) | Hsig]); fold run in Hnew.
  - exists new. split; [exact Hnew|]. rewrite Hb. fold run in Hok, Hins.
    split; [simpl; lia|]. split; [discriminate|]. split; [|exact Hins].
    intros h Hh. by destruct (Hok h).
  - destruct Hsig as (wif & destAddr & destScript & outs & tx1 & total & news
                      & _ & _ & _ & _ & _ & _ & Hs & Hr).
    fold run in Hr. exists new. split; [exact Hnew|].
    destruct (fst (Bitcoin.signInputs _ _ _ _ _ _)) as [tx3|e|msg].
    + destruct Hr as (-> & Hl & _ & _ & Hrun).
      assert (Hb : btcBroadcasts (listCall :: news ++ [Bitcoin.CallSendRawTransaction tx3 true])
                   = [tx3]).
      { change (listCall :: ?l) with ([listCall] ++ l).
        rewrite !btcBroadcasts_app, (btcBroadcasts_signing news Hs). reflexivity. }
      rewrite Hb. split; [simpl; lia|]. split; [|split].
      * intros tx' [= <-]. change (listCall :: ?l) with ([listCall] ++ l). split.
        -- by rewrite app_assoc, last_snoc.
        -- rewrite !btcSignings_app. simpl. rewrite app_nil_r.
           by rewrite btcSignings_signing.
      * intros h Hh. rewrite Hrun in Hh.
        destruct (Bitcoin.SendRawTransaction _ _ _) as [hash| |] eqn:E;
          try discriminate.
        injection Hh as <-. by exists tx3, hash.
      * rewrite Hrun. destruct (Bitcoin.SendRawTransaction _ _ _); discriminate.
    + destruct Hr as (-> & Hrun & e' & ->).
      assert (Hb : btcBroadcasts (listCall :: news) = []).
      { change (listCall :: ?l) with ([listCall] ++ l).
        rewrite btcBroadcasts_app, (btcBroadcasts_signing news Hs). reflexivity. }
      rewrite Hb, Hrun. split; [simpl; lia|]. repeat split; discriminate.
    + destruct Hr as (-> & Hrun).
      assert (Hb : btcBroadcasts (listCall :: news) = []).
      { change (listCall :: ?l) with ([listCall] ++ l).
        rewrite btcBroadcasts_app, (btcBroadcasts_signing news Hs). reflexivity. }
      rewrite Hb, Hrun. split; [simpl; lia|]. repeat split; discriminate.
Qed.




End BitcoinMore2.


Section BitcoinIds.
#[local] Set Warnings "-inexact-float".

(** The two queries by identifier after the identifier has been parsed. *)
Lemma btc_GetConfirmations_parsed c txID hash t :
  chainhash.NewHashFromStr txID = Ok hash ->
  Bitcoin.GetConfirmations c txID t
  = (match Bitcoin.GetRawTransactionVerbose (Bitcoin.client c) hash with
     | Ok r => Ok (uint64 (Bitcoin.Confirmations r))
     | Err e => Err (Errorf_w "failed to get transaction" e)
     | Panic msg => Panic msg
     end, t ++ [Bitcoin.CallGetRawTransactionVerbose hash]).
Proof.
  intros H. unfold Bitcoin.GetConfirmations, bind, lift, wrapM, emit, ret.
  rewrite H. cbn [wrap].
  by destruct (Bitcoin.GetRawTransactionVerbose _ _).
Qed.

Lemma btc_GetConfirmations_unparsed c txID e t :
  chainhash.NewHashFromStr txID = Err e ->
  Bitcoin.GetConfirmations c txID t = (Err (Errorf_w "invalid transaction ID" e), t).
Proof.
  intros H. unfold Bitcoin.GetConfirmations, bind, lift, wrapM, emit, ret.
  by rewrite H.
Qed.

Lemma btc_GetTransaction_unparsed c more txID e t :
  chainhash.NewHashFromStr txID = Err e ->
  BitcoinQueries.GetTransaction c more txID t
  = (Err (Errorf_w "invalid transaction ID" e), t).
Proof.
  intros H. unfold BitcoinQueries.GetTransaction, bind, lift, wrapM, emit, ret.
  by rewrite H.
Qed.

Lemma btc_GetTransaction_parsed c more txID hash t :
  chainhash.NewHashFromStr txID = Ok hash ->
  snd (BitcoinQueries.GetTransaction c more txID t)
  = t ++ [Bitcoin.CallGetRawTransactionVerbose hash]
  ∧ match Bitcoin.GetRawTransactionVerbose (Bitcoin.client c) hash with
    | Ok r =>
        ∃ tx, fst (BitcoinQueries.GetTransaction c more txID t) = Ok tx
          ∧ blockchain.TxID tx = txID
          ∧ blockchain.ExplorerURL tx = BitcoinQueries.GetExplorerURL c txID
          ∧ blockchain.Status tx
            = (if 0 <? Bitcoin.Confirmations r then blockchain.StatusConfirmed
               else blockchain.StatusPending)
          ∧ blockchain.Confirmations tx
            = (if 0 <? Bitcoin.Confirmations r then uint64 (Bitcoin.Confirmations r)
               else 0)
          ∧ blockchain.BlockHash tx
            = (if 0 <? Bitcoin.Confirmations r then Bitcoin.BlockHash r
               else EmptyString)
          ∧ blockchain.BlockNumber tx
            = (if 0 <? Bitcoin.Confirmations r
               then uint64 (BitcoinQueries.BlockHeight (more hash)) else 0)
    | Err e =>
        fst (BitcoinQueries.GetTransaction c more txID t)
        = Err (Errorf_w "failed to get transaction" e)
    | Panic msg => fst (BitcoinQueries.GetTransaction c more txID t) = Panic msg
    end.
Proof.
  intros H. unfold BitcoinQueries.GetTransaction, bind, lift, wrapM, emit, ret.
  rewrite H. cbn [wrap].
  destruct (Bitcoin.GetRawTransactionVerbose _ _) as [r|e|msg]; cbn [wrap fst snd];
    split; try reflexivity.
  eexists. split; [reflexivity|]. cbn. by repeat split.
Qed.

(** X6. The Bitcoin client accepts as a transaction identifier exactly
    the texts of at most 64 characters that are all hexadecimal digits
    (so also the empty text and short texts, which are read as padded
    with zeros). On any other text [GetConfirmations] and [GetTransaction]
    end in the error [invalid transaction ID] without asking the node; on
    an accepted text both ask the node once, for the same 32-byte hash. *)
Theorem btc_txid_parsing c more txID t :
  if (String.length txID <=? 64)%nat && hexText txID
  then ∃ hash, chainhash.NewHashFromStr txID = Ok hash
         ∧ length hash = 32%nat
         ∧ snd (Bitcoin.GetConfirmations c txID t)
           = t ++ [Bitcoin.CallGetRawTransactionVerbose hash]
         ∧ snd (BitcoinQueries.GetTransaction c more txID t)
           = t ++ [Bitcoin.CallGetRawTransactionVerbose hash]
  else ∃ e, Bitcoin.GetConfirmations c txID t
            = (Err (Errorf_w "invalid transaction ID" e), t)
         ∧ BitcoinQueries.GetTransaction c more txID t
           = (Err (Errorf_w "invalid transaction ID" e), t).
Proof.
  pose proof (NewHashFromStr_cases txID) as H.
  destruct ((String.length txID <=? 64)%nat && hexText txID).
  - destruct H as (hash & Hh & Hl & _). exists hash.
    split; [exact Hh|]. split; [exact Hl|]. split.
    + by rewrite (btc_GetConfirmations_parsed _ _ _ _ Hh).
    + apply (btc_GetTransaction_parsed c more txID hash t Hh).
  - destruct H as (e & He). exists e. split.
    + by apply btc_GetConfirmations_unparsed.
    + by apply btc_GetTransaction_unparsed.
Qed.


End BitcoinIds.

Section BitcoinRoundTrip.
#[local] Set Warnings "-inexact-float".



End BitcoinRoundTrip.


Section EthereumMore.
#[local] Set Warnings "-inexact-float".

(** Whatever [hex.Decode] returns is made of bytes. *)
Lemma Decode_bytes_aux n : ∀ l, (length l <= n)%nat -> Forall is_byte (fst (hex.Decode l)).
Proof.
  induction n as [|n IH]; intros l Hl.
  - destruct l; [constructor | simpl in Hl; lia].
  - destruct l as [|p [|q rest]]; [constructor| |].
    + simpl. destruct (hex.fromHexChar p); constructor.
    + cbn [hex.Decode].
      destruct (hex.fromHexChar p) as [a|] eqn:Ep; [|constructor].
      destruct (hex.fromHexChar q) as [b|] eqn:Eq; [|constructor].
      specialize (IH rest ltac:(simpl in Hl; lia)).
      destruct (hex.Decode rest) as [bs err]. cbn [fst] in *.
      constructor; [|exact IH].
      apply nibbles_byte; eapply fromHexChar_range; eassumption.
Qed.

Lemma FromHex_bytes s : Forall is_byte (common.FromHex s).
Proof. unfold common.FromHex, hex.DecodeString. by eapply Decode_bytes_aux. Qed.

Lemma zero_byte : is_byte 0.
Proof. unfold is_byte. lia. Qed.

Lemma Forall_repeat_zero n : Forall is_byte (repeat 0 n).
Proof. induction n; constructor; [apply zero_byte | assumption]. Qed.

Lemma HexToAddress_wf s :
  length (common.HexToAddress s) = 20%nat ∧ Forall is_byte (common.HexToAddress s).
Proof.
  unfold common.HexToAddress, common.BytesToAddress, common.AddressLength.
  pose proof (FromHex_bytes s) as Hb. set (b := common.FromHex s) in *. split.
  - rewrite length_app, repeat_length, length_drop. lia.
  - apply Forall_app. split; [apply Forall_repeat_zero | by apply Forall_drop].
Qed.

(** The address that [SendTransaction] puts into the transaction. *)
Lemma HexToAddress_Hex_HexToAddress s :
  common.HexToAddress (common.Hex (common.HexToAddress s)) = common.HexToAddress s.
Proof. destruct (HexToAddress_wf s). by apply HexToAddress_Hex. Qed.

Lemma length_BytesToHash b : length (Ethereum.BytesToHash b) = 32%nat.
Proof.
  unfold Ethereum.BytesToHash, Ethereum.HashLength.
  rewrite length_app, repeat_length, length_drop. lia.
Qed.

Lemma BytesToHash_id h : length h = 32%nat -> Ethereum.BytesToHash h = h.
Proof.
  intros H. unfold Ethereum.BytesToHash, Ethereum.HashLength.
  rewrite H. simpl. rewrite length_drop, H. reflexivity.
Qed.

(** The text of a hash is read back as the hash. *)
Lemma HexToHash_HashHex h :
  length h = 32%nat -> Forall is_byte h ->
  Ethereum.HexToHash (Ethereum.HashHex h) = h.
Proof.
  intros Hl Hb. unfold Ethereum.HexToHash, Ethereum.HashHex, common.FromHex.
  change (common.drop0x (String "0" (String "x" ?s))) with s.
  rewrite length_string_of_list_ascii, length_Encode, Hl.
  change (Nat.eqb (2 * 32 mod 2) 1) with false. cbv iota.
  unfold hex.DecodeString. rewrite list_ascii_of_string_of_list_ascii.
  rewrite Decode_Encode by exact Hb. cbn [fst]. by apply BytesToHash_id.
Qed.

Lemma HasPrefix_0x s : HasPrefix (String "0" (String "x" s)) "0x" = true.
Proof. unfold HasPrefix. cbn. by destruct s. Qed.

Lemma withPrefix_HashHex h :
  EthereumQueries.withPrefix (Ethereum.HashHex h) = Ethereum.HashHex h.
Proof.
  unfold EthereumQueries.withPrefix, Ethereum.HashHex. by rewrite HasPrefix_0x.
Qed.

Lemma HasPrefix_withPrefix s : HasPrefix (EthereumQueries.withPrefix s) "0x" = true.
Proof.
  unfold EthereumQueries.withPrefix.
  destruct (HasPrefix s "0x") eqn:E; [exact E | apply HasPrefix_0x].
Qed.

Lemma withPrefix_idem s :
  EthereumQueries.withPrefix (EthereumQueries.withPrefix s) = EthereumQueries.withPrefix s.
Proof.
  unfold EthereumQueries.withPrefix at 1. by rewrite HasPrefix_withPrefix.
Qed.

Lemma receiptKey_withPrefix s : receiptKey s = Ethereum.HexToHash (EthereumQueries.withPrefix s).
Proof. reflexivity. Qed.

Ltac stopped :=
  left; cbn [wrap fst snd negb orb];
  split; [reflexivity|];
  split; [intros id; discriminate|];
  first [ left; reflexivity | right; exact I | right; by apply String.eqb_neq ].

(** How a run of [SendTransaction] of the Ethereum client goes. *)
Lemma eth_SendTransaction_anatomy geth c fromAddress toAddress amount privateKeyHex t :
  let run := Ethereum.SendTransaction geth c fromAddress toAddress amount privateKeyHex t in
  (snd run = t ∧ (∀ id, fst run <> Ok id)
   ∧ (Ethereum.ValidateAddress c fromAddress && Ethereum.ValidateAddress c toAddress
      = false
      ∨ match hexutil.Decode (EthereumQueries.withPrefix privateKeyHex) with
        | Ok d =>
            match crypto.ToECDSA d with
            | Ok k => common.Hex (crypto.PubkeyToAddress k) <> fromAddress
            | _ => True
            end
        | _ => True
        end))
  ∨ ∃ d k,
      Ethereum.ValidateAddress c fromAddress = true
      ∧ Ethereum.ValidateAddress c toAddress = true
      ∧ hexutil.Decode (EthereumQueries.withPrefix privateKeyHex) = Ok d
      ∧ crypto.ToECDSA d = Ok k
      ∧ common.Hex (crypto.PubkeyToAddress k) = fromAddress
      ∧ let a := crypto.PubkeyToAddress k in
        match Ethereum.PendingNonceAt (Ethereum.client c) a with
        | Ok nonce =>
            match Ethereum.SuggestGasPrice (Ethereum.client c) with
            | Ok gasPrice =>
                match Ethereum.toWei amount with
                | Ok value =>
                    let tx := Ethereum.NewTransaction nonce
                                (common.HexToAddress toAddress) value 21000 gasPrice [] in
                    match Ethereum.SignTx geth tx (Ethereum.chainID c) k with
                    | Ok stx =>
                        run = (match Ethereum.SendTransaction_ (Ethereum.client c) stx with
                               | Ok _ => Ok (Ethereum.HashHex (Ethereum.TxHash geth stx))
                               | Err e => Err (Errorf_w "failed to send transaction" e)
                               | Panic msg => Panic msg
                               end,
                               t ++ [Ethereum.CallPendingNonceAt a;
                                     Ethereum.CallSuggestGasPrice;
                                     Ethereum.Signed tx k;
                                     Ethereum.CallSendTransaction stx])
                    | Err e =>
                        run = (Err (Errorf_w "failed to sign transaction" e),
                               t ++ [Ethereum.CallPendingNonceAt a;
                                     Ethereum.CallSuggestGasPrice;
                                     Ethereum.Signed tx k])
                    | Panic msg =>
                        run = (Panic msg,
                               t ++ [Ethereum.CallPendingNonceAt a;
                                     Ethereum.CallSuggestGasPrice;
                                     Ethereum.Signed tx k])
                    end
                | Err e =>
                    run = (Err e, t ++ [Ethereum.CallPendingNonceAt a;
                                        Ethereum.CallSuggestGasPrice])
                | Panic msg =>
                    run = (Panic msg, t ++ [Ethereum.CallPendingNonceAt a;
                                            Ethereum.CallSuggestGasPrice])
                end
            | Err e =>
                run = (Err (Errorf_w "failed to get gas price" e),
                       t ++ [Ethereum.CallPendingNonceAt a; Ethereum.CallSuggestGasPrice])
            | Panic msg =>
                run = (Panic msg,
                       t ++ [Ethereum.CallPendingNonceAt a; Ethereum.CallSuggestGasPrice])
            end
        | Err e =>
            run = (Err (Errorf_w "failed to get nonce" e),
                   t ++ [Ethereum.CallPendingNonceAt a])
        | Panic msg => run = (Panic msg, t ++ [Ethereum.CallPendingNonceAt a])
        end.
Proof.
  intros run. subst run.
  unfold Ethereum.SendTransaction. cbv zeta.
  change (if HasPrefix privateKeyHex "0x" then privateKeyHex
          else String "0" (String "x" privateKeyHex))
    with (EthereumQueries.withPrefix privateKeyHex).
  rewrite HexToAddress_Hex_HexToAddress.
  unfold bind, lift, wrapM, emit, throw, ret.
  destruct (Ethereum.ValidateAddress c fromAddress) eqn:Hvf; [|stopped].
  destruct (Ethereum.ValidateAddress c toAddress) eqn:Hvt; [|stopped].
  cbn [negb orb].
  destruct (hexutil.Decode (EthereumQueries.withPrefix privateKeyHex)) as [d|e|msg] eqn:Hd;
    [| stopped | stopped].
  cbn [wrap].
  destruct (crypto.ToECDSA d) as [k|e|msg] eqn:Hk; [| stopped | stopped].
  cbn [wrap].
  destruct (String.eqb (common.Hex (crypto.PubkeyToAddress k)) fromAddress) eqn:Heq;
    [| stopped].
  right. exists d, k. apply String.eqb_eq in Heq as Hfrom.
  repeat (split; [first [assumption | reflexivity]|]). cbn [negb].
  destruct (Ethereum.PendingNonceAt _ _) as [nonce|e|msg]; cbn [wrap]; try reflexivity.
  destruct (Ethereum.SuggestGasPrice _) as [gasPrice|e|msg]; cbn [wrap];
    rewrite <- ?app_assoc; try reflexivity.
  destruct (Ethereum.toWei amount) as [value|e|msg];
    rewrite <- ?app_assoc; try reflexivity.
  destruct (Ethereum.SignTx _ _ _ _) as [stx|e|msg]; cbn [wrap];
    rewrite <- ?app_assoc; try reflexivity.
  destruct (Ethereum.SendTransaction_ _ _) as [[]|e|msg]; cbn [wrap];
    rewrite <- ?app_assoc; reflexivity.
Qed.

End EthereumMore.

Section EthereumSendMore.
#[local] Set Warnings "-inexact-float".

(** The address derived from a key that passes the key check is the one
    that [fromAddress] denotes. *)
Lemma key_check_address k fromAddress :
  common.Hex (crypto.PubkeyToAddress k) = fromAddress ->
  crypto.PubkeyToAddress k = common.HexToAddress fromAddress.
Proof.
  intros <-. destruct (PubkeyToAddress_wf k). by rewrite HexToAddress_Hex.
Qed.

(** X9. Every run of [SendTransaction] of the Ethereum client is an
    initial part of the same four steps, in this order: the pending nonce
    of the sender is asked for, the gas price is asked for, the
    transaction is signed, the signed transaction is handed to the node.
    The node is not contacted at all unless both addresses pass
    validation, the key parses and [fromAddress] is the checksummed text
    of the key's address. At most one transaction is handed over, and the
    call returns an identifier only when the node accepted it; the
    identifier is then the text of the hash of the signed transaction. *)
Theorem eth_SendTransaction_discipline geth c fromAddress toAddress amount
    privateKeyHex t :
  let run := Ethereum.SendTransaction geth c fromAddress toAddress amount privateKeyHex t in
  ∃ new, snd run = t ++ new
  ∧ (∃ tx k stx,
       new `prefix_of` [Ethereum.CallPendingNonceAt (common.HexToAddress fromAddress);
                        Ethereum.CallSuggestGasPrice;
                        Ethereum.Signed tx k;
                        Ethereum.CallSendTransaction stx])
  ∧ (new <> [] ->
       Ethereum.ValidateAddress c fromAddress = true
       ∧ Ethereum.ValidateAddress c toAddress = true
       ∧ fromAddress = common.Hex (common.HexToAddress fromAddress))
  ∧ (length (ethBroadcasts new) <= 1)%nat
  ∧ (∀ id, fst run = Ok id ->
       ∃ stx, ethBroadcasts new = [stx]
         ∧ Ethereum.SendTransaction_ (Ethereum.client c) stx = Ok tt
         ∧ id = Ethereum.HashHex (Ethereum.TxHash geth stx)).
Proof.
  intros run.
  set (dtx := Ethereum.NewTransaction 0 [] None 0 0 []).
  set (dk := {| crypto.D := 0; crypto.X := 0; crypto.Y := 0 |}).
  set (dstx := {| Ethereum.inner := dtx; Ethereum.sigV := 0;
                  Ethereum.sigR := 0; Ethereum.sigS := 0 |}).
  destruct (eth_SendTransaction_anatomy geth c fromAddress toAddress amount
              privateKeyHex t) as [(Hs & Hno & _) | (d & k & Hvf & Hvt & Hd & Hk & Hfrom & Hrun)];
    fold run in Hs, Hno || fold run in Hrun.
  - exists []. rewrite app_nil_r. split; [exact Hs|].
    split; [exists dtx, dk, dstx; apply prefix_nil|].
    split; [done|]. split; [simpl; lia|]. intros id Hid. by destruct (Hno id).
  - cbv zeta in Hrun. pose proof (key_check_address _ _ Hfrom) as Ha.
    rewrite Ha in Hrun.
    assert (Hchk : fromAddress = common.Hex (common.HexToAddress fromAddress)).
    { by rewrite <- Ha. }
    destruct (Ethereum.PendingNonceAt _ _) as [nonce|e|msg].
    2,3: rewrite Hrun; eexists; (split; [reflexivity|]);
         (split; [exists dtx, dk, dstx; by eexists|]);
         (split; [done|]); (split; [simpl; lia|]); intros id; discriminate.
    destruct (Ethereum.SuggestGasPrice _) as [gasPrice|e|msg].
    2,3: rewrite Hrun; eexists; (split; [reflexivity|]);
         (split; [exists dtx, dk, dstx; by eexists|]);
         (split; [done|]); (split; [simpl; lia|]); intros id; discriminate.
    destruct (Ethereum.toWei amount) as [value|e|msg].
    2,3: rewrite Hrun; eexists; (split; [reflexivity|]);
         (split; [exists dtx, dk, dstx; by eexists|]);
         (split; [done|]); (split; [simpl; lia|]); intros id; discriminate.
    destruct (Ethereum.SignTx _ _ _ _) as [stx|e|msg].
    2,3: rewrite Hrun; eexists; (split; [reflexivity|]);
         (split; [eexists _, _, dstx; by eexists|]);
         (split; [done|]); (split; [simpl; lia|]); intros id; discriminate.
    rewrite Hrun. eexists. split; [reflexivity|].
    split; [eexists _, _, _; exists []; reflexivity|].
    split; [done|]. split; [simpl; lia|].
    intros id. cbn [fst].
    destruct (Ethereum.SendTransaction_ _ _) as [[]|e|msg] eqn:Hsend; try discriminate.
    intros [= <-]. exists stx. by repeat split.
Qed.

(** X10. The transaction that [SendTransaction] of the Ethereum client
    hands to the node is the signature, under the client's chain
    identifier and by the key whose address [fromAddress] denotes, of a
    transfer with the nonce the node reported for that address, to the
    address that [toAddress] denotes, of the amount converted to wei, with
    gas limit 21000, the gas price the node suggested and no data. *)
Theorem eth_broadcast_shape geth c fromAddress toAddress amount privateKeyHex t new stx :
  snd (Ethereum.SendTransaction geth c fromAddress toAddress amount privateKeyHex t)
  = t ++ new ->
  In stx (ethBroadcasts new) ->
  ∃ k nonce gasPrice value,
    crypto.PubkeyToAddress k = common.HexToAddress fromAddress
    ∧ Ethereum.PendingNonceAt (Ethereum.client c) (common.HexToAddress fromAddress)
      = Ok nonce
    ∧ Ethereum.SuggestGasPrice (Ethereum.client c) = Ok gasPrice
    ∧ Ethereum.toWei amount = Ok value
    ∧ Ethereum.SignTx geth
        (Ethereum.NewTransaction nonce (common.HexToAddress toAddress) value
           21000 gasPrice [])
        (Ethereum.chainID c) k = Ok stx
    ∧ ethSignings new
      = [(Ethereum.NewTransaction nonce (common.HexToAddress toAddress) value
            21000 gasPrice [], k)]
    ∧ ethBroadcasts new = [stx].
Proof.
  intros Hnew Hin.
  destruct (eth_SendTransaction_anatomy geth c fromAddress toAddress amount
              privateKeyHex t) as [(Hs & Hno & _) | (d & k & Hvf & Hvt & Hd & Hk & Hfrom & Hrun)].
  - rewrite Hnew in Hs. rewrite <- (app_nil_r t) in Hs at 2.
    apply app_inv_head in Hs. subst new. destruct Hin.
  - cbv zeta in Hrun. pose proof (key_check_address _ _ Hfrom) as Ha.
    rewrite Ha in Hrun.
    assert (Hstop : ∀ r l,
              Ethereum.SendTransaction geth c fromAddress toAddress amount privateKeyHex t
              = (r, t ++ l) -> ethBroadcasts l = [] -> False).
    { intros r l Heq Hl. rewrite Heq in Hnew. cbn [snd] in Hnew.
      apply app_inv_head in Hnew. subst new. rewrite Hl in Hin. destruct Hin. }
    destruct (Ethereum.PendingNonceAt _ _) as [nonce|e|msg] eqn:Hn;
      [|by destruct (Hstop _ _ Hrun eq_refl)..].
    destruct (Ethereum.SuggestGasPrice _) as [gasPrice|e|msg] eqn:Hg;
      [|by destruct (Hstop _ _ Hrun eq_refl)..].
    destruct (Ethereum.toWei amount) as [value|e|msg] eqn:Hw;
      [|by destruct (Hstop _ _ Hrun eq_refl)..].
    destruct (Ethereum.SignTx _ _ _ _) as [stx'|e|msg] eqn:Hsig;
      [|by destruct (Hstop _ _ Hrun eq_refl)..].
    rewrite Hrun in Hnew. cbn [snd] in Hnew. apply app_inv_head in Hnew. subst new.
    destruct Hin as [<-|[]].
    exists k, nonce, gasPrice, value. by repeat split.
Qed.

End EthereumSendMore.

Lemma eth_broadcast_shape_witness :
  ∃ stx k nonce gasPrice value,
    In stx (ethBroadcasts (snd (Ethereum.SendTransaction Fixtures.geth
              Fixtures.ethFunded Fixtures.ethAddr1 Fixtures.ethAddr2 1%float
              Fixtures.key1 [])))
    ∧ crypto.PubkeyToAddress k = common.HexToAddress Fixtures.ethAddr1
    ∧ Ok 0 = Ok nonce
    ∧ Ok 1000000000 = Ok gasPrice
    ∧ Ethereum.toWei 1%float = Ok value
    ∧ Ethereum.SignTx Fixtures.geth
        (Ethereum.NewTransaction nonce (common.HexToAddress Fixtures.ethAddr2) value
           21000 gasPrice [])
        1 k = Ok stx.
Proof.
  destruct (ethBroadcasts (snd (Ethereum.SendTransaction Fixtures.geth
              Fixtures.ethFunded Fixtures.ethAddr1 Fixtures.ethAddr2 1%float
              Fixtures.key1 []))) as [|stx l] eqn:E; [vm_compute in E; discriminate|].
  destruct (eth_broadcast_shape Fixtures.geth Fixtures.ethFunded Fixtures.ethAddr1
              Fixtures.ethAddr2 1%float Fixtures.key1 []
              (snd (Ethereum.SendTransaction Fixtures.geth
                 Fixtures.ethFunded Fixtures.ethAddr1 Fixtures.ethAddr2 1%float
                 Fixtures.key1 [])) stx)
    as (k & nonce & gasPrice & value & H1 & H2 & H3 & H4 & H5 & _).
  - symmetry. apply app_nil_l.
  - rewrite E. left. reflexivity.
  - exists stx, k, nonce, gasPrice, value.
    split; [left; reflexivity|]. repeat split; assumption.
Defined.

Section EthereumIds.
#[local] Set Warnings "-inexact-float".

Lemma receiptKey_wf txID :
  length (receiptKey txID) = 32%nat ∧ Forall is_byte (receiptKey txID).
Proof.
  unfold receiptKey, Ethereum.HexToHash. split; [apply length_BytesToHash|].
  unfold Ethereum.BytesToHash. apply Forall_app.
  split; [apply Forall_repeat_zero|]. apply Forall_drop, FromHex_bytes.
Qed.

Lemma receiptKey_prefixed txID : receiptKey (EthereumQueries.withPrefix txID) = receiptKey txID.
Proof. by rewrite !receiptKey_withPrefix, withPrefix_idem. Qed.

Lemma eth_GetConfirmations_prefixed c txID t :
  Ethereum.GetConfirmations c (EthereumQueries.withPrefix txID) t
  = Ethereum.GetConfirmations c txID t.
Proof.
  unfold Ethereum.GetConfirmations. cbv zeta.
  change (if HasPrefix (EthereumQueries.withPrefix txID) "0x"
          then EthereumQueries.withPrefix txID
          else String "0" (String "x" (EthereumQueries.withPrefix txID)))
    with (EthereumQueries.withPrefix (EthereumQueries.withPrefix txID)).
  by rewrite withPrefix_idem.
Qed.

(** X11. [GetConfirmations] of the Ethereum client never refuses an
    identifier: every text, well formed or not, is turned into a hash of
    32 bytes and the node is asked for the receipt under that hash before
    anything else, and every error the call returns is an error of the
    node. The prefix 0x is optional: with and without it the call, and
    the explorer URL, are the same. *)
Theorem eth_GetConfirmations_any_text c txID t :
  length (receiptKey txID) = 32%nat
  ∧ (∃ rest, snd (Ethereum.GetConfirmations c txID t)
             = t ++ Ethereum.CallTransactionReceipt (receiptKey txID) :: rest
             ∧ (rest = [] ∨ rest = [Ethereum.CallBlockNumber]))
  ∧ (∀ e, fst (Ethereum.GetConfirmations c txID t) = Err e ->
       ∃ e',
         (Ethereum.TransactionReceipt (Ethereum.client c) (receiptKey txID) = Err e'
          ∧ errors_Is e' NotFound = false
          ∧ e = Errorf_w "failed to get transaction receipt" e')
         ∨ (Ethereum.BlockNumber (Ethereum.client c) = Err e'
            ∧ e = Errorf_w "failed to get current block number" e'))
  ∧ Ethereum.GetConfirmations c (EthereumQueries.withPrefix txID) t
    = Ethereum.GetConfirmations c txID t
  ∧ EthereumQueries.GetExplorerURL c (EthereumQueries.withPrefix txID)
    = EthereumQueries.GetExplorerURL c txID.
Proof.
  split; [apply receiptKey_wf|].
  pose proof (eth_GetConfirmations_cases c txID t) as H. cbv zeta in H.
  split; [|split; [|split]].
  - destruct (Ethereum.TransactionReceipt _ _) as [receipt|err|msg]; rewrite H;
      cbn [snd]; rewrite <- ?app_assoc; eauto.
  - intros e.
    destruct (Ethereum.TransactionReceipt _ _) as [receipt|err|msg]; rewrite H;
      cbn [fst].
    + destruct (Ethereum.BlockNumber _) as [h|e'|msg]; try discriminate.
      intros [= <-]. exists e'. by right.
    + destruct (errors_Is err NotFound) eqn:Hnf; try discriminate.
      intros [= <-]. exists err. by left.
    + discriminate.
  - apply eth_GetConfirmations_prefixed.
  - unfold EthereumQueries.GetExplorerURL. by rewrite withPrefix_idem.
Qed.

End EthereumIds.

Section EthereumRoundTrip.
#[local] Set Warnings "-inexact-float".

(** A successful [SendTransaction] returns the text of the hash of the
    transaction that it handed to the node. *)
Lemma eth_SendTransaction_Ok geth c fromAddress toAddress amount privateKeyHex t id :
  fst (Ethereum.SendTransaction geth c fromAddress toAddress amount privateKeyHex t)
  = Ok id ->
  ∃ stx,
    In stx (ethBroadcasts
              (snd (Ethereum.SendTransaction geth c fromAddress toAddress amount
                      privateKeyHex t)))
    ∧ id = Ethereum.HashHex (Ethereum.TxHash geth stx).
Proof.
  intros Hid.
  destruct (eth_SendTransaction_anatomy geth c fromAddress toAddress amount
              privateKeyHex t) as [(Hs & Hno & _) | (d & k & _ & _ & _ & _ & _ & Hrun)].
  { by destruct (Hno id). }
  cbv zeta in Hrun.
  destruct (Ethereum.PendingNonceAt _ _) as [nonce|e|msg];
    [|rewrite Hrun in Hid; discriminate..].
  destruct (Ethereum.SuggestGasPrice _) as [gasPrice|e|msg];
    [|rewrite Hrun in Hid; discriminate..].
  destruct (Ethereum.toWei amount) as [value|e|msg];
    [|rewrite Hrun in Hid; discriminate..].
  destruct (Ethereum.SignTx _ _ _ _) as [stx|e|msg];
    [|rewrite Hrun in Hid; discriminate..].
  rewrite Hrun in Hid |- *. cbn [fst snd] in *.
  destruct (Ethereum.SendTransaction_ _ _) as [[]|e|msg]; try discriminate.
  injection Hid as <-. exists stx. split; [|reflexivity].
  unfold ethBroadcasts. rewrite flat_map_app. apply in_or_app. right. simpl. by left.
Qed.

(** X12. The identifier that a successful [SendTransaction] of the
    Ethereum client returns can be handed back to [GetConfirmations]:
    when transaction hashes have 32 bytes, the identifier is read back as
    the hash of the transaction that was handed to the node, the node is
    asked for the receipt under that hash, the answer is 0 as long as the
    node has no receipt for it, and otherwise the current height minus
    the height of the receipt, in 64-bit unsigned arithmetic. *)
Theorem eth_sent_id_reads_back geth c fromAddress toAddress amount privateKeyHex t id :
  fst (Ethereum.SendTransaction geth c fromAddress toAddress amount privateKeyHex t)
  = Ok id ->
  (∀ stx, length (Ethereum.TxHash geth stx) = 32%nat
          ∧ Forall is_byte (Ethereum.TxHash geth stx)) ->
  ∃ stx,
    In stx (ethBroadcasts
              (snd (Ethereum.SendTransaction geth c fromAddress toAddress amount
                      privateKeyHex t)))
    ∧ receiptKey id = Ethereum.TxHash geth stx
    ∧ (∀ t', ∃ rest,
         snd (Ethereum.GetConfirmations c id t')
         = t' ++ Ethereum.CallTransactionReceipt (Ethereum.TxHash geth stx) :: rest)
    ∧ (∀ t' err,
         Ethereum.TransactionReceipt (Ethereum.client c) (Ethereum.TxHash geth stx)
         = Err err ->
         errors_Is err NotFound = true ->
         fst (Ethereum.GetConfirmations c id t') = Ok 0)
    ∧ (∀ t' receipt height,
         Ethereum.TransactionReceipt (Ethereum.client c) (Ethereum.TxHash geth stx)
         = Ok receipt ->
         Ethereum.BlockNumber (Ethereum.client c) = Ok height ->
         fst (Ethereum.GetConfirmations c id t')
         = Ok (sub64 height (big_Uint64 (Ethereum.BlockNumber_ receipt)))).
Proof.
  intros Hid Hhash.
  destruct (eth_SendTransaction_Ok _ _ _ _ _ _ _ _ Hid) as (stx & Hin & ->).
  destruct (Hhash stx) as [Hl Hb].
  assert (Hkey : receiptKey (Ethereum.HashHex (Ethereum.TxHash geth stx))
                 = Ethereum.TxHash geth stx).
  { rewrite receiptKey_withPrefix, withPrefix_HashHex. by apply HexToHash_HashHex. }
  exists stx. split; [exact Hin|]. split; [exact Hkey|].
  split; [|split].
  - intros t'. pose proof (eth_GetConfirmations_cases c
        (Ethereum.HashHex (Ethereum.TxHash geth stx)) t') as H.
    cbv zeta in H. rewrite Hkey in H.
    destruct (Ethereum.TransactionReceipt _ _); rewrite H; cbn [snd];
      rewrite <- ?app_assoc; eauto.
  - intros t' err Herr Hnf. pose proof (eth_GetConfirmations_cases c
        (Ethereum.HashHex (Ethereum.TxHash geth stx)) t') as H.
    cbv zeta in H. rewrite Hkey, Herr in H. rewrite H. cbn [fst]. by rewrite Hnf.
  - intros t' receipt height Hr Hh. pose proof (eth_GetConfirmations_cases c
        (Ethereum.HashHex (Ethereum.TxHash geth stx)) t') as H.
    cbv zeta in H. rewrite Hkey, Hr in H. rewrite H. cbn [fst]. by rewrite Hh.
Qed.

End EthereumRoundTrip.

Lemma eth_sent_id_reads_back_witness :
  ∃ id stx,
    fst (Ethereum.SendTransaction Fixtures.geth Fixtures.ethFunded Fixtures.ethAddr1
           Fixtures.ethAddr2 1%float Fixtures.key1 []) = Ok id
    ∧ receiptKey id = Ethereum.TxHash Fixtures.geth stx
    ∧ ∀ t', fst (Ethereum.GetConfirmations Fixtures.ethFunded id t') = Ok 0.
Proof.
  destruct (fst (Ethereum.SendTransaction Fixtures.geth Fixtures.ethFunded
                   Fixtures.ethAddr1 Fixtures.ethAddr2 1%float Fixtures.key1 []))
    as [id|e|msg] eqn:E; [|vm_compute in E; discriminate..].
  destruct (eth_sent_id_reads_back Fixtures.geth Fixtures.ethFunded Fixtures.ethAddr1
              Fixtures.ethAddr2 1%float Fixtures.key1 [] id E)
    as (stx & _ & Hkey & _ & Hzero & _).
  - intros stx. split; [apply Keccak256_length | apply Keccak256_range].
  - exists id, stx. split; [reflexivity|]. split; [exact Hkey|].
    intros t'. apply (Hzero t' NotFound); reflexivity.
Defined.

Section EthereumQueriesFacts.
#[local] Set Warnings "-inexact-float".

Lemma fromHexChar_lower ch : hex.fromHexChar (lower ch) = hex.fromHexChar ch.
Proof. destruct ch as [[] [] [] [] [] [] [] []]; reflexivity. Qed.

Lemma list_ascii_lowerString s :
  list_ascii_of_string (lowerString s) = map lower (list_ascii_of_string s).
Proof. induction s as [|ch s IH]; simpl; congruence. Qed.

(** The bytes that [hex.Decode] returns do not depend on the case of the
    digits. *)
Lemma Decode_lower_aux n : ∀ l, (length l <= n)%nat ->
  fst (hex.Decode (map lower l)) = fst (hex.Decode l).
Proof.
  induction n as [|n IH]; intros l Hl.
  - destruct l; [reflexivity | simpl in Hl; lia].
  - destruct l as [|p [|q rest]]; [reflexivity| |].
    + simpl. rewrite fromHexChar_lower. by destruct (hex.fromHexChar p).
    + cbn [map hex.Decode]. rewrite !fromHexChar_lower.
      destruct (hex.fromHexChar p); [|reflexivity].
      destruct (hex.fromHexChar q); [|reflexivity].
      specialize (IH rest ltac:(simpl in Hl; lia)).
      destruct (hex.Decode (map lower rest)), (hex.Decode rest).
      cbn [fst] in *. by rewrite IH.
Qed.

Lemma FromHex_lower s : common.FromHex (lowerString s) = common.FromHex s.
Proof.
  unfold common.FromHex. rewrite drop0x_lower, length_lowerString.
  unfold hex.DecodeString.
  destruct (Nat.eqb _ 1).
  - change (String "0" (lowerString (common.drop0x s)))
      with (lowerString (String "0" (common.drop0x s))).
    rewrite list_ascii_lowerString. by eapply Decode_lower_aux.
  - rewrite list_ascii_lowerString. by eapply Decode_lower_aux.
Qed.

Lemma HexToAddress_lower s :
  common.HexToAddress (lowerString s) = common.HexToAddress s.
Proof. unfold common.HexToAddress. by rewrite FromHex_lower. Qed.

Lemma isHexCharacter_casing b up1 up2 :
  is_byte b ->
  common.isHexCharacter (casing (hex.hexdigit (Z.shiftr b 4)) up1) = true
  ∧ common.isHexCharacter (casing (hex.hexdigit (Z.land b 15)) up2) = true.
Proof.
  intros Hb. destruct (digits_read_back b up1 up2 Hb) as (hi & lo & H1 & H2 & _).
  split.
  - destruct (common.isHexCharacter _) eqn:E; [reflexivity|].
    apply fromHexChar_isHexCharacter in E. congruence.
  - destruct (common.isHexCharacter _) eqn:E; [reflexivity|].
    apply fromHexChar_isHexCharacter in E. congruence.
Qed.

(** The digits of a checksummed address are hexadecimal digits. *)
Lemma checksummed_hex a :
  Forall is_byte a ->
  ∀ nibs, forallb common.isHexCharacter
            (zip_with common.checksumChar (hex.Encode a) nibs) = true.
Proof.
  induction 1 as [|b a Hb Ha IH]; intros nibs; [reflexivity|].
  unfold hex.Encode. cbn [flat_map app]. fold (hex.Encode a).
  destruct nibs as [|n1 [|n2 nibs]]; [reflexivity| |].
  - cbn [zip_with forallb]. rewrite checksumChar_casing.
    destruct (isHexCharacter_casing b (7 <? n1) false Hb) as [-> _]. reflexivity.
  - cbn [zip_with forallb]. rewrite !checksumChar_casing.
    destruct (isHexCharacter_casing b (7 <? n1) (7 <? n2) Hb) as [-> ->].
    by rewrite IH.
Qed.

(** The checksummed text of an address passes validation. *)
Lemma IsHexAddress_Hex a :
  length a = 20%nat -> Forall is_byte a -> common.IsHexAddress (common.Hex a) = true.
Proof.
  intros Hl Hb. unfold common.IsHexAddress, common.Hex.
  change (common.drop0x (String "0" (String "x" ?s))) with s.
  unfold common.isHex.
  rewrite length_string_of_list_ascii, length_zip_with, length_Encode, length_nibbles,
    Keccak256_length, Hl.
  rewrite list_ascii_of_string_of_list_ascii, checksummed_hex by exact Hb.
  reflexivity.
Qed.

Lemma eth_GetBalance_run c address t :
  EthereumQueries.GetBalance c address t
  = if Ethereum.ValidateAddress c address
    then (match Ethereum.BalanceAt (Ethereum.client c) (common.HexToAddress address) with
          | Ok balance => Ok (EthereumQueries.weiToEther balance)
          | Err e => Err (Errorf_w "failed to get balance" e)
          | Panic msg => Panic msg
          end, t ++ [Ethereum.CallBalanceAt (common.HexToAddress address)])
    else (Err ErrInvalidAddress, t).
Proof.
  unfold EthereumQueries.GetBalance.
  destruct (Ethereum.ValidateAddress c address); [|reflexivity].
  cbn [negb]. unfold bind, wrapM, emit, ret.
  by destruct (Ethereum.BalanceAt _ _).
Qed.

(** X13. [GetBalance] of the Ethereum client returns [ErrInvalidAddress]
    for a text that fails validation without asking the node; for a valid
    text it asks the node exactly once, for the balance of the address
    that the text denotes, and returns that balance converted to ether (a
    node error comes back wrapped). The answer depends on the denoted
    address only: an address written in lower case and the same address
    in its checksummed form give the same call and the same result as the
    text given. A balance of 0 wei is 0 ether and 1500000000000000000 wei
    are 1.5 ether. *)
Theorem eth_GetBalance_by_address c address t :
  (Ethereum.ValidateAddress c address = false ->
   EthereumQueries.GetBalance c address t = (Err ErrInvalidAddress, t))
  ∧ (Ethereum.ValidateAddress c address = true ->
     EthereumQueries.GetBalance c address t
     = (match Ethereum.BalanceAt (Ethereum.client c) (common.HexToAddress address) with
        | Ok balance => Ok (EthereumQueries.weiToEther balance)
        | Err e => Err (Errorf_w "failed to get balance" e)
        | Panic msg => Panic msg
        end, t ++ [Ethereum.CallBalanceAt (common.HexToAddress address)]))
  ∧ EthereumQueries.GetBalance c (lowerString address) t
    = EthereumQueries.GetBalance c address t
  ∧ (Ethereum.ValidateAddress c address = true ->
     EthereumQueries.GetBalance c (common.Hex (common.HexToAddress address)) t
     = EthereumQueries.GetBalance c address t)
  ∧ EthereumQueries.weiToEther 0 = 0%float
  ∧ EthereumQueries.weiToEther 1500000000000000000 = 1.5%float.
Proof.
  split; [|split; [|split; [|split; [|split; vm_compute; reflexivity]]]].
  - intros H. by rewrite eth_GetBalance_run, H.
  - intros H. by rewrite eth_GetBalance_run, H.
  - rewrite !eth_GetBalance_run. unfold Ethereum.ValidateAddress.
    by rewrite IsHexAddress_lower, HexToAddress_lower.
  - intros H. rewrite !eth_GetBalance_run, H.
    rewrite HexToAddress_Hex_HexToAddress.
    destruct (HexToAddress_wf address) as [Hl Hb].
    unfold Ethereum.ValidateAddress. by rewrite IsHexAddress_Hex.
Qed.



End EthereumQueriesFacts.

Section EthereumGenerate.
#[local] Set Warnings "-inexact-float".

Lemma be_bytes_range n z : Forall is_byte (be_bytes n z).
Proof.
  revert z. induction n as [|n IH]; intros z; [constructor|].
  cbn [be_bytes]. apply Forall_app. split; [apply IH|].
  constructor; [|constructor]. unfold is_byte.
  pose proof (Z.mod_pos_bound z 256). lia.
Qed.

(** The text of a key, as [GenerateAddress] logs it, is decoded to the
    bytes of the key. *)
Lemma hexutil_Decode_Encode b :
  Forall is_byte b ->
  hexutil.Decode (EthereumQueries.withPrefix (EthereumQueries.hexutil_Encode b)) = Ok b.
Proof.
  intros Hb. unfold EthereumQueries.withPrefix, EthereumQueries.hexutil_Encode.
  rewrite HasPrefix_0x. unfold hexutil.Decode.
  cbn [String.length Nat.eqb common.has0xPrefix Ascii.eqb Bool.eqb andb orb negb
       common.drop2].
  unfold hex.DecodeString. rewrite list_ascii_of_string_of_list_ascii.
  by rewrite Decode_Encode.
Qed.

(** X15. [GenerateAddress] of the Ethereum client returns the checksummed
    text of the address of the generated key and writes one line to the
    log that contains the private key in clear: the scalar as 64
    hexadecimal digits after 0x. For a key that [crypto.ToECDSA] reads
    back from its bytes, the returned address passes [ValidateAddress] and
    the logged key text is accepted for it by [SendTransaction], which
    goes on to ask the node for the nonce of that address. When no key
    can be generated the call fails and nothing is logged. *)
Theorem eth_GenerateAddress_usable c k t :
  crypto.ToECDSA (EthereumQueries.FromECDSA k) = Ok k ->
  let address := common.Hex (crypto.PubkeyToAddress k) in
  let keyText := EthereumQueries.hexutil_Encode (EthereumQueries.FromECDSA k) in
  EthereumQueries.GenerateAddress c (Ok k) t
  = (Ok address,
     t ++ [EthereumQueries.Printf
             ("Generated new Ethereum address: " +:+ address
              +:+ " with private key: " +:+ keyText)])
  ∧ String.length keyText = 66%nat
  ∧ Ethereum.ValidateAddress c address = true
  ∧ (∀ geth c' toAddress amount t',
       Ethereum.ValidateAddress c' toAddress = true ->
       ∃ rest,
         snd (Ethereum.SendTransaction geth c' address toAddress amount keyText t')
         = t' ++ Ethereum.CallPendingNonceAt (crypto.PubkeyToAddress k) :: rest)
  ∧ (∀ e, EthereumQueries.GenerateAddress c (Err e) t
          = (Err (Errorf_w "failed to generate private key" e), t)).
Proof.
  intros Hkey address keyText.
  destruct (PubkeyToAddress_wf k) as [Hl Hb].
  assert (Hvalid : ∀ c0, Ethereum.ValidateAddress c0 address = true).
  { intros c0. unfold Ethereum.ValidateAddress. by apply IsHexAddress_Hex. }
  split; [reflexivity|]. split; [|split; [apply Hvalid|split; [|reflexivity]]].
  - subst keyText. unfold EthereumQueries.hexutil_Encode, EthereumQueries.FromECDSA.
    cbn [String.length]. rewrite length_string_of_list_ascii, length_Encode.
    assert (Hn : ∀ n z, length (be_bytes n z) = n).
    { induction n as [|n IH]; intros z; [reflexivity|].
      cbn [be_bytes]. rewrite length_app, IH. simpl. lia. }
    by rewrite Hn.
  - intros geth c' toAddress amount t' Hto.
    destruct (eth_SendTransaction_anatomy geth c' address toAddress amount keyText t')
      as [(_ & _ & [Hv | Hkeys]) | (d & k' & _ & _ & Hd & Hk & _ & Hrun)].
    + rewrite Hvalid, Hto in Hv. discriminate.
    + exfalso. subst keyText.
      rewrite hexutil_Decode_Encode in Hkeys by apply be_bytes_range.
      fold (EthereumQueries.FromECDSA k) in Hkeys. rewrite Hkey in Hkeys.
      by apply Hkeys.
    + subst keyText. rewrite hexutil_Decode_Encode in Hd by apply be_bytes_range.
      injection Hd as <-. fold (EthereumQueries.FromECDSA k) in Hk.
      rewrite Hkey in Hk. injection Hk as <-. cbv zeta in Hrun.
      destruct (Ethereum.PendingNonceAt _ _) as [nonce|e|msg];
        [|rewrite Hrun; cbn [snd]; eauto..].
      destruct (Ethereum.SuggestGasPrice _) as [gasPrice|e|msg];
        [|rewrite Hrun; cbn [snd]; eauto..].
      destruct (Ethereum.toWei amount) as [value|e|msg];
        [|rewrite Hrun; cbn [snd]; eauto..].
      destruct (Ethereum.SignTx _ _ _ _) as [stx|e|msg];
        rewrite Hrun; cbn [snd]; eauto.
Qed.

End EthereumGenerate.

Lemma eth_GenerateAddress_usable_witness :
  Ethereum.ValidateAddress Fixtures.ethFunded
    (common.Hex (crypto.PubkeyToAddress
       {| crypto.D := 1; crypto.X := secp256k1.Gx; crypto.Y := secp256k1.Gy |})) = true
  ∧ String.length
      (EthereumQueries.hexutil_Encode
         (EthereumQueries.FromECDSA
            {| crypto.D := 1; crypto.X := secp256k1.Gx; crypto.Y := secp256k1.Gy |}))
    = 66%nat.
Proof.
  destruct (eth_GenerateAddress_usable Fixtures.ethFunded
              {| crypto.D := 1; crypto.X := secp256k1.Gx; crypto.Y := secp256k1.Gy |} [])
    as (_ & Hlen & Hvalid & _).
  - vm_compute. reflexivity.
  - split; [exact Hvalid | exact Hlen].
Defined.

Section EthereumTransactionFacts.
#[local] Set Warnings "-inexact-float".

Import EthereumTransactions.


End EthereumTransactionFacts.

Section ConstructorFacts.
#[local] Set Warnings "-inexact-float".

Import Constructors.

(** X17. A Bitcoin client that [NewBitcoinClient] returns was connected
    with the user and password of the configuration, over HTTP POST and
    with TLS disabled, and its node has answered [GetBlockCount]. Its
    network follows the test mode: it validates an address exactly when the
    address decodes for the test network in test mode and for the main
    network otherwise. Its explorer URL is the configured one, or the
    default for its network when none is configured, so that the URL of a
    transaction is never the bare identifier. *)
Theorem NewBitcoinClient_client rpcclient_New GetBlockCount config c :
  NewBitcoinClient rpcclient_New GetBlockCount config = Ok c ->
  (∃ connCfg height,
     rpcclient_New connCfg = Ok (Bitcoin.client c)
     ∧ GetBlockCount (Bitcoin.client c) = Ok height
     ∧ DisableTLS connCfg = true
     ∧ HTTPPostMode connCfg = true
     ∧ User connCfg = RPCUser config
     ∧ Pass connCfg = RPCPassword config)
  ∧ Bitcoin.testMode c = TestMode config
  ∧ (∀ btcd address,
       Bitcoin.ValidateAddress btcd c address = true
       <-> ∃ decoded,
             Bitcoin.DecodeAddress btcd address
               (if TestMode config then Bitcoin.TestNet3Params
                else Bitcoin.MainNetParams) = Ok decoded)
  ∧ (ExplorerURL config <> EmptyString ->
     ∀ txID, BitcoinQueries.GetExplorerURL c txID = (ExplorerURL config +:+ txID)%string)
  ∧ (ExplorerURL config = EmptyString ->
     ∀ txID, BitcoinQueries.GetExplorerURL c txID
             = ((if TestMode config then "https://blockstream.info/testnet/tx/"
                 else "https://blockstream.info/tx/") +:+ txID)%string).
Proof.
  unfold NewBitcoinClient. cbv zeta.
  destruct (rpcclient_New _) as [client|e|msg] eqn:Hnew; try discriminate.
  destruct (GetBlockCount client) as [height|e|msg] eqn:Hcount; try discriminate.
  intros [= <-]. cbn [Bitcoin.client Bitcoin.testMode].
  split; [eexists _, height; split; [exact Hnew|]; by repeat split|].
  split; [reflexivity|]. split; [|split].
  - intros btcd address. unfold Bitcoin.ValidateAddress. cbn [Bitcoin.chainParams].
    destruct (Bitcoin.DecodeAddress _ _ _) as [d|e|msg]; split;
      try discriminate; eauto; intros [d' Hd']; discriminate.
  - intros Hne txID. unfold BitcoinQueries.GetExplorerURL. cbn [Bitcoin.explorerURL].
    destruct (String.eqb_spec (ExplorerURL config) EmptyString); [contradiction|].
    reflexivity.
  - intros -> txID. reflexivity.
Qed.

Lemma eth_SendTransaction_same_node geth c c' :
  Ethereum.client c = Ethereum.client c' ->
  Ethereum.chainID c = Ethereum.chainID c' ->
  Ethereum.SendTransaction geth c = Ethereum.SendTransaction geth c'.
Proof.
  intros Hc Hid. unfold Ethereum.SendTransaction, Ethereum.ValidateAddress.
  by rewrite Hc, Hid.
Qed.

(** X18. An Ethereum client that [NewEthereumClient] returns signs for
    the chain whose identifier its node reported when it was connected.
    The test mode of the configuration selects no network: with the
    other test mode the constructor succeeds as well, and the client it
    returns runs [SendTransaction] in exactly the same way; only the
    explorer URL used when none is configured differs. *)
Theorem NewEthereumClient_client Dial ChainID config c :
  NewEthereumClient Dial ChainID config = Ok c ->
  Dial (NodeURL config) = Ok (Ethereum.client c)
  ∧ ChainID (Ethereum.client c) = Ok (Ethereum.chainID c)
  ∧ Ethereum.testMode c = EthTestMode config
  ∧ (∀ txID, EthereumQueries.GetExplorerURL c txID
             = ((if String.eqb (EthExplorerURL config) EmptyString
                 then if EthTestMode config then "https://sepolia.etherscan.io/tx/"
                      else "https://etherscan.io/tx/"
                 else EthExplorerURL config)
                +:+ EthereumQueries.withPrefix txID)%string)
  ∧ ∃ c',
      NewEthereumClient Dial ChainID
        {| NodeURL := NodeURL config;
           EthExplorerURL := EthExplorerURL config;
           EthTestMode := negb (EthTestMode config) |} = Ok c'
      ∧ ∀ geth, Ethereum.SendTransaction geth c' = Ethereum.SendTransaction geth c.
Proof.
  unfold NewEthereumClient. cbv zeta. cbn [NodeURL EthExplorerURL EthTestMode].
  destruct (Dial (NodeURL config)) as [client|e|msg] eqn:Hdial; try discriminate.
  destruct (ChainID client) as [chainID|e|msg] eqn:Hid; try discriminate.
  intros [= <-]. cbn [Ethereum.client Ethereum.chainID Ethereum.testMode].
  split; [reflexivity|]. split; [exact Hid|]. split; [reflexivity|].
  split; [reflexivity|].
  eexists. split; [reflexivity|]. intros geth.
  by apply eth_SendTransaction_same_node.
Qed.

End ConstructorFacts.

Lemma NewBitcoinClient_client_witness :
  Bitcoin.testMode (Fixtures.btcClient []) = false
  ∧ BitcoinQueries.GetExplorerURL (Fixtures.btcClient []) (Fixtures.txid "1")
    = ("https://blockstream.info/tx/" +:+ Fixtures.txid "1")%string.
Proof.
  destruct (NewBitcoinClient_client
              (fun _ => Ok (Fixtures.btcNode [])) (fun _ => Ok 800000)
              {| Constructors.RPCHost := "localhost"; Constructors.RPCPort := 8332;
                 Constructors.RPCUser := "user"; Constructors.RPCPassword := "pass";
                 Constructors.ExplorerURL := EmptyString;
                 Constructors.TestMode := false |}
              (Fixtures.btcClient []))
    as (_ & Htm & _ & _ & Hurl).
  - reflexivity.
  - split; [exact Htm | exact (Hurl eq_refl (Fixtures.txid "1"))].
Defined.

Lemma NewEthereumClient_client_witness :
  Ethereum.testMode Fixtures.ethFunded = false
  ∧ ∃ c',
      Ethereum.testMode c' = true
      ∧ ∀ geth, Ethereum.SendTransaction geth c'
                = Ethereum.SendTransaction geth Fixtures.ethFunded.
Proof.
  destruct (NewEthereumClient_client
              (fun _ => Ok (Ethereum.client Fixtures.ethFunded)) (fun _ => Ok 1)
              {| Constructors.NodeURL := "http://localhost:8545";
                 Constructors.EthExplorerURL := EmptyString;
                 Constructors.EthTestMode := false |}
              Fixtures.ethFunded)
    as (_ & _ & Htm & _ & c' & Hc' & Hsame).
  - reflexivity.
  - split; [exact Htm|]. exists c'. split; [|exact Hsame].
    injection Hc' as <-. reflexivity.
Defined.

Section SecurityFacts.

Import security.

(** The first and the last round constant, and SHA-256, HMAC-SHA256 and
    PBKDF2 on their published test vectors (FIPS 180-4, RFC 4231 and
    RFC 7914). *)
Lemma sha256_known_answers :
  length sha256.K = 64%nat
  ∧ nth 0 sha256.K 0 = 0x428a2f98
  ∧ nth 63 sha256.K 0 = 0xc67178f2
  ∧ EncodeToString (sha256.Sum256 [])
  = "e3b0c44298fc1c149afbf4c8996fb92427ae41e4649b934ca495991b7852b855"%string
  ∧ EncodeToString (sha256.Sum256 (bytes "abc"))
    = "ba7816bf8f01cfea414140de5dae2223b00361a396177a9cb410ff61f20015ad"%string
  ∧ EncodeToString
      (sha256.Sum256 (bytes "abcdbcdecdefdefgefghfghighijhijkijkljklmklmnlmnomnopnopq"))
    = "248d6a61d20638b8e5c026930c3e6039a33ce45964ff2167f6ecedd419db06c1"%string
  ∧ EncodeToString (hmac.Sum (bytes "Jefe") (bytes "what do ya want for nothing?"))
    = "5bdcc146bf60754e6a042426089575c75a003f089d2739839dec58b964ec3843"%string
  ∧ EncodeToString
      (hmac.Sum (repeat 0xaa 131)
         (bytes "Test Using Larger Than Block-Size Key - Hash Key First"))
    = "60e431591ee0b67f0d8a26aacbf5b77f8e0bc6213728c5140546040f0ee37f54"%string
  ∧ DeriveKey {| encryptionKey := []; jwtSecret := []; tokenExpiry := 0 |}
      "passwd" "salt" 1 64
    = Ok "55ac046e56e3089fec1691c22544b605f94185216dde0465e68b9d57c20dacbc49ca9cccf179b645991664b39d77ef317c71b845b1e30bd509112041d3a19783"%string.
Proof. vm_compute. repeat split. Qed.

Lemma length_be_bytes n z : length (be_bytes n z) = n.
Proof.
  revert z. induction n as [|n IH]; intros z; [reflexivity|].
  cbn [be_bytes]. rewrite length_app, IH. simpl. lia.
Qed.

Lemma Sum256_length msg : length (sha256.Sum256 msg) = 32%nat.
Proof. unfold sha256.Sum256. cbv zeta. by rewrite !length_app, !length_be_bytes. Qed.

Lemma Sum256_range msg : Forall is_byte (sha256.Sum256 msg).
Proof.
  unfold sha256.Sum256. cbv zeta.
  repeat (apply Forall_app; split; [apply be_bytes_range|]). apply be_bytes_range.
Qed.

Lemma hmac_Sum_wf key data :
  length (hmac.Sum key data) = 32%nat ∧ Forall is_byte (hmac.Sum key data).
Proof. unfold hmac.Sum. split; [apply Sum256_length | apply Sum256_range]. Qed.

Lemma hexdigit_lower_hex v :
  0 <= v < 16 ->
  common.isHexCharacter (hex.hexdigit v) = true ∧ lower (hex.hexdigit v) = hex.hexdigit v.
Proof.
  intros Hv.
  assert (H : v = 0 ∨ v = 1 ∨ v = 2 ∨ v = 3 ∨ v = 4 ∨ v = 5 ∨ v = 6 ∨ v = 7 ∨ v = 8
              ∨ v = 9 ∨ v = 10 ∨ v = 11 ∨ v = 12 ∨ v = 13 ∨ v = 14 ∨ v = 15) by lia.
  repeat (destruct H as [->|H]; [by split|]). subst v. by split.
Qed.

Lemma byte_nibbles b :
  is_byte b -> 0 <= Z.shiftr b 4 < 16 ∧ 0 <= Z.land b 15 < 16.
Proof.
  unfold is_byte. intros Hb. rewrite Z.shiftr_div_pow2 by lia.
  change 15 with (Z.ones 4). rewrite Z.land_ones by lia.
  change (2 ^ 4) with 16. split.
  - split; [apply Z.div_pos; lia | apply Z.div_lt_upper_bound; lia].
  - apply Z.mod_pos_bound. lia.
Qed.

(** The text that [hex.EncodeToString] gives for bytes: two lower-case
    hexadecimal digits per byte, from which the bytes are read back. *)
Lemma EncodeToString_spec b :
  Forall is_byte b ->
  String.length (EncodeToString b) = (2 * length b)%nat
  ∧ hexText (EncodeToString b) = true
  ∧ lowerString (EncodeToString b) = EncodeToString b
  ∧ hex.DecodeString (EncodeToString b) = (b, None).
Proof.
  intros Hb. unfold EncodeToString. split; [|split; [|split]].
  - by rewrite length_string_of_list_ascii, length_Encode.
  - unfold hexText. rewrite list_ascii_of_string_of_list_ascii.
    induction Hb as [|x l Hx Hl IH]; [reflexivity|].
    unfold hex.Encode. cbn [flat_map app forallb]. fold (hex.Encode l).
    destruct (byte_nibbles x Hx) as [H1 H2].
    destruct (hexdigit_lower_hex _ H1) as [-> _].
    destruct (hexdigit_lower_hex _ H2) as [-> _]. exact IH.
  - induction Hb as [|x l Hx Hl IH]; [reflexivity|].
    unfold hex.Encode. cbn [flat_map app string_of_list_ascii lowerString].
    fold (hex.Encode l). destruct (byte_nibbles x Hx) as [H1 H2].
    destruct (hexdigit_lower_hex _ H1) as [_ ->].
    destruct (hexdigit_lower_hex _ H2) as [_ ->]. by rewrite IH.
  - unfold hex.DecodeString. rewrite list_ascii_of_string_of_list_ascii.
    by apply Decode_Encode.
Qed.

(** X19. [VerifySignature] accepts a text for some data exactly when
    the data is not empty and the text is the signature that
    [GenerateSignature] computes for it. That signature exists for all
    data but the empty one, which both functions refuse; it is the
    HMAC-SHA256 of the data under the service's secret, written as 64
    lower-case hexadecimal digits, so that the same digits in upper case
    are not accepted. *)
Theorem VerifySignature_iff s data signature :
  (VerifySignature s data signature = true
   <-> data <> EmptyString ∧ GenerateSignature s data = Ok signature)
  ∧ (data <> EmptyString ->
     GenerateSignature s data
     = Ok (EncodeToString (hmac.Sum (jwtSecret s) (bytes data)))
     ∧ VerifySignature s data
         (EncodeToString (hmac.Sum (jwtSecret s) (bytes data))) = true)
  ∧ (GenerateSignature s data = Ok signature ->
     String.length signature = 64%nat
     ∧ hexText signature = true
     ∧ lowerString signature = signature
     ∧ hex.DecodeString signature = (hmac.Sum (jwtSecret s) (bytes data), None))
  ∧ GenerateSignature s EmptyString = Err ErrInvalidData
  ∧ VerifySignature s EmptyString signature = false
  ∧ VerifySignature s data EmptyString = false.
Proof.
  destruct (hmac_Sum_wf (jwtSecret s) (bytes data)) as [Hl Hb].
  destruct (EncodeToString_spec _ Hb) as (Hlen & Hhex & Hlow & Hdec).
  rewrite Hl in Hlen.
  assert (Hgen : data <> EmptyString ->
            GenerateSignature s data
            = Ok (EncodeToString (hmac.Sum (jwtSecret s) (bytes data)))).
  { intros Hd. unfold GenerateSignature.
    by destruct (String.eqb_spec data EmptyString). }
  assert (Hsig : ∀ sig, GenerateSignature s data = Ok sig ->
            data <> EmptyString
            ∧ sig = EncodeToString (hmac.Sum (jwtSecret s) (bytes data))).
  { intros sig. unfold GenerateSignature.
    destruct (String.eqb_spec data EmptyString); [discriminate|].
    intros [= <-]. by split. }
  assert (Hne : EncodeToString (hmac.Sum (jwtSecret s) (bytes data)) <> EmptyString).
  { intros E. rewrite E in Hlen. discriminate. }
  split; [|split; [|split; [|split; [|split]]]].
  - unfold VerifySignature. split.
    + destruct (String.eqb_spec data EmptyString) as [|Hd]; [discriminate|].
      destruct (String.eqb_spec signature EmptyString); [discriminate|].
      cbn [orb]. rewrite (Hgen Hd). intros E. apply String.eqb_eq in E.
      split; [exact Hd | by rewrite E].
    + intros [Hd Hs]. destruct (Hsig _ Hs) as [_ ->].
      destruct (String.eqb_spec data EmptyString); [contradiction|].
      destruct (String.eqb_spec (EncodeToString (hmac.Sum (jwtSecret s) (bytes data)))
                EmptyString); [contradiction|].
      cbn [orb]. rewrite (Hgen Hd). apply String.eqb_refl.
  - intros Hd. split; [by apply Hgen|]. unfold VerifySignature.
    destruct (String.eqb_spec data EmptyString); [contradiction|].
    destruct (String.eqb_spec (EncodeToString (hmac.Sum (jwtSecret s) (bytes data)))
                EmptyString); [contradiction|].
    cbn [orb]. rewrite (Hgen Hd). apply String.eqb_refl.
  - intros Hs. destruct (Hsig _ Hs) as [_ ->]. by repeat split.
  - reflexivity.
  - reflexivity.
  - unfold VerifySignature. by rewrite orb_true_r.
Qed.

(** X20. [NewSecurityService] refuses an encryption key or a token
    secret of fewer than 16 bytes with [ErrInvalidKey] and accepts every
    other pair. The keys it stores are the SHA-256 digests of the two
    texts: 32 bytes each, whatever the length of the texts, so that the
    secret is never longer than a block of the HMAC and is used as it
    is, padded with zeros. *)
Theorem NewSecurityService_keys encKey secret expiry :
  ((String.length encKey < 16)%nat ∨ (String.length secret < 16)%nat ->
   NewSecurityService encKey secret expiry = Err ErrInvalidKey)
  ∧ ((16 <= String.length encKey)%nat -> (16 <= String.length secret)%nat ->
     ∃ s, NewSecurityService encKey secret expiry = Ok s
       ∧ encryptionKey s = sha256.Sum256 (bytes encKey)
       ∧ jwtSecret s = sha256.Sum256 (bytes secret)
       ∧ tokenExpiry s = expiry
       ∧ length (encryptionKey s) = 32%nat
       ∧ length (jwtSecret s) = 32%nat
       ∧ hmac.blockKey (jwtSecret s) = jwtSecret s ++ repeat 0 32).
Proof.
  unfold NewSecurityService. split.
  - intros [H|H].
    + by rewrite (proj2 (Nat.ltb_lt _ _) H).
    + rewrite (proj2 (Nat.ltb_lt _ _) H). by destruct (_ <? _)%nat.
  - intros H1 H2.
    rewrite (proj2 (Nat.ltb_ge _ _) H1), (proj2 (Nat.ltb_ge _ _) H2).
    eexists. split; [reflexivity|]. cbn [encryptionKey jwtSecret tokenExpiry].
    split; [reflexivity|]. split; [reflexivity|]. split; [reflexivity|].
    split; [apply Sum256_length|]. split; [apply Sum256_length|].
    unfold hmac.blockKey. by rewrite Sum256_length.
Qed.

(** X21. When the random source fills the buffer it is given,
    [GenerateAPIKey] returns 64 and [GenerateAPISecret] 128 lower-case
    hexadecimal digits, from which the 32 and 64 random bytes are read
    back; when the source fails, the error comes back wrapped. *)
Theorem GenerateAPIKey_format ReadFull s :
  (∀ n b, ReadFull n = Ok b -> length b = n ∧ Forall is_byte b) ->
  (∀ key, GenerateAPIKey ReadFull s = Ok key ->
     String.length key = 64%nat ∧ hexText key = true ∧ lowerString key = key
     ∧ ∃ b, ReadFull 32%nat = Ok b ∧ hex.DecodeString key = (b, None))
  ∧ (∀ secret, GenerateAPISecret ReadFull s = Ok secret ->
     String.length secret = 128%nat ∧ hexText secret = true
     ∧ lowerString secret = secret
     ∧ ∃ b, ReadFull 64%nat = Ok b ∧ hex.DecodeString secret = (b, None))
  ∧ (∀ err, ReadFull 32%nat = Err err ->
     GenerateAPIKey ReadFull s = Err (Errorf_w "failed to generate random bytes" err))
  ∧ (∀ err, ReadFull 64%nat = Err err ->
     GenerateAPISecret ReadFull s
     = Err (Errorf_w "failed to generate random bytes" err)).
Proof.
  intros Hread. unfold GenerateAPIKey, GenerateAPISecret.
  split; [|split; [|split]].
  - intros key. destruct (ReadFull 32%nat) as [b|e|msg] eqn:E; try discriminate.
    intros [= <-]. destruct (Hread _ _ E) as [Hl Hb].
    destruct (EncodeToString_spec _ Hb) as (Hlen & Hhex & Hlow & Hdec).
    rewrite Hl in Hlen. repeat split; try assumption. by exists b.
  - intros key. destruct (ReadFull 64%nat) as [b|e|msg] eqn:E; try discriminate.
    intros [= <-]. destruct (Hread _ _ E) as [Hl Hb].
    destruct (EncodeToString_spec _ Hb) as (Hlen & Hhex & Hlow & Hdec).
    rewrite Hl in Hlen. repeat split; try assumption. by exists b.
  - by intros err ->.
  - by intros err ->.
Qed.

End SecurityFacts.

Lemma GenerateAPIKey_format_witness :
  hexText "abababababababababababababababababababababababababababababababab" = true
  ∧ ∃ b, Ok (repeat 171 32) = Ok b
      ∧ hex.DecodeString
          "abababababababababababababababababababababababababababababababab"
        = (b, None).
Proof.
  destruct (GenerateAPIKey_format (fun n => Ok (repeat 171 n))
              {| security.encryptionKey := []; security.jwtSecret := [];
                 security.tokenExpiry := 0 |}) as (Hkey & _).
  - intros n b [= <-]. split; [apply repeat_length|].
    apply Forall_forall. intros x Hx. apply list_elem_of_In, repeat_spec in Hx.
    subst x. unfold is_byte. lia.
  - destruct (Hkey "abababababababababababababababababababababababababababababababab"%string)
      as (_ & Hhex & _ & Hb); [reflexivity|].
    split; [exact Hhex | exact Hb].
Defined.

Section DeriveKeyFacts.

Import security.









End DeriveKeyFacts.

Section PlaceholderFacts.
#[local] Set Warnings "-inexact-float".


End PlaceholderFacts.
